(** * Sales-tender backend ([backend/server.py]): model and properties

    The server is a thin FastAPI layer over one document collection
    ([db.tenders]).  This development embeds

    - the part of Python's [datetime] module the handlers call
      ([date.isoformat], [datetime.isoformat], [datetime.fromisoformat],
      [datetime.date]),
    - the three pydantic models [Tender], [TenderCreate], [TenderUpdate] and
      their validation,
    - the document collection with the operations the handlers use,
    - the handlers [root], [create_tender], [get_tenders], [get_tender],
      [update_tender], [delete_tender], [get_customers], [get_sales_reps],

    and proves the properties the specification states about them, and
    further properties the code shows.  What belongs to the framework and
    the driver is left out: the matching of paths to routes, the CORS
    middleware, logging, and the closing of the client at shutdown.

    Layout: the definitions come first (the [datetime] module, values and
    models, the environment and the collection, validation, the handlers,
    the vocabulary of the statements and the sample data), then the facts
    (the round trip of [isoformat], the handlers one by one, the claims,
    the further properties, and all of them at the sample data). *)

From Stdlib Require Import ZArith String Ascii List Bool Lia.
From Stdlib Require Import Floats.PrimFloat Floats.FloatAxioms.
From stdpp Require Import gmap strings list fin_maps pretty.


Open Scope Z_scope.

(* ===================================================================== *)
(** * Python's [datetime] module *)
(* ===================================================================== *)

Module PyDatetime.

(** ** Calendar *)

Definition MINYEAR : Z := 1.
Definition MAXYEAR : Z := 9999.

Definition is_leap (y : Z) : bool :=
  (y mod 4 =? 0) && (negb (y mod 100 =? 0) || (y mod 400 =? 0)).

Definition days_in_month (y m : Z) : Z :=
  if m =? 2 then (if is_leap y then 29 else 28)
  else if (m =? 4) || (m =? 6) || (m =? 9) || (m =? 11) then 30
  else 31.

(** [_check_date_fields]: the constructor of [date] raises [ValueError]
    outside these ranges, so no [date] object exists outside them. *)
Definition check_date_fields (y m d : Z) : bool :=
  (MINYEAR <=? y) && (y <=? MAXYEAR) &&
  (1 <=? m) && (m <=? 12) &&
  (1 <=? d) && (d <=? days_in_month y m).

Record date : Type := mkdate {
  year : Z;
  month : Z;
  day : Z;
  date_ok : Is_true (check_date_fields year month day)
}.

(** [_check_time_fields] (the [fold] attribute is left out: it is not printed
    by [isoformat] and is 0 on every object this program builds). *)
Definition check_time_fields (h mi s us : Z) : bool :=
  (0 <=? h) && (h <? 24) && (0 <=? mi) && (mi <? 60) &&
  (0 <=? s) && (s <? 60) && (0 <=? us) && (us <? 1000000).

(** A [tzinfo] is identified with its fixed UTC offset, in microseconds;
    [timezone] requires it strictly between -24h and 24h. *)
Definition DAY_US : Z := 86400000000.

Definition check_utcoffset (tz : option Z) : bool :=
  match tz with
  | None => true
  | Some off => (- DAY_US <? off) && (off <? DAY_US)
  end.

Record datetime : Type := mkdatetime {
  dt_date : date;             (* [datetime.date()] *)
  hour : Z;
  minute : Z;
  second : Z;
  microsecond : Z;
  tzinfo : option Z;          (* [None]: naive *)
  datetime_ok :
    Is_true (check_time_fields hour minute second microsecond
             && check_utcoffset tzinfo)
}.

(** The constructors as Python has them: a [ValueError] is [None]. *)
Definition new_date (y m d : Z) : option date :=
  match decide (Is_true (check_date_fields y m d)) with
  | left H => Some (mkdate y m d H)
  | right _ => None
  end.

Definition new_datetime (d : date) (h mi s us : Z) (tz : option Z)
  : option datetime :=
  match decide (Is_true (check_time_fields h mi s us && check_utcoffset tz)) with
  | left H => Some (mkdatetime d h mi s us tz H)
  | right _ => None
  end.

(** ** Printing: ["%0wd"] and [isoformat] *)

Definition digit_char (n : Z) : ascii := ascii_of_N (Z.to_N (48 + n)).

(** ["%0wd" % n] for [0 <= n < 10^w], the only use the module makes of it
    on the fields of a [date] or [datetime]. *)
Fixpoint zfill (w : nat) (n : Z) : string :=
  match w with
  | O => ""
  | S w' => zfill w' (n / 10) +:+ String (digit_char (n mod 10)) ""
  end.

Definition date_isoformat (d : date) : string :=
  zfill 4 (year d) +:+ "-" +:+ zfill 2 (month d) +:+ "-" +:+ zfill 2 (day d).

(** [_format_time] with [timespec='auto']. *)
Definition format_time (h mi s us : Z) : string :=
  zfill 2 h +:+ ":" +:+ zfill 2 mi +:+ ":" +:+ zfill 2 s +:+
  (if us =? 0 then "" else "." +:+ zfill 6 us).

Definition HOUR_US : Z := 3600000000.
Definition MINUTE_US : Z := 60000000.
Definition SECOND_US : Z := 1000000.

(** [_format_offset]. *)
Definition format_offset (tz : option Z) : string :=
  match tz with
  | None => ""
  | Some off =>
      let sign := if off <? 0 then "-" else "+" in
      let off := Z.abs off in
      let hh := off / HOUR_US in
      let mm := (off mod HOUR_US) / MINUTE_US in
      let ss := (off mod HOUR_US) mod MINUTE_US in
      sign +:+ zfill 2 hh +:+ ":" +:+ zfill 2 mm +:+
      (if ss =? 0 then ""
       else ":" +:+ zfill 2 (ss / SECOND_US) +:+
            (if ss mod SECOND_US =? 0 then ""
             else "." +:+ zfill 6 (ss mod SECOND_US)))
  end.

Definition datetime_isoformat (t : datetime) : string :=
  date_isoformat (dt_date t) +:+ "T" +:+
  format_time (hour t) (minute t) (second t) (microsecond t) +:+
  format_offset (tzinfo t).

(** ** Parsing: [fromisoformat] *)

Definition digit_val (c : ascii) : option Z :=
  let n := Z.of_N (N_of_ascii c) in
  if (48 <=? n) && (n <=? 57) then Some (n - 48) else None.

(** [int(s)] on a non-empty string of ASCII digits. *)
Fixpoint int_digits (acc : Z) (s : string) : option Z :=
  match s with
  | EmptyString => Some acc
  | String c s' =>
      match digit_val c with
      | Some v => int_digits (10 * acc + v) s'
      | None => None
      end
  end.

Definition int_of (s : string) : option Z :=
  match s with
  | EmptyString => None
  | _ => int_digits 0 s
  end.

(** [s[i:j]] and [s[i:]]. *)
Definition slice (i j : nat) (s : string) : string := substring i (j - i) s.
Definition slice_from (i : nat) (s : string) : string :=
  substring i (String.length s - i) s.

(** [s[i] == c] (false when [i] is out of range). *)
Definition char_at (i : nat) (c : ascii) (s : string) : bool :=
  match String.get i s with
  | Some a => Ascii.eqb a c
  | None => false
  end.

(** [s.find(c)] for a one-character needle. *)
Fixpoint find_char (c : ascii) (s : string) : option nat :=
  match s with
  | EmptyString => None
  | String a s' =>
      if Ascii.eqb a c then Some O else option_map S (find_char c s')
  end.

(** [_parse_isoformat_date].  It is applied to [date_string[0:10]]; the
    accepted strings are the ten-character ones, [YYYY-MM-DD]. *)
Definition parse_isoformat_date (dstr : string) : option date :=
  if negb (String.length dstr =? 10)%nat then None
  else
    y ← int_of (slice 0 4 dstr);
    if negb (char_at 4 "-" dstr) then None      (* invalid date separator *)
    else
      m ← int_of (slice 5 7 dstr);
      if negb (char_at 7 "-" dstr) then None    (* invalid date separator *)
      else
        d ← int_of (slice 8 10 dstr);
        new_date y m d.

(** The loop of [_parse_hh_mm_ss_ff]: up to [n] two-digit components
    separated by [":"]; returns the components read and what follows them. *)
Fixpoint parse_comps (n : nat) (s : string) : option (list Z * string) :=
  match n with
  | O => Some ([], s)
  | S n' =>
      if (String.length s <? 2)%nat then None   (* incomplete component *)
      else
        v ← int_of (slice 0 2 s);
        match slice_from 2 s, n' with
        | EmptyString, _ => Some ([v], "")
        | rest, O => Some ([v], rest)           (* third component: stop *)
        | String c rest', _ =>
            if Ascii.eqb c ":" then
              '(vs, r) ← parse_comps n' rest'; Some (v :: vs, r)
            else None                           (* invalid time separator *)
        end
  end.

(** [_parse_hh_mm_ss_ff]: [HH[:MM[:SS[.fff[fff]]]]]. *)
Definition parse_hh_mm_ss_ff (tstr : string) : option (Z * Z * Z * Z) :=
  '(comps, rest) ← parse_comps 3 tstr;
  us ← match rest with
       | EmptyString => Some 0
       | String c frac =>
           if Ascii.eqb c "." then
             match String.length frac with
             | 3%nat => v ← int_of frac; Some (v * 1000)
             | 6%nat => int_of frac
             | _ => None
             end
           else None
       end;
  Some (nth 0 comps 0, nth 1 comps 0, nth 2 comps 0, us).

(** [_parse_isoformat_time]:
    [HH[:MM[:SS[.fff[fff]]]][+HH:MM[:SS[.ffffff]]]]. *)
Definition parse_isoformat_time (tstr : string)
  : option (Z * Z * Z * Z * option Z) :=
  if (String.length tstr <? 2)%nat then None
  else
    (* [tz_pos = (tstr.find('-') + 1 or tstr.find('+') + 1)] *)
    let tz_pos : nat :=
      match find_char "-" tstr with
      | Some i => S i
      | None => match find_char "+" tstr with Some i => S i | None => O end
      end in
    let timestr := if (0 <? tz_pos)%nat then slice 0 (tz_pos - 1) tstr else tstr in
    '(h, mi, s, us) ← parse_hh_mm_ss_ff timestr;
    if (0 <? tz_pos)%nat then
      let tzstr := slice_from tz_pos tstr in
      let n := String.length tzstr in
      if negb ((n =? 5) || (n =? 8) || (n =? 15))%nat then None
      else
        '(th, tm, ts, tus) ← parse_hh_mm_ss_ff tzstr;
        if (th =? 0) && (tm =? 0) && (ts =? 0) && (tus =? 0)
        then Some (h, mi, s, us, Some 0)        (* [timezone.utc] *)
        else
          let tzsign :=
            if char_at (tz_pos - 1) "-" tstr then -1 else 1 in
          let td := th * HOUR_US + tm * MINUTE_US + ts * SECOND_US + tus in
          Some (h, mi, s, us, Some (tzsign * td))
    else Some (h, mi, s, us, None).

(** [datetime.fromisoformat] as the Python source of the module defines it
    in Python 3.7 to 3.10: the strings [datetime.isoformat] emits.  Later
    versions accept further ISO-8601 forms and agree with this one where it
    succeeds.  The C implementation of the module departs from the Python
    source on two kinds of string: it reads an offset of less than a second
    as UTC, and it refuses a date followed by a separator and nothing else.
    Neither is what [isoformat] prints for a date-time that is naive or at a
    whole number of minutes from UTC, and a JSON body brings in no other
    date-time. *)
Definition datetime_fromisoformat (date_string : string) : option datetime :=
  let dstr := slice 0 10 date_string in
  let tstr := slice_from 11 date_string in
  d ← parse_isoformat_date dstr;
  match tstr with
  | EmptyString => new_datetime d 0 0 0 0 None
  | _ =>
      '(h, mi, s, us, tz) ← parse_isoformat_time tstr;
      new_datetime d h mi s us tz
  end.

Definition date_fromisoformat (date_string : string) : option date :=
  parse_isoformat_date date_string.

End PyDatetime.


(* ===================================================================== *)
(** * Python values, documents, enumerations and models *)
(* ===================================================================== *)

Import PyDatetime.

(** The values that occur in a [dict] passed to a model, in a JSON body and
    in a stored document.  A member of a [str]-mixin [Enum] is its [str]
    value. *)
Inductive Value : Type :=
| VNone
| VBool (b : bool)
| VInt (n : Z)
| VFloat (x : float)
| VStr (s : string)
| VDate (d : date)
| VDateTime (t : datetime).

(** A [dict] with [str] keys: keyword arguments, [.dict()], a JSON object, a
    stored document. *)
Abbreviation Doc := (gmap string Value).

Definition is_None (v : Value) : bool :=
  match v with VNone => true | _ => false end.

(** Equality of values is decidable.  Two floats are the same value when
    they are the same float ([PrimFloat.Leibniz.eqb]); a date or a date-time
    is determined by its fields. *)
#[global] Instance float_eq_dec : EqDecision float.
Proof.
  intros x y. destruct (PrimFloat.Leibniz.eqb x y) eqn:E.
  - left. by apply FloatAxioms.Leibniz.eqb_spec.
  - right. intros H. apply FloatAxioms.Leibniz.eqb_spec in H. congruence.
Defined.

#[global] Instance date_eq_dec : EqDecision date.
Proof.
  intros [y m d H] [y' m' d' H'].
  destruct (decide (y = y')) as [<-|N]; [|right; congruence].
  destruct (decide (m = m')) as [<-|N]; [|right; congruence].
  destruct (decide (d = d')) as [<-|N]; [|right; congruence].
  left. f_equal. apply proof_irrel.
Defined.

#[global] Instance datetime_eq_dec : EqDecision datetime.
Proof.
  intros [d h mi s us tz H] [d' h' mi' s' us' tz' H'].
  destruct (decide (d = d')) as [<-|N]; [|right; congruence].
  destruct (decide (h = h')) as [<-|N]; [|right; congruence].
  destruct (decide (mi = mi')) as [<-|N]; [|right; congruence].
  destruct (decide (s = s')) as [<-|N]; [|right; congruence].
  destruct (decide (us = us')) as [<-|N]; [|right; congruence].
  destruct (decide (tz = tz')) as [<-|N]; [|right; congruence].
  left. f_equal. apply proof_irrel.
Defined.

#[global] Instance Value_eq_dec : EqDecision Value.
Proof. solve_decision. Defined.

Inductive TenderStatus : Type :=
| OFFER | ROUND_1 | ROUND_2 | ROUND_3 | ROUND_4 | BAFO | CONTRACT_SIGNED
| WON | LOST.

Inductive PriorityLevel : Type := HIGH | MEDIUM | LOW.

Definition TenderStatus_value (m : TenderStatus) : string :=
  match m with
  | OFFER => "Offer"
  | ROUND_1 => "Round 1"
  | ROUND_2 => "Round 2"
  | ROUND_3 => "Round 3"
  | ROUND_4 => "Round 4"
  | BAFO => "BAFO"
  | CONTRACT_SIGNED => "Contract Signed"
  | WON => "Won"
  | LOST => "Lost"
  end.

Definition PriorityLevel_value (m : PriorityLevel) : string :=
  match m with HIGH => "High" | MEDIUM => "Medium" | LOW => "Low" end.

Definition TenderStatus_members : list TenderStatus :=
  [OFFER; ROUND_1; ROUND_2; ROUND_3; ROUND_4; BAFO; CONTRACT_SIGNED; WON; LOST].

Definition PriorityLevel_members : list PriorityLevel := [HIGH; MEDIUM; LOW].

(** [TenderStatus(s)] and [PriorityLevel(s)]: look a member up by value. *)
Definition TenderStatus_of (s : string) : option TenderStatus :=
  List.find (fun m => String.eqb (TenderStatus_value m) s) TenderStatus_members.

Definition PriorityLevel_of (s : string) : option PriorityLevel :=
  List.find (fun m => String.eqb (PriorityLevel_value m) s) PriorityLevel_members.

Module Tender.
Record t : Type := mk {
  id : string;                     (* [default_factory]: [str(uuid.uuid4())] *)
  item : string;
  customer : string;
  tender_name : string;
  status : TenderStatus;
  start_date : date;
  expiry_date : date;
  due_date : datetime;
  deal_value : float;
  priority : PriorityLevel;
  assigned_sales_rep : string;
  created_at : datetime;           (* [default_factory]: [datetime.utcnow] *)
  updated_at : datetime            (* [default_factory]: [datetime.utcnow] *)
}.

(** [.dict().items()] and [.dict()] *)
Definition items (x : t) : list (string * Value) :=
  [ ("id", VStr (id x));
    ("item", VStr (item x));
    ("customer", VStr (customer x));
    ("tender_name", VStr (tender_name x));
    ("status", VStr (TenderStatus_value (status x)));
    ("start_date", VDate (start_date x));
    ("expiry_date", VDate (expiry_date x));
    ("due_date", VDateTime (due_date x));
    ("deal_value", VFloat (deal_value x));
    ("priority", VStr (PriorityLevel_value (priority x)));
    ("assigned_sales_rep", VStr (assigned_sales_rep x));
    ("created_at", VDateTime (created_at x));
    ("updated_at", VDateTime (updated_at x)) ].

Definition dict (x : t) : Doc := list_to_map (items x).
End Tender.

Module TenderCreate.
Record t : Type := mk {
  item : string;
  customer : string;
  tender_name : string;
  status : TenderStatus;           (* default: [TenderStatus.OFFER] *)
  start_date : date;
  expiry_date : date;
  due_date : datetime;
  deal_value : float;
  priority : PriorityLevel;
  assigned_sales_rep : string
}.

Definition items (x : t) : list (string * Value) :=
  [ ("item", VStr (item x));
    ("customer", VStr (customer x));
    ("tender_name", VStr (tender_name x));
    ("status", VStr (TenderStatus_value (status x)));
    ("start_date", VDate (start_date x));
    ("expiry_date", VDate (expiry_date x));
    ("due_date", VDateTime (due_date x));
    ("deal_value", VFloat (deal_value x));
    ("priority", VStr (PriorityLevel_value (priority x)));
    ("assigned_sales_rep", VStr (assigned_sales_rep x)) ].

Definition dict (x : t) : Doc := list_to_map (items x).
End TenderCreate.

Module TenderUpdate.
Record t : Type := mk {
  item : option string;
  customer : option string;
  tender_name : option string;
  status : option TenderStatus;
  start_date : option date;
  expiry_date : option date;
  due_date : option datetime;
  deal_value : option float;
  priority : option PriorityLevel;
  assigned_sales_rep : option string
}.

(** An attribute that is [None] is [None] in [.dict()] too. *)
Definition opt {A} (f : A -> Value) (o : option A) : Value :=
  match o with Some a => f a | None => VNone end.

Definition items (x : t) : list (string * Value) :=
  [ ("item", opt VStr (item x));
    ("customer", opt VStr (customer x));
    ("tender_name", opt VStr (tender_name x));
    ("status", opt (fun m => VStr (TenderStatus_value m)) (status x));
    ("start_date", opt VDate (start_date x));
    ("expiry_date", opt VDate (expiry_date x));
    ("due_date", opt VDateTime (due_date x));
    ("deal_value", opt VFloat (deal_value x));
    ("priority", opt (fun m => VStr (PriorityLevel_value m)) (priority x));
    ("assigned_sales_rep", opt VStr (assigned_sales_rep x)) ].

Definition dict (x : t) : Doc := list_to_map (items x).
End TenderUpdate.

(* ===================================================================== *)
(** * Exceptions, the environment and the handler monad *)
(* ===================================================================== *)

Inductive Exception : Type :=
| HTTPException (status_code : Z) (detail : string)
| RequestValidationError     (* the body does not validate: FastAPI answers 422 *)
| ValidationError            (* a model built inside a handler does not validate *)
| ValueError
| AttributeError
| KeyError.

Inductive Outcome (A : Type) : Type :=
| Returned (a : A)
| Raised (e : Exception).
Arguments Returned {A} a.
Arguments Raised {A} e.

(** The status of the HTTP response. *)
Definition http_status {A} (o : Outcome A) : Z :=
  match o with
  | Returned _ => 200
  | Raised (HTTPException c _) => c
  | Raised RequestValidationError => 422
  | Raised _ => 500
  end.

(** A filter document [{"field": "value", ...}]. *)
Abbreviation Query := (gmap string string).

(** The calls made on [db.tenders]. *)
Inductive StoreCall : Type :=
| call_insert_one (doc : Doc)
| call_find (q : Query) (limit : nat)
| call_find_one (q : Query)
| call_update_one (q : Query) (set : Doc)
| call_delete_one (q : Query).

(** What a handler runs against: the collection in its natural order, the
    server clock behind [datetime.utcnow], the generator behind
    [uuid.uuid4], and the calls made on the collection so far.

    A handler is a function of the world: it runs from its first call on
    the collection to its last with no other request in between.  The
    server awaits each call, and between the [update_one] and the
    [find_one] of [update_tender] another request may run; what is stated
    of a handler is stated of requests served one after the other. *)
Record World : Type := mkWorld {
  tenders : list Doc;
  utc_clock : nat -> datetime;
  clock_reads : nat;
  uuid_source : nat -> string;
  uuids_drawn : nat;
  store_calls : list StoreCall
}.

Definition Handler (A : Type) : Type := World -> Outcome A * World.

Definition ret {A} (a : A) : Handler A := fun w => (Returned a, w).
Definition raise {A} (e : Exception) : Handler A := fun w => (Raised e, w).
Definition bind {A B} (m : Handler A) (k : A -> Handler B) : Handler B :=
  fun w =>
    match m w with
    | (Returned a, w') => k a w'
    | (Raised e, w') => (Raised e, w')
    end.

#[global] Instance Handler_ret : MRet Handler := @ret.
#[global] Instance Handler_bind : MBind Handler :=
  fun A B k m => bind m k.

Fixpoint mapM {A B} (f : A -> Handler B) (l : list A) : Handler (list B) :=
  match l with
  | [] => ret []
  | a :: l' => b ← f a; bs ← mapM f l'; ret (b :: bs)
  end.

(** [datetime.utcnow()] and [str(uuid.uuid4())]. *)
Definition utcnow : Handler datetime := fun w =>
  (Returned (utc_clock w (clock_reads w)),
   mkWorld (tenders w) (utc_clock w) (S (clock_reads w))
           (uuid_source w) (uuids_drawn w) (store_calls w)).

Definition uuid4 : Handler string := fun w =>
  (Returned (uuid_source w (uuids_drawn w)),
   mkWorld (tenders w) (utc_clock w) (clock_reads w)
           (uuid_source w) (S (uuids_drawn w)) (store_calls w)).

(** ** The collection *)

(** [db.tenders] is the document collection of the specification: documents
    selected by equality of fields, kept in the order of their insertion, one
    call acting on the first document selected.  A document is kept as it
    is given but for its date-times: the collection counts a date-time in
    milliseconds, so what [insert_one] or ["$set"] writes is read back
    without the microseconds below the millisecond.

    The date-times written here are readings of [datetime.utcnow], which
    are naive.  (An aware date-time would first be moved to UTC by the
    driver; that conversion is not part of the model, and the statements
    about the timestamps that are kept are made for a naive clock.)  A
    [date] is no value the collection can hold; the handlers write their
    dates as strings, and the documents they pass to [insert_one] and as
    ["$set"] hold none ([stored_no_date], [update_set_no_date]).  The
    key ["_id"] the driver adds to an inserted document is not represented:
    no handler reads it and the models ignore the keys that name no field.
    What a statement says about a stored document it says through the
    fields the document holds, so that it reads the same of a document with
    further keys. *)

(** The date-time the collection keeps for [t]. *)
Definition bson_datetime (t : datetime) : datetime :=
  default t
    (new_datetime (dt_date t) (hour t) (minute t) (second t)
       (microsecond t / 1000 * 1000) (tzinfo t)).

Definition bson_value (v : Value) : Value :=
  match v with
  | VDateTime t => VDateTime (bson_datetime t)
  | _ => v
  end.

(** The document the collection keeps for [doc]. *)
Definition bson (doc : Doc) : Doc := bson_value <$> doc.

Definition field_is (doc : Doc) (k s : string) : bool :=
  match doc !! k with
  | Some (VStr x) => String.eqb x s
  | _ => false
  end.

(** A document matches a filter when every field named in the filter holds
    that very string. *)
Definition matches (q : Query) (doc : Doc) : bool :=
  forallb (fun ks => field_is doc ks.1 ks.2) (map_to_list q).

Definition with_store (l : list Doc) (c : StoreCall) (w : World) : World :=
  mkWorld l (utc_clock w) (clock_reads w) (uuid_source w) (uuids_drawn w)
          (store_calls w ++ [c]).

Definition insert_one (doc : Doc) : Handler unit := fun w =>
  (Returned tt, with_store (tenders w ++ [bson doc]) (call_insert_one doc) w).

(** [find(q).to_list(limit)] *)
Definition find (q : Query) (limit : nat) : Handler (list Doc) := fun w =>
  (Returned (take limit (List.filter (matches q) (tenders w))),
   with_store (tenders w) (call_find q limit) w).

Definition find_one (q : Query) : Handler (option Doc) := fun w =>
  (Returned (List.find (matches q) (tenders w)),
   with_store (tenders w) (call_find_one q) w).

(** The first document [p] holds of is replaced by its image under [f];
    [None] when there is none. *)
Fixpoint update_first (p : Doc -> bool) (f : Doc -> Doc) (l : list Doc)
  : option (list Doc) :=
  match l with
  | [] => None
  | d :: l' =>
      if p d then Some (f d :: l')
      else cons d <$> update_first p f l'
  end.

Fixpoint delete_first (p : Doc -> bool) (l : list Doc) : option (list Doc) :=
  match l with
  | [] => None
  | d :: l' => if p d then Some l' else cons d <$> delete_first p l'
  end.

(** [update_one(q, {"$set": set})]; the result is [matched_count]. *)
Definition update_one (q : Query) (set : Doc) : Handler Z := fun w =>
  match update_first (matches q) (fun d => bson set ∪ d) (tenders w) with
  | Some l => (Returned 1, with_store l (call_update_one q set) w)
  | None => (Returned 0, with_store (tenders w) (call_update_one q set) w)
  end.

(** [delete_one(q)]; the result is [deleted_count]. *)
Definition delete_one (q : Query) : Handler Z := fun w =>
  match delete_first (matches q) (tenders w) with
  | Some l => (Returned 1, with_store l (call_delete_one q) w)
  | None => (Returned 0, with_store (tenders w) (call_delete_one q) w)
  end.

(** [distinct(k)]: the values the documents hold under [k], each once; a
    document without the key contributes none.  It is a read of the whole
    collection, and is not entered in the record of the calls, which keeps
    to the five operations of the tender routes. *)
Definition distinct (k : string) : Handler (list Value) := fun w =>
  (Returned (remove_dups (omap (fun d : Doc => d !! k) (tenders w))), w).

(* ===================================================================== *)
(** * Validation (pydantic) *)
(* ===================================================================== *)

(** The model follows the validation library and [fromisoformat] where all
    their versions agree: a value of the field's own type is taken as it
    is, [None] is refused by a field that is not [Optional], an enumeration
    accepts the values of its members and nothing else, and a string in the
    form [isoformat] prints is read back as the date or date-time it
    denotes.  Everything else (coercions between types, other spellings of
    a date) depends on the version in use and is left open here. *)
Record Leniency : Type := {
  lax_str : Value -> option string;
  lax_float : Value -> option float;
  lax_date : Value -> option date;
  lax_datetime : Value -> option datetime;
  lax_fromisoformat : string -> option datetime
}.

(** The library that accepts nothing beyond the common core. *)
Definition strict : Leniency :=
  {| lax_str := fun _ => None;
     lax_float := fun _ => None;
     lax_date := fun _ => None;
     lax_datetime := fun _ => None;
     lax_fromisoformat := fun _ => None |}.

(** Offsets that JSON date-times carry: whole minutes. *)
Definition whole_minutes (tz : option Z) : bool :=
  match tz with
  | None => true
  | Some off => off mod MINUTE_US =? 0
  end.

Section Server.
Context (lib : Leniency).

Definition validate_str (v : Value) : option string :=
  match v with
  | VStr s => Some s
  | VNone => None
  | _ => lax_str lib v
  end.

Definition validate_float (v : Value) : option float :=
  match v with
  | VFloat x => Some x
  | VNone => None
  | _ => lax_float lib v
  end.

(** A string of the form [YYYY-MM-DD] is the date it spells. *)
Definition validate_date (v : Value) : option date :=
  match v with
  | VDate d => Some d
  | VNone => None
  | VStr s =>
      match date_fromisoformat s with
      | Some d => Some d
      | None => lax_date lib v
      end
  | _ => lax_date lib v
  end.

(** A string that is exactly what [isoformat] prints for a date-time with
    no offset, or an offset of whole minutes, is that date-time. *)
Definition validate_datetime (v : Value) : option datetime :=
  match v with
  | VDateTime t => Some t
  | VNone => None
  | VStr s =>
      match datetime_fromisoformat s with
      | Some t =>
          if whole_minutes (tzinfo t) && String.eqb (datetime_isoformat t) s
          then Some t
          else lax_datetime lib v
      | None => lax_datetime lib v
      end
  | _ => lax_datetime lib v
  end.

(** An enumeration takes the value of one of its members, nothing else. *)
Definition validate_status (v : Value) : option TenderStatus :=
  match v with
  | VStr s => TenderStatus_of s
  | _ => None
  end.

Definition validate_priority (v : Value) : option PriorityLevel :=
  match v with
  | VStr s => PriorityLevel_of s
  | _ => None
  end.

(** [datetime.fromisoformat] *)
Definition fromisoformat (s : string) : option datetime :=
  match datetime_fromisoformat s with
  | Some t => Some t
  | None => lax_fromisoformat lib s
  end.

(** A required field. *)
Definition required {A} (validate : Value -> option A) (kw : Doc) (k : string)
  : option A :=
  kw !! k ≫= validate.

(** A field with a default. *)
Definition defaulted {A} (validate : Value -> option A) (default : A)
    (kw : Doc) (k : string) : option A :=
  match kw !! k with
  | Some v => validate v
  | None => Some default
  end.

(** An [Optional[...] = None] field. *)
Definition optional {A} (validate : Value -> option A) (kw : Doc) (k : string)
  : option (option A) :=
  match kw !! k with
  | None | Some VNone => Some None
  | Some v => Some <$> validate v
  end.

(** A field with a [default_factory]: the factory runs when the keyword is
    absent, whatever becomes of the other fields. *)
Definition with_factory {A} (validate : Value -> option A)
    (factory : Handler A) (kw : Doc) (k : string) : Handler (option A) :=
  match kw !! k with
  | Some v => ret (validate v)
  | None => a ← factory; ret (Some a)
  end.

(** [TenderCreate( **kw)]; [None] is a validation error. *)
Definition TenderCreate_new (kw : Doc) : option TenderCreate.t :=
  item ← required validate_str kw "item";
  customer ← required validate_str kw "customer";
  tender_name ← required validate_str kw "tender_name";
  status ← defaulted validate_status OFFER kw "status";
  start_date ← required validate_date kw "start_date";
  expiry_date ← required validate_date kw "expiry_date";
  due_date ← required validate_datetime kw "due_date";
  deal_value ← required validate_float kw "deal_value";
  priority ← required validate_priority kw "priority";
  assigned_sales_rep ← required validate_str kw "assigned_sales_rep";
  Some (TenderCreate.mk item customer tender_name status start_date
          expiry_date due_date deal_value priority assigned_sales_rep).

(** [TenderUpdate( **kw)] *)
Definition TenderUpdate_new (kw : Doc) : option TenderUpdate.t :=
  item ← optional validate_str kw "item";
  customer ← optional validate_str kw "customer";
  tender_name ← optional validate_str kw "tender_name";
  status ← optional validate_status kw "status";
  start_date ← optional validate_date kw "start_date";
  expiry_date ← optional validate_date kw "expiry_date";
  due_date ← optional validate_datetime kw "due_date";
  deal_value ← optional validate_float kw "deal_value";
  priority ← optional validate_priority kw "priority";
  assigned_sales_rep ← optional validate_str kw "assigned_sales_rep";
  Some (TenderUpdate.mk item customer tender_name status start_date
          expiry_date due_date deal_value priority assigned_sales_rep).

(** The fields of [Tender] that have no factory. *)
Definition Tender_fields (kw : Doc) (id : option string)
    (created_at updated_at : option datetime) : option Tender.t :=
  id ← id;
  item ← required validate_str kw "item";
  customer ← required validate_str kw "customer";
  tender_name ← required validate_str kw "tender_name";
  status ← required validate_status kw "status";
  start_date ← required validate_date kw "start_date";
  expiry_date ← required validate_date kw "expiry_date";
  due_date ← required validate_datetime kw "due_date";
  deal_value ← required validate_float kw "deal_value";
  priority ← required validate_priority kw "priority";
  assigned_sales_rep ← required validate_str kw "assigned_sales_rep";
  created_at ← created_at;
  updated_at ← updated_at;
  Some (Tender.mk id item customer tender_name status start_date expiry_date
          due_date deal_value priority assigned_sales_rep created_at
          updated_at).

(** [Tender( **kw)]: fields are visited in the order of the class body, so the
    factories run in the order [id], [created_at], [updated_at]; keywords
    that name no field are ignored. *)
Definition Tender_new (kw : Doc) : Handler Tender.t :=
  id ← with_factory validate_str uuid4 kw "id";
  created_at ← with_factory validate_datetime utcnow kw "created_at";
  updated_at ← with_factory validate_datetime utcnow kw "updated_at";
  match Tender_fields kw id created_at updated_at with
  | Some x => ret x
  | None => raise ValidationError
  end.

(* ===================================================================== *)
(** * The handlers *)
(* ===================================================================== *)

(** [d[k] = d[k].isoformat()] *)
Definition dict_isoformat (k : string) (d : Doc) : Handler Doc :=
  match d !! k with
  | Some (VDate x) => ret (<[k := VStr (date_isoformat x)]> d)
  | Some (VDateTime t) => ret (<[k := VStr (datetime_isoformat t)]> d)
  | Some _ => raise AttributeError
  | None => raise KeyError
  end.

(** [if k in d: d[k] = d[k].isoformat()] *)
Definition dict_isoformat_if_in (k : string) (d : Doc) : Handler Doc :=
  match d !! k with
  | Some _ => dict_isoformat k d
  | None => ret d
  end.

(** [if isinstance(d.get(k), str): d[k] = datetime.fromisoformat(d[k])],
    followed by [.date()] when [as_date]. *)
Definition dict_fromisoformat (as_date : bool) (k : string) (d : Doc)
  : Handler Doc :=
  match d !! k with
  | Some (VStr s) =>
      match fromisoformat s with
      | Some t =>
          ret (<[k := if as_date then VDate (dt_date t) else VDateTime t]> d)
      | None => raise ValueError
      end
  | _ => ret d
  end.

(** The block that follows every read of a document. *)
Definition parse_dates (tender : Doc) : Handler Doc :=
  tender ← dict_fromisoformat true "start_date" tender;
  tender ← dict_fromisoformat true "expiry_date" tender;
  dict_fromisoformat false "due_date" tender.

(** The block that precedes every insertion of a document: the three
    assignments [d[k] = d[k].isoformat()]. *)
Definition isoformat_dates (d : Doc) : Handler Doc :=
  d ← dict_isoformat "start_date" d;
  d ← dict_isoformat "expiry_date" d;
  dict_isoformat "due_date" d.

Definition root : Handler Doc :=
  ret {["message" := VStr "Sales Dashboard API"]}.

Definition create_tender (tender_data : TenderCreate.t) : Handler Tender.t :=
  let tender_dict := TenderCreate.dict tender_data in
  tender_dict ← dict_isoformat "start_date" tender_dict;
  tender_dict ← dict_isoformat "expiry_date" tender_dict;
  tender_dict ← dict_isoformat "due_date" tender_dict;
  tender_obj ← Tender_new tender_dict;
  let tender_dict := Tender.dict tender_obj in
  tender_dict ← dict_isoformat "start_date" tender_dict;
  tender_dict ← dict_isoformat "expiry_date" tender_dict;
  tender_dict ← dict_isoformat "due_date" tender_dict;
  _ ← insert_one tender_dict;
  ret tender_obj.

(** [if param: query[k] = param] *)
Definition add_filter (k : string) (param : option string) (query : Query)
  : Query :=
  match param with
  | Some s => if String.eqb s "" then query else <[k := s]> query
  | None => query
  end.

Definition get_tenders (status priority customer : option string)
  : Handler (list Tender.t) :=
  let query : Query := ∅ in
  let query := add_filter "status" status query in
  let query := add_filter "priority" priority query in
  let query := add_filter "customer" customer query in
  tenders ← find query 1000;
  tenders ← mapM parse_dates tenders;
  mapM Tender_new tenders.

Definition not_found {A} : Handler A :=
  raise (HTTPException 404 "Tender not found").

(** [if not tender]: [None], or a document without fields. *)
Definition falsy (tender : option Doc) : bool :=
  match tender with
  | None => true
  | Some d => (size d =? 0)%nat
  end.

Definition get_tender (tender_id : string) : Handler Tender.t :=
  tender ← find_one {["id" := tender_id]};
  if falsy tender then not_found
  else
    match tender with
    | Some tender => tender ← parse_dates tender; Tender_new tender
    | None => not_found
    end.

Definition update_tender (tender_id : string) (tender_update : TenderUpdate.t)
  : Handler Tender.t :=
  let update_data : Doc :=
    filter (fun kv : string * Value => is_None kv.2 = false)
           (TenderUpdate.dict tender_update) in
  update_data ← dict_isoformat_if_in "start_date" update_data;
  update_data ← dict_isoformat_if_in "expiry_date" update_data;
  update_data ← dict_isoformat_if_in "due_date" update_data;
  now ← utcnow;
  let update_data := <["updated_at" := VDateTime now]> update_data in
  matched_count ← update_one {["id" := tender_id]} update_data;
  if matched_count =? 0 then not_found
  else
    updated_tender ← find_one {["id" := tender_id]};
    match updated_tender with
    | Some updated_tender =>
        updated_tender ← parse_dates updated_tender;
        Tender_new updated_tender
    | None => raise AttributeError        (* [None.get] *)
    end.

Definition delete_tender (tender_id : string) : Handler Doc :=
  deleted_count ← delete_one {["id" := tender_id]};
  if deleted_count =? 0 then not_found
  else ret {["message" := VStr "Tender deleted successfully"]}.

(** ** The values to filter by *)

Definition get_customers : Handler (gmap string (list Value)) :=
  customers ← distinct "customer";
  ret {["customers" := customers]}.

Definition get_sales_reps : Handler (gmap string (list Value)) :=
  sales_reps ← distinct "assigned_sales_rep";
  ret {["sales_reps" := sales_reps]}.

(** ** The routes: the body is validated before the handler runs *)

Definition post_tenders (body : Doc) : Handler Tender.t :=
  match TenderCreate_new body with
  | Some tender_data => create_tender tender_data
  | None => raise RequestValidationError
  end.

Definition put_tender (tender_id : string) (body : Doc) : Handler Tender.t :=
  match TenderUpdate_new body with
  | Some tender_update => update_tender tender_id tender_update
  | None => raise RequestValidationError
  end.

End Server.

(* ===================================================================== *)
(** * Vocabulary of the statements *)
(* ===================================================================== *)

(** ** Strings that [isoformat] prints *)

(** [HH:MM], [HH:MM:SS] and [HH:MM:SS.ffffff], character by character. *)
Definition shape_hm (a1 a2 b1 b2 : ascii) : string :=
  String a1 (String a2 (String ":" (String b1 (String b2 "")))).

Definition shape_hms (a1 a2 b1 b2 c1 c2 : ascii) : string :=
  String a1 (String a2 (String ":" (String b1 (String b2 (String ":"
    (String c1 (String c2 ""))))))).

Definition shape_hmsf (a1 a2 b1 b2 c1 c2 u1 u2 u3 u4 u5 u6 : ascii) : string :=
  String a1 (String a2 (String ":" (String b1 (String b2 (String ":"
    (String c1 (String c2 (String "."
    (String u1 (String u2 (String u3 (String u4 (String u5
    (String u6 "")))))))))))))).

(** The tens and the units digit of a two-digit field. *)
Definition dc1 (n : Z) : ascii := digit_char (n / 10 mod 10).
Definition dc0 (n : Z) : ascii := digit_char (n mod 10).

(** The offset [_parse_isoformat_time] builds from the components of the
    zone and its sign. *)
Definition tz_of_comps (neg : bool) (th tm ts tus : Z) : option Z :=
  if (th =? 0) && (tm =? 0) && (ts =? 0) && (tus =? 0) then Some 0
  else Some ((if neg then -1 else 1) *
             (th * HOUR_US + tm * MINUTE_US + ts * SECOND_US + tus)).

(** ** Documents and records *)

(** No document of [l] has the identifier [tender_id]. *)
Definition absent (tender_id : string) (l : list Doc) : Prop :=
  forall d, d ∈ l -> d !! "id" <> Some (VStr tender_id).

(** The identifiers of the documents of a collection, in order. *)
Definition ids (l : list Doc) : list (option Value) :=
  (fun d : Doc => d !! "id") <$> l.

(** The three fields the handlers keep as ISO-8601 strings. *)
Definition date_fields : list string :=
  ["start_date"; "expiry_date"; "due_date"].

Definition temporal (v : Value) : bool :=
  match v with VDate _ | VDateTime _ => true | _ => false end.

(** [v.isoformat()] where [v] has the method. *)
Definition iso_of (v : Value) : Value :=
  match v with
  | VDate x => VStr (date_isoformat x)
  | VDateTime t => VStr (datetime_isoformat t)
  | _ => v
  end.

(** A dictionary after the three assignments [d[k] = d[k].isoformat()]. *)
Definition iso_dates (d : Doc) : Doc :=
  alter iso_of "due_date" (alter iso_of "expiry_date"
    (alter iso_of "start_date" d)).

(** The document [create_tender] passes to [insert_one] for a record. *)
Definition stored (x : Tender.t) : Doc := iso_dates (Tender.dict x).

Definition stored_items (x : Tender.t) : list (string * Value) :=
  (fun kv => (kv.1, if existsb (String.eqb kv.1) date_fields
                    then iso_of kv.2 else kv.2)) <$> Tender.items x.

(** [kw] carries the fields of [x], typed. *)
Definition holds (kw : Doc) (x : Tender.t) : Prop :=
  Forall (fun kv => kw !! kv.1 = Some kv.2) (Tender.items x).

(** [d] carries the fields of [x] the way they are stored: the three dates
    as ISO-8601 strings, the rest as in [.dict()].  It may carry other
    keys too. *)
Definition stores (d : Doc) (x : Tender.t) : Prop :=
  Forall (fun kv => d !! kv.1 = Some kv.2) (stored_items x).

(** A date-time as JSON carries it: naive, or at a whole number of minutes
    from UTC. *)
Definition wire (t : datetime) : Prop := whole_minutes (tzinfo t) = true.

(** The record [create_tender] builds from a payload, an identifier and two
    readings of the clock. *)
Definition Tender_of (td : TenderCreate.t) (id : string) (t1 t2 : datetime)
  : Tender.t :=
  Tender.mk id (TenderCreate.item td) (TenderCreate.customer td)
    (TenderCreate.tender_name td) (TenderCreate.status td)
    (TenderCreate.start_date td) (TenderCreate.expiry_date td)
    (TenderCreate.due_date td) (TenderCreate.deal_value td)
    (TenderCreate.priority td) (TenderCreate.assigned_sales_rep td) t1 t2.

(** The attributes of an update that are not [None]. *)
Definition non_null (upd : TenderUpdate.t) : Doc :=
  filter (fun kv : string * Value => is_None kv.2 = false)
         (TenderUpdate.dict upd).

(** The document [update_tender] passes as ["$set"]. *)
Definition update_set (upd : TenderUpdate.t) (now : datetime) : Doc :=
  <["updated_at" := VDateTime now]> (iso_dates (non_null upd)).

(** [update_tender], from the call of [update_one] on. *)
Definition update_tail (lib : Leniency) (tender_id : string)
    (update_data : Doc) : Handler Tender.t :=
  matched_count ← update_one {["id" := tender_id]} update_data;
  if matched_count =? 0 then not_found
  else
    updated_tender ← find_one {["id" := tender_id]};
    match updated_tender with
    | Some updated_tender =>
        updated_tender ← parse_dates lib updated_tender;
        Tender_new lib updated_tender
    | None => raise AttributeError
    end.

(** What the specification says an update does to a record: the fields
    present in the payload replace the record's, [updated_at] becomes [now],
    [id], [created_at] and every field the payload leaves out stay. *)
Definition apply_update (upd : TenderUpdate.t) (now : datetime) (x : Tender.t)
  : Tender.t :=
  Tender.mk (Tender.id x)
    (default (Tender.item x) (TenderUpdate.item upd))
    (default (Tender.customer x) (TenderUpdate.customer upd))
    (default (Tender.tender_name x) (TenderUpdate.tender_name upd))
    (default (Tender.status x) (TenderUpdate.status upd))
    (default (Tender.start_date x) (TenderUpdate.start_date upd))
    (default (Tender.expiry_date x) (TenderUpdate.expiry_date upd))
    (default (Tender.due_date x) (TenderUpdate.due_date upd))
    (default (Tender.deal_value x) (TenderUpdate.deal_value upd))
    (default (Tender.priority x) (TenderUpdate.priority upd))
    (default (Tender.assigned_sales_rep x) (TenderUpdate.assigned_sales_rep upd))
    (Tender.created_at x) now.

(** The answer is 404 and the collection is as it was in [w]. *)
Definition answers_404 {A} (r : Outcome A * World) (w : World) : Prop :=
  fst r = Raised (HTTPException 404 "Tender not found") /\
  tenders (snd r) = tenders w.

(** The documents stay as they are; the calls made so far stay on record. *)
Definition keeps_store {A} (m : Handler A) : Prop :=
  forall w, tenders (snd (m w)) = tenders w /\
            store_calls w `prefix_of` store_calls (snd (m w)).

(** The filter [get_tenders] queries with. *)
Definition list_query (status priority customer : option string) : Query :=
  add_filter "customer" customer
    (add_filter "priority" priority (add_filter "status" status ∅)).

(** A filter that is given and not the empty string. *)
Definition given (param : option string) (s : string) : Prop :=
  param = Some s /\ s <> "".

(** The [status] or the [priority] of a body is something else than the
    value of a member of its enumeration ([null] is such a thing). *)
Definition off_enum (body : Doc) : Prop :=
  (exists v, body !! "status" = Some v /\
             forall m, v <> VStr (TenderStatus_value m)) \/
  (exists v, body !! "priority" = Some v /\
             forall m, v <> VStr (PriorityLevel_value m)).

(** The same, [null] apart. *)
Definition off_enum_non_null (body : Doc) : Prop :=
  (exists v, body !! "status" = Some v /\ v <> VNone /\
             forall m, v <> VStr (TenderStatus_value m)) \/
  (exists v, body !! "priority" = Some v /\ v <> VNone /\
             forall m, v <> VStr (PriorityLevel_value m)).

(** Every field of [TenderCreate] but [status] is in the body and
    validates; the due date is one JSON can carry. *)
Definition other_fields_valid (lib : Leniency) (body : Doc) : Prop :=
  is_Some (required (validate_str lib) body "item") /\
  is_Some (required (validate_str lib) body "customer") /\
  is_Some (required (validate_str lib) body "tender_name") /\
  is_Some (required (validate_date lib) body "start_date") /\
  is_Some (required (validate_date lib) body "expiry_date") /\
  (exists t, required (validate_datetime lib) body "due_date" = Some t /\
             wire t) /\
  is_Some (required (validate_float lib) body "deal_value") /\
  is_Some (required validate_priority body "priority") /\
  is_Some (required (validate_str lib) body "assigned_sales_rep").

(** ** Outcomes, requests and calls *)

(** The outcome is a result, or one of the exceptions listed. *)
Definition raises_only {A} (allowed : list Exception) (o : Outcome A) : Prop :=
  match o with
  | Returned _ => True
  | Raised e => e ∈ allowed
  end.

Definition may_raise {A} (allowed : list Exception) (m : Handler A) : Prop :=
  forall w, raises_only allowed (fst (m w)).

(** [HTTPException(status_code=404, detail="Tender not found")] *)
Definition HTTP_404 : Exception := HTTPException 404 "Tender not found".

(** What [delete_tender] returns. *)
Definition deleted_message : Doc :=
  {["message" := VStr "Tender deleted successfully"]}.

(** The handler makes no call on the collection and leaves it as it is. *)
Definition silent {A} (m : Handler A) : Prop :=
  forall w, tenders (snd (m w)) = tenders w /\
            store_calls (snd (m w)) = store_calls w.

(** The calls [update_tender] makes on a collection [l]: [update_one], and
    [find_one] after it when a document was matched. *)
Definition update_calls (tender_id : string) (set : Doc) (l : list Doc)
  : list StoreCall :=
  call_update_one {["id" := tender_id]} set ::
  match List.find (matches {["id" := tender_id]}) l with
  | Some _ => [call_find_one {["id" := tender_id]}]
  | None => []
  end.

(** The requests the routes answer, with the status of the response. *)
Inductive Request : Type :=
| GET_root
| POST_tenders (body : Doc)
| GET_tenders (status priority customer : option string)
| GET_tender (tender_id : string)
| PUT_tender (tender_id : string) (body : Doc)
| DELETE_tender (tender_id : string)
| GET_customers
| GET_sales_reps.

Definition answer {A} (r : Outcome A * World) : Z * World :=
  (http_status r.1, r.2).

Definition serve (lib : Leniency) (r : Request) (w : World) : Z * World :=
  match r with
  | GET_root => answer (root w)
  | POST_tenders body => answer (post_tenders lib body w)
  | GET_tenders status priority customer =>
      answer (get_tenders lib status priority customer w)
  | GET_tender tender_id => answer (get_tender lib tender_id w)
  | PUT_tender tender_id body => answer (put_tender lib tender_id body w)
  | DELETE_tender tender_id => answer (delete_tender tender_id w)
  | GET_customers => answer (get_customers w)
  | GET_sales_reps => answer (get_sales_reps w)
  end.

(** The world after a sequence of requests. *)
Fixpoint serve_all (lib : Leniency) (rs : list Request) (w : World) : World :=
  match rs with
  | [] => w
  | r :: rs => serve_all lib rs (serve lib r w).2
  end.

(** ** Identifiers *)

(** Every identifier in the collection is one the generator has given
    out. *)
Definition drawn (w : World) : Prop :=
  Forall (fun o => exists i, (i < uuids_drawn w)%nat /\
                             o = Some (VStr (uuid_source w i)))
         (ids (tenders w)).

(** The generator never gives the same identifier twice. *)
Definition never_repeats (uuids : nat -> string) : Prop :=
  forall i j, uuids i = uuids j -> i = j.

(** The handler leaves the generator as it is and takes no identifier
    back. *)
Definition keeps_uuids {A} (m : Handler A) : Prop :=
  forall w, uuid_source (snd (m w)) = uuid_source w /\
            (uuids_drawn w <= uuids_drawn (snd (m w)))%nat.

(** ** Documents that can and cannot be read *)

(** Every document stores a record, the way [create_tender] writes it. *)
Definition well_formed (l : list Doc) : Prop :=
  Forall (fun d => exists x, stores d x) l.

(** The fields [Tender] requires: those without a default. *)
Definition Tender_required : list string :=
  ["item"; "customer"; "tender_name"; "status"; "start_date"; "expiry_date";
   "due_date"; "deal_value"; "priority"; "assigned_sales_rep"].

(** A required field is missing from the document, or null in it. *)
Definition incomplete (d : Doc) : Prop :=
  exists k, k ∈ Tender_required /\ (d !! k = None \/ d !! k = Some VNone).

(** One of the three dates is a string [fromisoformat] does not read. *)
Definition bad_date (lib : Leniency) (d : Doc) : Prop :=
  exists k s, k ∈ date_fields /\ d !! k = Some (VStr s) /\
              fromisoformat lib s = None.

(** A record with other timestamps. *)
Definition with_timestamps (x : Tender.t) (c u : datetime) : Tender.t :=
  Tender.mk (Tender.id x) (Tender.item x) (Tender.customer x)
    (Tender.tender_name x) (Tender.status x) (Tender.start_date x)
    (Tender.expiry_date x) (Tender.due_date x) (Tender.deal_value x)
    (Tender.priority x) (Tender.assigned_sales_rep x) c u.

(** Two records that agree on every field but [created_at] and
    [updated_at], which the database keeps to the millisecond. *)
Definition same_but_timestamps (x y : Tender.t) : Prop :=
  with_timestamps x (Tender.created_at y) (Tender.updated_at y) = y.

(** The record as the collection keeps it: [created_at] and [updated_at]
    to the millisecond, the other fields as they are. *)
Definition kept (x : Tender.t) : Tender.t :=
  with_timestamps x (bson_datetime (Tender.created_at x))
    (bson_datetime (Tender.updated_at x)).

(** The readings of the clock are naive, as those of [datetime.utcnow]
    are. *)
Definition naive_clock (w : World) : Prop :=
  forall n, tzinfo (utc_clock w n) = None.


(** ** Bodies and filters *)

(** The fields of [TenderCreate], which are those of [TenderUpdate]. *)
Definition TenderCreate_fields : list string :=
  ["item"; "customer"; "tender_name"; "status"; "start_date"; "expiry_date";
   "due_date"; "deal_value"; "priority"; "assigned_sales_rep"].

(** The fields [TenderCreate] requires: all but [status]. *)
Definition TenderCreate_required : list string :=
  ["item"; "customer"; "tender_name"; "start_date"; "expiry_date";
   "due_date"; "deal_value"; "priority"; "assigned_sales_rep"].

(** The update without a field: the body [{}]. *)
Definition empty_update : TenderUpdate.t :=
  TenderUpdate.mk None None None None None None None None None None.

(** The status or the priority filter is given, and its value is not the
    value of any member of the enumeration. *)
Definition unknown_filter (status priority : option string) : Prop :=
  (exists s, given status s /\ forall m, TenderStatus_value m <> s) \/
  (exists s, given priority s /\ forall m, PriorityLevel_value m <> s).

(** The payload passes the filters that are given. *)
Definition passes (status priority customer : option string)
    (td : TenderCreate.t) : Prop :=
  (forall s, given status s -> TenderStatus_value (TenderCreate.status td) = s) /\
  (forall s, given priority s ->
             PriorityLevel_value (TenderCreate.priority td) = s) /\
  (forall s, given customer s -> TenderCreate.customer td = s).

(** The documents [get_tenders] reads: the first 1000 the filter selects. *)
Definition selected (status priority customer : option string) (w : World)
  : list Doc :=
  take 1000 (List.filter (matches (list_query status priority customer))
               (tenders w)).

(** Some document of the collection holds [v] under [k]. *)
Definition held (k : string) (l : list Doc) (v : Value) : Prop :=
  exists d, d ∈ l /\ d !! k = Some v.

(** ** Sample data *)

(** A clock that advances between two readings, by 7 milliseconds. *)
Definition sample_clock (n : nat) : datetime :=
  match n with
  | 0%nat => mkdatetime (mkdate 2024 3 1 I) 9 0 0 100000 None I
  | 1%nat => mkdatetime (mkdate 2024 3 1 I) 9 0 0 107000 None I
  | _ => mkdatetime (mkdate 2024 3 2 I) 12 30 0 0 None I
  end.

(** A clock that reads microseconds. *)
Definition fine_clock (n : nat) : datetime :=
  match n with
  | 0%nat => mkdatetime (mkdate 2024 3 2 I) 12 30 0 123456 None I
  | _ => mkdatetime (mkdate 2024 3 2 I) 12 30 1 654321 None I
  end.

Definition sample_uuids (n : nat) : string :=
  match n with
  | 0%nat => "3f2b8c1e-7d4a-4e59-9d0a-5a1f3c2e7b11"
  | 1%nat => "a81c06f2-0b9e-4c67-8f3d-2e5b7c9d4410"
  | _ => "c4d7e9a0-51f3-4b28-a6c1-9e8f7d6c5b4a"
  end.

(** A generator that never repeats itself: the identifiers are
    numbered. *)
Definition numbered_uuids (n : nat) : string := "tender-" +:+ pretty n.

Definition empty_world : World :=
  mkWorld [] sample_clock 0 sample_uuids 0 [].

(** The empty collection, with the generator that numbers. *)
Definition numbered_world : World :=
  mkWorld [] sample_clock 0 numbered_uuids 0 [].

(** The payload of the specification's round-trip example. *)
Definition acme_payload : TenderCreate.t :=
  TenderCreate.mk "Pumps" "Acme" "Pump station refit" OFFER
    (mkdate 2024 1 1 I) (mkdate 2024 2 29 I)
    (mkdatetime (mkdate 2024 1 15 I) 10 0 0 0 None I)
    125000.5%float MEDIUM "Kim".

Definition acme_tender : Tender.t :=
  Tender_of acme_payload (sample_uuids 0) (sample_clock 0) (sample_clock 1).

(** The world after the payload has been created in the empty one. *)
Definition acme_world : World :=
  mkWorld [stored acme_tender] sample_clock 2 sample_uuids 1
          [call_insert_one (stored acme_tender)].

(** The same collection and the empty one, with the clock that reads
    microseconds. *)
Definition fine_world : World :=
  mkWorld [stored acme_tender] fine_clock 0 sample_uuids 1
          [call_insert_one (stored acme_tender)].

Definition fine_empty_world : World :=
  mkWorld [] fine_clock 0 sample_uuids 0 [].

(** [{"priority": "High"}] *)
Definition priority_high : TenderUpdate.t :=
  TenderUpdate.mk None None None None None None None None (Some HIGH) None.

(** The JSON body of the payload, without [status]. *)
Definition acme_body : Doc :=
  list_to_map
    [ ("item", VStr "Pumps"); ("customer", VStr "Acme");
      ("tender_name", VStr "Pump station refit");
      ("start_date", VStr "2024-01-01"); ("expiry_date", VStr "2024-02-29");
      ("due_date", VStr "2024-01-15T10:00:00");
      ("deal_value", VFloat 125000.5%float); ("priority", VStr "Medium");
      ("assigned_sales_rep", VStr "Kim") ].

Definition invalid_status_body : Doc :=
  <["status" := VStr "InvalidStatus"]> acme_body.

(** [{"status": null}] *)
Definition null_status_body : Doc := {["status" := VNone]}.

(** The stored document of the sample tender without its [item], and
    without its [created_at]. *)
Definition acme_without_item : Doc := delete "item" (stored acme_tender).


Definition incomplete_world : World :=
  mkWorld [acme_without_item] sample_clock 2 sample_uuids 1 [].


(** A collection of 1000 documents. *)
Definition full_world : World :=
  mkWorld (replicate 1000 (stored acme_tender)) sample_clock 2 sample_uuids 1 [].


(** Two creates, an update and a delete of the first tender, a third
    create. *)
Definition numbered_requests : list Request :=
  [ POST_tenders acme_body;
    POST_tenders acme_body;
    PUT_tender (numbered_uuids 0) null_status_body;
    DELETE_tender (numbered_uuids 0);
    POST_tenders acme_body ].

(* ===================================================================== *)
(** * Facts about the [datetime] module *)
(* ===================================================================== *)

Module PyDatetimeFacts.
Import PyDatetime.

(** Objects are determined by their fields. *)
Lemma date_eq (a b : date) :
  year a = year b -> month a = month b -> day a = day b -> a = b.
Proof.
  destruct a as [y m d H], b as [y' m' d' H']; simpl.
  intros -> -> ->. f_equal. apply proof_irrel.
Qed.

Lemma datetime_eq (a b : datetime) :
  dt_date a = dt_date b -> hour a = hour b -> minute a = minute b ->
  second a = second b -> microsecond a = microsecond b ->
  tzinfo a = tzinfo b -> a = b.
Proof.
  destruct a, b; simpl. intros -> -> -> -> -> ->. f_equal. apply proof_irrel.
Qed.

Lemma new_date_fields (d : date) : new_date (year d) (month d) (day d) = Some d.
Proof.
  unfold new_date. destruct decide as [H|H].
  - f_equal. by apply date_eq.
  - destruct H. apply date_ok.
Qed.

Lemma new_datetime_fields (t : datetime) :
  new_datetime (dt_date t) (hour t) (minute t) (second t) (microsecond t)
               (tzinfo t) = Some t.
Proof.
  unfold new_datetime. destruct decide as [H|H].
  - f_equal. by apply datetime_eq.
  - destruct H. apply datetime_ok.
Qed.

Lemma date_range (d : date) :
  1 <= year d <= 9999 /\ 1 <= month d <= 12 /\ 1 <= day d <= 31.
Proof.
  pose proof (date_ok d) as H. unfold check_date_fields, MINYEAR, MAXYEAR in H.
  repeat (apply andb_prop_elim in H; destruct H as [H ?]).
  repeat match goal with
         | X : Is_true (_ <=? _) |- _ => apply Is_true_eq_true, Z.leb_le in X
         end.
  assert (days_in_month (year d) (month d) <= 31).
  { unfold days_in_month. repeat case_match; lia. }
  lia.
Qed.

Lemma datetime_range (t : datetime) :
  0 <= hour t < 24 /\ 0 <= minute t < 60 /\ 0 <= second t < 60 /\
  0 <= microsecond t < 1000000 /\
  (forall off, tzinfo t = Some off -> - DAY_US < off < DAY_US).
Proof.
  pose proof (datetime_ok t) as H. unfold check_time_fields in H.
  apply andb_prop_elim in H; destruct H as [H Htz].
  repeat (apply andb_prop_elim in H; destruct H as [H ?]).
  repeat match goal with
         | X : Is_true (_ <=? _) |- _ => apply Is_true_eq_true, Z.leb_le in X
         | X : Is_true (_ <? _) |- _ => apply Is_true_eq_true, Z.ltb_lt in X
         end.
  split; [lia|]. split; [lia|]. split; [lia|]. split; [lia|].
  intros off E. rewrite E in Htz. simpl in Htz.
  apply andb_prop_elim in Htz. destruct Htz as [A B].
  apply Is_true_eq_true, Z.ltb_lt in A.
  apply Is_true_eq_true, Z.ltb_lt in B. lia.
Qed.

(** ** Digits *)

Lemma digit_val_char (n : Z) : 0 <= n < 10 -> digit_val (digit_char n) = Some n.
Proof.
  intros Hn. unfold digit_val, digit_char.
  rewrite N_ascii_embedding by lia.
  rewrite Z2N.id by lia.
  replace (48 <=? 48 + n) with true by (symmetry; apply Z.leb_le; lia).
  replace (48 + n <=? 57) with true by (symmetry; apply Z.leb_le; lia).
  simpl. f_equal. lia.
Qed.

Lemma digit_not (c x : ascii) (v : Z) :
  digit_val c = Some v -> digit_val x = None -> Ascii.eqb c x = false.
Proof.
  intros Hc Hx. destruct (Ascii.eqb_spec c x) as [->|]; [congruence | done].
Qed.

(** ** [fromisoformat] inverts [isoformat] *)

Ltac crunch :=
  cbn -[Z.add Z.mul Z.div Z.modulo Z.eqb new_date new_datetime digit_val digit_char].

Lemma parse_date_chars (y1 y2 y3 y4 m1 m2 d1 d2 : ascii) (a b c d e f g h : Z) :
  digit_val y1 = Some a -> digit_val y2 = Some b -> digit_val y3 = Some c ->
  digit_val y4 = Some d -> digit_val m1 = Some e -> digit_val m2 = Some f ->
  digit_val d1 = Some g -> digit_val d2 = Some h ->
  parse_isoformat_date
    (String y1 (String y2 (String y3 (String y4 (String "-"
       (String m1 (String m2 (String "-" (String d1 (String d2 "")))))))))) =
  new_date (10 * (10 * (10 * (10 * 0 + a) + b) + c) + d)
           (10 * (10 * 0 + e) + f) (10 * (10 * 0 + g) + h).
Proof.
  intros. unfold parse_isoformat_date. crunch.
  repeat match goal with H : digit_val _ = _ |- _ => rewrite H; crunch end.
  reflexivity.
Qed.

Lemma digit_mod n : digit_val (digit_char (n mod 10)) = Some (n mod 10).
Proof. apply digit_val_char. apply Z.mod_pos_bound. lia. Qed.

Lemma date_isoformat_chars (d : date) :
  date_isoformat d =
  String (digit_char (year d / 10 / 10 / 10 mod 10))
 (String (digit_char (year d / 10 / 10 mod 10))
 (String (digit_char (year d / 10 mod 10))
 (String (digit_char (year d mod 10))
 (String "-"
 (String (digit_char (month d / 10 mod 10))
 (String (digit_char (month d mod 10))
 (String "-"
 (String (digit_char (day d / 10 mod 10))
 (String (digit_char (day d mod 10)) ""))))))))).
Proof. reflexivity. Qed.

Lemma digits4 n : 0 <= n < 10000 ->
  10 * (10 * (10 * (10 * 0 + n / 10 / 10 / 10 mod 10)
                    + n / 10 / 10 mod 10)
              + n / 10 mod 10)
  + n mod 10 = n.
Proof. intros. Z.div_mod_to_equations. lia. Qed.

Lemma digits2 n : 0 <= n < 100 -> 10 * (10 * 0 + n / 10 mod 10) + n mod 10 = n.
Proof. intros. Z.div_mod_to_equations. lia. Qed.

Lemma digits6 n : 0 <= n < 1000000 ->
  10 * (10 * (10 * (10 * (10 * (10 * 0 + n / 10 / 10 / 10 / 10 / 10 mod 10)
                                + n / 10 / 10 / 10 / 10 mod 10)
                          + n / 10 / 10 / 10 mod 10)
                    + n / 10 / 10 mod 10)
              + n / 10 mod 10)
  + n mod 10 = n.
Proof. intros. Z.div_mod_to_equations. lia. Qed.

Lemma date_roundtrip (d : date) : date_fromisoformat (date_isoformat d) = Some d.
Proof.
  unfold date_fromisoformat. rewrite date_isoformat_chars.
  erewrite parse_date_chars by apply digit_mod.
  pose proof (date_range d).
  rewrite digits4, !digits2 by lia. apply new_date_fields.
Qed.

Local Arguments String.append : simpl nomatch.

Lemma substring_full (s : string) : substring 0 (String.length s) s = s.
Proof. induction s; simpl; congruence. Qed.

Lemma substring_app_l (a b : string) :
  substring 0 (String.length a) (a +:+ b) = a.
Proof. induction a; simpl; [by destruct b | congruence]. Qed.

Lemma substring_app_r (a b : string) (c : ascii) :
  substring (S (String.length a)) (String.length b) (a +:+ String c b) = b.
Proof. induction a; simpl; [apply substring_full | done]. Qed.

Lemma length_app (a b : string) :
  String.length (a +:+ b) = (String.length a + String.length b)%nat.
Proof. induction a; simpl; congruence. Qed.

Lemma get_app_r (a b : string) (c : ascii) :
  String.get (String.length a) (a +:+ String c b) = Some c.
Proof. induction a; simpl; done. Qed.

Lemma find_char_app (c : ascii) (a b : string) :
  find_char c (a +:+ b) =
  match find_char c a with
  | Some i => Some i
  | None => option_map (fun i => (String.length a + i)%nat) (find_char c b)
  end.
Proof.
  induction a as [|x a IH]; simpl.
  - by destruct (find_char c b).
  - destruct (Ascii.eqb x c); [done|]. rewrite IH.
    destruct (find_char c a); simpl; [done|]. by destruct (find_char c b).
Qed.

Lemma fromisoformat_date_only (c0 c1 c2 c3 c4 c5 c6 c7 c8 c9 : ascii) :
  let dstr := String c0 (String c1 (String c2 (String c3 (String c4
              (String c5 (String c6 (String c7 (String c8 (String c9 ""))))))))) in
  datetime_fromisoformat dstr =
  d ← parse_isoformat_date dstr; new_datetime d 0 0 0 0 None.
Proof. reflexivity. Qed.

Lemma fromisoformat_split (c0 c1 c2 c3 c4 c5 c6 c7 c8 c9 sep : ascii) (tstr : string) :
  let dstr := String c0 (String c1 (String c2 (String c3 (String c4
              (String c5 (String c6 (String c7 (String c8 (String c9 ""))))))))) in
  tstr <> "" ->
  datetime_fromisoformat (dstr +:+ String sep tstr) =
  d ← parse_isoformat_date dstr;
  '(h, mi, s, us, tz) ← parse_isoformat_time tstr;
  new_datetime d h mi s us tz.
Proof.
  intros dstr Hne. unfold datetime_fromisoformat, slice_from, slice. subst dstr.
  cbn [String.append String.length substring Nat.sub].
  rewrite Nat.sub_0_r, substring_full. by destruct tstr.
Qed.

(** Shapes of a time of day and of an offset. *)
Section Shapes.
Variables (a1 a2 b1 b2 c1 c2 u1 u2 u3 u4 u5 u6 : ascii).
Variables (va1 va2 vb1 vb2 vc1 vc2 vu1 vu2 vu3 vu4 vu5 vu6 : Z).
Hypotheses (Ha1 : digit_val a1 = Some va1) (Ha2 : digit_val a2 = Some va2)
             (Hb1 : digit_val b1 = Some vb1) (Hb2 : digit_val b2 = Some vb2)
             (Hc1 : digit_val c1 = Some vc1) (Hc2 : digit_val c2 = Some vc2)
             (Hu1 : digit_val u1 = Some vu1) (Hu2 : digit_val u2 = Some vu2)
             (Hu3 : digit_val u3 = Some vu3) (Hu4 : digit_val u4 = Some vu4)
             (Hu5 : digit_val u5 = Some vu5) (Hu6 : digit_val u6 = Some vu6).

Let H := 10 * (10 * 0 + va1) + va2.
Let M := 10 * (10 * 0 + vb1) + vb2.
Let S := 10 * (10 * 0 + vc1) + vc2.
Let F := 10 * (10 * (10 * (10 * (10 * (10 * 0 + vu1) + vu2) + vu3) + vu4) + vu5) + vu6.

Ltac digits :=
    repeat first
      [ progress cbn -[Z.add Z.mul Z.div Z.modulo Z.eqb digit_val digit_char]
      | rewrite Ha1 | rewrite Ha2 | rewrite Hb1 | rewrite Hb2
      | rewrite Hc1 | rewrite Hc2 | rewrite Hu1 | rewrite Hu2
      | rewrite Hu3 | rewrite Hu4 | rewrite Hu5 | rewrite Hu6 ].

Lemma parse_shape_hm : parse_hh_mm_ss_ff (shape_hm a1 a2 b1 b2) = Some (H, M, 0, 0).
  Proof. unfold parse_hh_mm_ss_ff, shape_hm. digits. reflexivity. Qed.

Lemma parse_shape_hms : parse_hh_mm_ss_ff (shape_hms a1 a2 b1 b2 c1 c2) = Some (H, M, S, 0).
  Proof. unfold parse_hh_mm_ss_ff, shape_hms. digits. reflexivity. Qed.

Lemma parse_shape_hmsf : parse_hh_mm_ss_ff
    (shape_hmsf a1 a2 b1 b2 c1 c2 u1 u2 u3 u4 u5 u6) = Some (H, M, S, F).
  Proof. unfold parse_hh_mm_ss_ff, shape_hmsf. digits. reflexivity. Qed.

Lemma no_sign (x : ascii) :
    digit_val x = None -> x <> ":"%char -> x <> "."%char ->
    find_char x (shape_hm a1 a2 b1 b2) = None /\
    find_char x (shape_hms a1 a2 b1 b2 c1 c2) = None /\
    find_char x (shape_hmsf a1 a2 b1 b2 c1 c2 u1 u2 u3 u4 u5 u6) = None.
  Proof.
    intros Hx Hcolon Hdot.
    assert (E : forall c v, digit_val c = Some v -> Ascii.eqb c x = false)
      by (intros; by eapply digit_not).
    assert (E1 : Ascii.eqb ":" x = false) by (apply Ascii.eqb_neq; congruence).
    assert (E2 : Ascii.eqb "." x = false) by (apply Ascii.eqb_neq; congruence).
    unfold shape_hm, shape_hms, shape_hmsf; cbn -[Ascii.eqb].
    rewrite E1, E2, (E _ _ Ha1), (E _ _ Ha2), (E _ _ Hb1), (E _ _ Hb2),
      (E _ _ Hc1), (E _ _ Hc2), (E _ _ Hu1), (E _ _ Hu2), (E _ _ Hu3),
      (E _ _ Hu4), (E _ _ Hu5), (E _ _ Hu6). done.
  Qed.
End Shapes.

Lemma parse_time_naive (timestr : string) :
  find_char "-" timestr = None -> find_char "+" timestr = None ->
  (2 <= String.length timestr)%nat ->
  parse_isoformat_time timestr =
  '(h, mi, s, us) ← parse_hh_mm_ss_ff timestr; Some (h, mi, s, us, None).
Proof.
  intros Hm Hp Hlen. unfold parse_isoformat_time. rewrite Hm, Hp.
  replace (String.length timestr <? 2)%nat with false
    by (symmetry; apply Nat.ltb_ge; lia).
  simpl. destruct (parse_hh_mm_ss_ff timestr) as [[[[h mi] s] us]|]; done.
Qed.

Lemma parse_time_aware (timestr tzstr : string) (neg : bool) :
  find_char "-" timestr = None -> find_char "+" timestr = None ->
  find_char "-" tzstr = None ->
  (2 <= String.length timestr)%nat ->
  (String.length tzstr = 5 \/ String.length tzstr = 8 \/ String.length tzstr = 15)%nat ->
  parse_isoformat_time
    (timestr +:+ String (if neg then "-" else "+")%char tzstr) =
  '(h, mi, s, us) ← parse_hh_mm_ss_ff timestr;
  '(th, tm, ts, tus) ← parse_hh_mm_ss_ff tzstr;
  tz ← tz_of_comps neg th tm ts tus;
  Some (h, mi, s, us, Some tz).
Proof.
  intros Hm Hp Hz Hlen Htz. unfold parse_isoformat_time.
  rewrite length_app. simpl String.length.
  replace (String.length timestr + S (String.length tzstr) <? 2)%nat with false
    by (symmetry; apply Nat.ltb_ge; lia).
  rewrite !find_char_app, Hm, Hp.
  assert (Epos :
    match option_map (fun i => (String.length timestr + i)%nat)
            (find_char "-" (String (if neg then "-" else "+")%char tzstr)) with
    | Some i => S i
    | None =>
        match option_map (fun i => (String.length timestr + i)%nat)
                (find_char "+" (String (if neg then "-" else "+")%char tzstr)) with
        | Some i => S i
        | None => O
        end
    end = S (String.length timestr)).
  { destruct neg; simpl; [|rewrite Hz; simpl]; f_equal; lia. }
  rewrite Epos. clear Epos.
  change (0 <? S (String.length timestr))%nat with true. cbv iota.
  unfold slice, slice_from, char_at.
  replace (S (String.length timestr) - 1 - 0)%nat with (String.length timestr) by lia.
  replace (S (String.length timestr) - 1)%nat with (String.length timestr) by lia.
  rewrite substring_app_l, get_app_r, length_app. simpl String.length.
  replace (String.length timestr + S (String.length tzstr) - S (String.length timestr))%nat
    with (String.length tzstr) by lia.
  rewrite substring_app_r.
  destruct (parse_hh_mm_ss_ff timestr) as [[[[h mi] s] us]|]; [|done].
  cbn [mbind option_bind].
  replace (negb _) with false.
  2:{ symmetry. apply negb_false_iff.
      destruct Htz as [->|[->| ->]]; reflexivity. }
  destruct (parse_hh_mm_ss_ff tzstr) as [[[[th tm] ts] tus]|]; [|done].
  cbn [mbind option_bind]. unfold tz_of_comps.
  destruct ((th =? 0) && (tm =? 0) && (ts =? 0) && (tus =? 0)); [done|].
  by destruct neg.
Qed.

Lemma app_nil_r_string (s : string) : s +:+ "" = s.
Proof. induction s; simpl; congruence. Qed.

Lemma dc1_val n : digit_val (dc1 n) = Some (n / 10 mod 10).
Proof. apply digit_mod. Qed.
Lemma dc0_val n : digit_val (dc0 n) = Some (n mod 10).
Proof. apply digit_mod. Qed.

Lemma format_time_shape (h mi s us : Z) :
  format_time h mi s us =
  if us =? 0 then shape_hms (dc1 h) (dc0 h) (dc1 mi) (dc0 mi) (dc1 s) (dc0 s)
  else shape_hmsf (dc1 h) (dc0 h) (dc1 mi) (dc0 mi) (dc1 s) (dc0 s)
         (digit_char (us / 10 / 10 / 10 / 10 / 10 mod 10))
         (digit_char (us / 10 / 10 / 10 / 10 mod 10))
         (digit_char (us / 10 / 10 / 10 mod 10))
         (digit_char (us / 10 / 10 mod 10)) (dc1 us) (dc0 us).
Proof. unfold format_time. by destruct (us =? 0). Qed.

Lemma parse_format_time (h mi s us : Z) :
  0 <= h < 100 -> 0 <= mi < 100 -> 0 <= s < 100 -> 0 <= us < 1000000 ->
  parse_hh_mm_ss_ff (format_time h mi s us) = Some (h, mi, s, us) /\
  find_char "-" (format_time h mi s us) = None /\
  find_char "+" (format_time h mi s us) = None /\
  (String.length (format_time h mi s us) = 8 \/
   String.length (format_time h mi s us) = 15)%nat.
Proof.
  intros Hh Hm Hs Hus. rewrite format_time_shape.
  destruct (Z.eqb_spec us 0) as [->|Hne].
  - erewrite parse_shape_hms by apply digit_mod.
    rewrite !digits2 by lia.
    split; [done|].
    split; [eapply no_sign; try apply digit_mod; done|].
    split; [eapply no_sign; try apply digit_mod; done|]. by left.
  - erewrite parse_shape_hmsf by apply digit_mod.
    rewrite !digits2, digits6 by lia.
    split; [done|].
    split; [eapply no_sign; try apply digit_mod; done|].
    split; [eapply no_sign; try apply digit_mod; done|]. by right.
  Unshelve. all: exact 0.
Qed.

Lemma format_offset_shape (off : Z) :
  let a := Z.abs off in
  let hh := a / HOUR_US in
  let mm := (a mod HOUR_US) / MINUTE_US in
  let ss := (a mod HOUR_US) mod MINUTE_US in
  format_offset (Some off) =
  String (if off <? 0 then "-"%char else "+"%char)
    (if ss =? 0 then shape_hm (dc1 hh) (dc0 hh) (dc1 mm) (dc0 mm)
     else if ss mod SECOND_US =? 0
     then shape_hms (dc1 hh) (dc0 hh) (dc1 mm) (dc0 mm)
            (dc1 (ss / SECOND_US)) (dc0 (ss / SECOND_US))
     else shape_hmsf (dc1 hh) (dc0 hh) (dc1 mm) (dc0 mm)
            (dc1 (ss / SECOND_US)) (dc0 (ss / SECOND_US))
            (digit_char (ss mod SECOND_US / 10 / 10 / 10 / 10 / 10 mod 10))
            (digit_char (ss mod SECOND_US / 10 / 10 / 10 / 10 mod 10))
            (digit_char (ss mod SECOND_US / 10 / 10 / 10 mod 10))
            (digit_char (ss mod SECOND_US / 10 / 10 mod 10))
            (dc1 (ss mod SECOND_US)) (dc0 (ss mod SECOND_US))).
Proof.
  intros a hh mm ss. unfold format_offset. fold a. fold hh. fold mm. fold ss.
  destruct (off <? 0), (ss =? 0); try reflexivity;
    destruct (ss mod SECOND_US =? 0); reflexivity.
Qed.

Lemma parse_format_offset (off : Z) :
  - DAY_US < off < DAY_US ->
  exists tzstr,
    format_offset (Some off) = String (if off <? 0 then "-"%char else "+"%char) tzstr /\
    find_char "-" tzstr = None /\
    (String.length tzstr = 5 \/ String.length tzstr = 8 \/
     String.length tzstr = 15)%nat /\
    (parse_hh_mm_ss_ff tzstr ≫=
       (λ '(th, tm, ts, tus), tz_of_comps (off <? 0) th tm ts tus)) = Some off.
Proof.
  intros Hoff. rewrite format_offset_shape.
  set (a := Z.abs off). set (hh := a / HOUR_US).
  set (mm := a mod HOUR_US / MINUTE_US). set (ss := (a mod HOUR_US) mod MINUTE_US).
  assert (Ha : 0 <= a < DAY_US) by (unfold a, DAY_US in *; lia).
  assert (Hhh : 0 <= hh < 24).
  { unfold hh, HOUR_US, DAY_US in *. Z.div_mod_to_equations. lia. }
  assert (Hmm : 0 <= mm < 60).
  { unfold mm, HOUR_US, MINUTE_US in *. Z.div_mod_to_equations. lia. }
  assert (Hss : 0 <= ss < MINUTE_US).
  { unfold ss, MINUTE_US. apply Z.mod_pos_bound. lia. }
  assert (Hsec : 0 <= ss / SECOND_US < 60).
  { unfold SECOND_US, MINUTE_US in *. Z.div_mod_to_equations. lia. }
  assert (Hus : 0 <= ss mod SECOND_US < 1000000).
  { apply Z.mod_pos_bound. unfold SECOND_US. lia. }
  assert (Hdec : a = hh * HOUR_US + mm * MINUTE_US + ss).
  { unfold hh, mm, ss, HOUR_US, MINUTE_US. Z.div_mod_to_equations. lia. }
  assert (Hss2 : ss = ss / SECOND_US * SECOND_US + ss mod SECOND_US).
  { unfold SECOND_US. Z.div_mod_to_equations. lia. }
  assert (Hsign : (if off <? 0 then -1 else 1) * a = off).
  { unfold a. destruct (Z.ltb_spec off 0); lia. }
  eexists. split; [reflexivity|].
  destruct (Z.eqb_spec ss 0) as [Ess|Ess];
    [|destruct (Z.eqb_spec (ss mod SECOND_US) 0) as [Eus|Eus]].
  - split; [eapply no_sign; try apply digit_mod; done|]. split; [by left|].
    erewrite parse_shape_hm by apply digit_mod. rewrite !digits2 by lia.
    cbn [mbind option_bind]. unfold tz_of_comps.
    destruct (Z.eqb_spec hh 0) as [E1|E1]; destruct (Z.eqb_spec mm 0) as [E2|E2];
      cbn [andb Z.eqb]; f_equal; destruct (off <? 0); lia.
  - split; [eapply no_sign; try apply digit_mod; done|]. split; [right; by left|].
    erewrite parse_shape_hms by apply digit_mod. rewrite !digits2 by lia.
    cbn [mbind option_bind]. unfold tz_of_comps.
    replace (ss / SECOND_US =? 0) with false.
    2:{ symmetry. apply Z.eqb_neq. lia. }
    rewrite !andb_false_r, andb_false_l. f_equal. destruct (off <? 0); lia.
  - split; [eapply no_sign; try apply digit_mod; done|]. split; [right; by right|].
    erewrite parse_shape_hmsf by apply digit_mod. rewrite !digits2, digits6 by lia.
    cbn [mbind option_bind]. unfold tz_of_comps.
    replace (ss mod SECOND_US =? 0) with false.
    2:{ symmetry. by apply Z.eqb_neq. }
    rewrite !andb_false_r. f_equal. destruct (off <? 0); lia.
  Unshelve. all: exact 0.
Qed.

(** [datetime.fromisoformat(d.isoformat()).date() == d] *)
Lemma datetime_fromisoformat_date (d : date) :
  dt_date <$> datetime_fromisoformat (date_isoformat d) = Some d.
Proof.
  pose proof (date_roundtrip d) as P. unfold date_fromisoformat in P.
  rewrite date_isoformat_chars in *. rewrite fromisoformat_date_only, P.
  cbn [mbind option_bind]. unfold new_datetime.
  destruct decide as [H|H]; [done|]. by destruct H.
Qed.

(** [datetime.fromisoformat(t.isoformat()) == t] *)
Lemma datetime_roundtrip (t : datetime) :
  datetime_fromisoformat (datetime_isoformat t) = Some t.
Proof.
  pose proof (date_roundtrip (dt_date t)) as P. unfold date_fromisoformat in P.
  pose proof (datetime_range t) as (Hh & Hm & Hs & Hus & Htz).
  destruct (parse_format_time (hour t) (minute t) (second t) (microsecond t))
    as (Pt & Nm & Np & Len); try lia.
  unfold datetime_isoformat.
  change ("T" +:+ ?x) with (String "T" x).
  rewrite date_isoformat_chars in *.
  rewrite fromisoformat_split.
  2:{ destruct (format_time _ _ _ _); [by destruct Len|done]. }
  rewrite P. cbn [mbind option_bind].
  destruct (tzinfo t) as [off|] eqn:Etz.
  - destruct (parse_format_offset off) as (tzstr & -> & Zm & Zlen & Pz); [by apply Htz|].
    rewrite (parse_time_aware _ _ (off <? 0)); [|done|done|done|lia|done].
    rewrite Pt. cbn [mbind option_bind].
    destruct (parse_hh_mm_ss_ff tzstr) as [[[[th tm] ts] tus]|]; [|done].
    cbn [mbind option_bind] in *. rewrite Pz. cbn [mbind option_bind].
    rewrite <- Etz. apply new_datetime_fields.
  - change (format_offset None) with "". rewrite app_nil_r_string.
    rewrite parse_time_naive; [|done|done|lia].
    rewrite Pt. cbn [mbind option_bind].
    rewrite <- Etz. apply new_datetime_fields.
Qed.

End PyDatetimeFacts.

(* ===================================================================== *)
(** * Facts about the server *)
(* ===================================================================== *)

Import PyDatetimeFacts.

(** ** Tactics *)

Ltac dicts :=
  unfold Tender.dict, TenderCreate.dict, TenderUpdate.dict,
    Tender.items, TenderCreate.items, TenderUpdate.items;
  cbn [list_to_map fold_right fst snd].

Ltac lk :=
  repeat first
    [ rewrite lookup_insert_eq
    | rewrite lookup_insert_ne by done
    | rewrite lookup_alter_eq
    | rewrite lookup_alter_ne by done
    | rewrite lookup_empty ].

Ltac fields H :=
  unfold holds, stores, stored_items, Tender.items in H;
  cbn [fmap list_fmap] in H;
  repeat match type of H with
         | Forall _ (_ :: _) =>
             let H1 := fresh "F" in
             apply Forall_cons in H as [H1 H]; cbn in H1
         end;
  clear H.

Ltac binds H :=
  repeat match type of H with
         | (?o ≫= _) = Some _ =>
             let E := fresh "E" in destruct o eqn:E; [|done];
             cbn [mbind option_bind] in H
         end.

(** ** The handler monad *)

Lemma bind_run {A B} (m : Handler A) (k : A -> Handler B) (w : World) :
  (m ≫= k) w =
  match m w with
  | (Returned a, w') => k a w'
  | (Raised e, w') => (Raised e, w')
  end.
Proof. reflexivity. Qed.

Lemma ret_bind {A B} (a : A) (k : A -> Handler B) (w : World) :
  (ret a ≫= k) w = k a w.
Proof. reflexivity. Qed.

Lemma bind_returned {A B} (m : Handler A) (k : A -> Handler B) w a w' :
  m w = (Returned a, w') -> (m ≫= k) w = k a w'.
Proof. intros E. by rewrite bind_run, E. Qed.

Lemma bind_raised {A B} (m : Handler A) (k : A -> Handler B) w e w' :
  m w = (Raised e, w') -> (m ≫= k) w = (Raised e, w').
Proof. intros E. by rewrite bind_run, E. Qed.

(** ** Enumerations *)

Lemma TenderStatus_of_value (m : TenderStatus) :
  TenderStatus_of (TenderStatus_value m) = Some m.
Proof. by destruct m. Qed.

Lemma PriorityLevel_of_value (m : PriorityLevel) :
  PriorityLevel_of (PriorityLevel_value m) = Some m.
Proof. by destruct m. Qed.

Lemma TenderStatus_of_Some (s : string) (m : TenderStatus) :
  TenderStatus_of s = Some m -> TenderStatus_value m = s.
Proof.
  unfold TenderStatus_of. intros H. apply find_some in H as [_ H].
  by apply String.eqb_eq.
Qed.

Lemma PriorityLevel_of_Some (s : string) (m : PriorityLevel) :
  PriorityLevel_of s = Some m -> PriorityLevel_value m = s.
Proof.
  unfold PriorityLevel_of. intros H. apply find_some in H as [_ H].
  by apply String.eqb_eq.
Qed.

(** ** Filters *)

Lemma field_is_true (d : Doc) (k s : string) :
  field_is d k s = true <-> d !! k = Some (VStr s).
Proof.
  unfold field_is. destruct (d !! k) as [[]|]; try (split; intros; congruence).
  rewrite String.eqb_eq. split; congruence.
Qed.

Lemma matches_spec (q : Query) (d : Doc) :
  matches q d = true <-> forall k s, q !! k = Some s -> d !! k = Some (VStr s).
Proof.
  unfold matches. rewrite forallb_forall. split.
  - intros H k s Hk. apply field_is_true.
    apply (H (k, s)). apply list_elem_of_In. by apply elem_of_map_to_list.
  - intros H [k s] Hin. apply field_is_true. apply H.
    apply elem_of_map_to_list. by apply list_elem_of_In.
Qed.

Lemma matches_id (x : string) (d : Doc) :
  matches {["id" := x]} d = field_is d "id" x.
Proof.
  unfold matches. rewrite map_to_list_singleton. simpl. apply andb_true_r.
Qed.

Lemma absent_cons x d l :
  absent x (d :: l) <-> field_is d "id" x = false /\ absent x l.
Proof.
  unfold absent. split.
  - intros H. split.
    + destruct (field_is d "id" x) eqn:E; [|done].
      apply field_is_true in E. destruct (H d); [left|done].
    + intros d' Hd'. apply H. by right.
  - intros [E H] d' Hd'. apply elem_of_cons in Hd' as [->|Hd']; [|by apply H].
    intros C. apply field_is_true in C. congruence.
Qed.

Lemma find_absent x l : absent x l -> List.find (matches {["id" := x]}) l = None.
Proof.
  induction l as [|d l IH]; [done|]. rewrite absent_cons. intros [E H].
  simpl. rewrite matches_id, E. by apply IH.
Qed.

Lemma update_first_absent x f l :
  absent x l -> update_first (matches {["id" := x]}) f l = None.
Proof.
  induction l as [|d l IH]; [done|]. rewrite absent_cons. intros [E H].
  simpl. rewrite matches_id, E, IH; done.
Qed.

Lemma delete_first_absent x l :
  absent x l -> delete_first (matches {["id" := x]}) l = None.
Proof.
  induction l as [|d l IH]; [done|]. rewrite absent_cons. intros [E H].
  simpl. rewrite matches_id, E, IH; done.
Qed.

(** ** Dictionaries *)

Lemma insert_as_alter (f : Value -> Value) (k : string) (d : Doc) (v : Value) :
  d !! k = Some v -> <[k := f v]> d = alter f k d.
Proof.
  intros E. apply map_eq. intros j. destruct (decide (k = j)) as [<-|N].
  - by rewrite lookup_insert_eq, lookup_alter_eq, E.
  - by rewrite lookup_insert_ne, lookup_alter_ne.
Qed.

Lemma alter_absent (f : Value -> Value) (k : string) (d : Doc) :
  d !! k = None -> alter f k d = d.
Proof.
  intros E. apply map_eq. intros j. destruct (decide (k = j)) as [<-|N].
  - by rewrite lookup_alter_eq, E.
  - by rewrite lookup_alter_ne.
Qed.

Section ServerFacts.
Context (lib : Leniency).

Lemma dict_isoformat_if_in_alter (k : string) (d : Doc) (w : World) :
  (forall v, d !! k = Some v -> temporal v = true) ->
  dict_isoformat_if_in k d w = (Returned (alter iso_of k d), w).
Proof.
  intros H. unfold dict_isoformat_if_in, dict_isoformat.
  destruct (d !! k) as [v|] eqn:E.
  - specialize (H v eq_refl).
    destruct v; try discriminate; unfold ret;
      by erewrite <- (insert_as_alter iso_of) by done.
  - by rewrite alter_absent.
Qed.

Lemma dict_isoformat_alter (k : string) (d : Doc) (w : World) (v : Value) :
  d !! k = Some v -> temporal v = true ->
  dict_isoformat k d w = (Returned (alter iso_of k d), w).
Proof.
  intros E H. unfold dict_isoformat. rewrite E.
  destruct v; try discriminate; unfold ret;
    by erewrite <- (insert_as_alter iso_of) by done.
Qed.

Lemma non_null_lookup upd k :
  non_null upd !! k =
  match TenderUpdate.dict upd !! k with
  | Some v => if is_None v then None else Some v
  | None => None
  end.
Proof.
  unfold non_null. rewrite map_lookup_filter.
  destruct (TenderUpdate.dict upd !! k) as [v|]; [|done]. simpl.
  by destruct (is_None v).
Qed.

Lemma non_null_temporal upd k v :
  k = "start_date" \/ k = "expiry_date" \/ k = "due_date" ->
  non_null upd !! k = Some v -> temporal v = true.
Proof.
  intros Hk. rewrite non_null_lookup. dicts.
  destruct Hk as [->|[->| ->]]; lk.
  - destruct (TenderUpdate.start_date upd); simpl; by intros [= <-].
  - destruct (TenderUpdate.expiry_date upd); simpl; by intros [= <-].
  - destruct (TenderUpdate.due_date upd); simpl; by intros [= <-].
Qed.

Lemma update_tender_run tender_id upd w :
  update_tender lib tender_id upd w =
  update_tail lib tender_id (update_set upd (utc_clock w (clock_reads w)))
    (snd (utcnow w)).
Proof.
  unfold update_tender. fold (non_null upd).
  rewrite (bind_returned _ _ _ _ _ (dict_isoformat_if_in_alter _ _ _
    (fun v => non_null_temporal upd _ v (or_introl eq_refl)))).
  erewrite bind_returned.
  2:{ apply dict_isoformat_if_in_alter. intros v. rewrite lookup_alter_ne by done.
      apply non_null_temporal. auto. }
  erewrite bind_returned.
  2:{ apply dict_isoformat_if_in_alter. intros v. rewrite !lookup_alter_ne by done.
      apply non_null_temporal. auto. }
  reflexivity.
Qed.

(** Claim C4.  When no document of the collection carries the identifier,
    fetching, updating and deleting by it each raise [HTTPException] with
    status 404, and the collection is afterwards what it was. *)
Theorem not_found_leaves_store (tender_id : string) (upd : TenderUpdate.t)
    (w : World) :
  absent tender_id (tenders w) ->
  answers_404 (get_tender lib tender_id w) w /\
  answers_404 (update_tender lib tender_id upd w) w /\
  answers_404 (delete_tender tender_id w) w.
Proof.
  intros H. unfold answers_404. repeat split.
  - unfold get_tender. rewrite bind_run. unfold find_one.
    by rewrite (find_absent _ _ H).
  - unfold get_tender. rewrite bind_run. unfold find_one.
    by rewrite (find_absent _ _ H).
  - rewrite update_tender_run. unfold update_tail. rewrite bind_run.
    unfold update_one. simpl tenders. by rewrite (update_first_absent _ _ _ H).
  - rewrite update_tender_run. unfold update_tail. rewrite bind_run.
    unfold update_one. simpl tenders. by rewrite (update_first_absent _ _ _ H).
  - unfold delete_tender. rewrite bind_run. unfold delete_one.
    by rewrite (delete_first_absent _ _ H).
  - unfold delete_tender. rewrite bind_run. unfold delete_one.
    by rewrite (delete_first_absent _ _ H).
Qed.

(** ** Reading a document back *)

Lemma Tender_new_holds (kw : Doc) (x : Tender.t) (w : World) :
  holds kw x -> Tender_new lib kw w = (Returned x, w).
Proof.
  intros H. fields H.
  unfold Tender_new, with_factory, Tender_fields, required.
  repeat match goal with F : _ !! _ = Some _ |- _ => rewrite F; clear F end.
  cbn -[TenderStatus_of PriorityLevel_of].
  rewrite TenderStatus_of_value, PriorityLevel_of_value. by destruct x.
Qed.

Lemma fromisoformat_date (d : date) :
  exists t, fromisoformat lib (date_isoformat d) = Some t /\ dt_date t = d.
Proof.
  pose proof (datetime_fromisoformat_date d) as H. unfold fromisoformat.
  destruct (datetime_fromisoformat (date_isoformat d)) as [t|]; [|done].
  exists t. split; [done|]. by injection H.
Qed.

Lemma fromisoformat_datetime (t : datetime) :
  fromisoformat lib (datetime_isoformat t) = Some t.
Proof. unfold fromisoformat. by rewrite datetime_roundtrip. Qed.

Lemma parse_dates_stores (d : Doc) (x : Tender.t) (w : World) :
  stores d x ->
  exists d', parse_dates lib d w = (Returned d', w) /\ holds d' x.
Proof.
  intros H. fields H.
  destruct (fromisoformat_date (Tender.start_date x)) as (t1 & E1 & D1).
  destruct (fromisoformat_date (Tender.expiry_date x)) as (t2 & E2 & D2).
  pose proof (fromisoformat_datetime (Tender.due_date x)) as E3.
  eexists. split.
  - unfold parse_dates, dict_fromisoformat.
    rewrite F4, E1, ret_bind. lk.
    rewrite F5, E2, ret_bind. lk.
    rewrite F6, E3. reflexivity.
  - rewrite D1, D2. unfold holds, Tender.items.
    repeat (apply Forall_cons; split; [cbn [fst snd]; lk; done|]).
    constructor.
Qed.

(** ** [create_tender] *)

Lemma validate_date_isoformat (d : date) :
  validate_date lib (VStr (date_isoformat d)) = Some d.
Proof. unfold validate_date. by rewrite date_roundtrip. Qed.

Lemma validate_datetime_isoformat (t : datetime) :
  wire t -> validate_datetime lib (VStr (datetime_isoformat t)) = Some t.
Proof.
  intros H. unfold validate_datetime.
  by rewrite datetime_roundtrip, H, String.eqb_refl.
Qed.

Lemma iso_dates_lookup (d : Doc) (k : string) :
  iso_dates d !! k =
  (if existsb (String.eqb k) date_fields then iso_of else id) <$> d !! k.
Proof.
  unfold iso_dates, date_fields. cbn [existsb].
  destruct (String.eqb_spec k "start_date") as [->|N1].
  { by rewrite !lookup_alter_ne, lookup_alter_eq by done. }
  destruct (String.eqb_spec k "expiry_date") as [->|N2].
  { by rewrite lookup_alter_ne, lookup_alter_eq, lookup_alter_ne by done. }
  destruct (String.eqb_spec k "due_date") as [->|N3].
  { by rewrite lookup_alter_eq, !lookup_alter_ne by done. }
  rewrite !lookup_alter_ne by done. by destruct (d !! k).
Qed.

Lemma stores_stored (x : Tender.t) : stores (stored x) x.
Proof.
  unfold stores, stored, stored_items, Tender.items. cbn [fmap list_fmap].
  repeat (apply Forall_cons; split;
          [cbn [fst snd]; rewrite iso_dates_lookup; dicts; lk; done|]).
  constructor.
Qed.

(** ** What the collection keeps *)

Lemma stored_is_map (x : Tender.t) : stored x = list_to_map (stored_items x).
Proof.
  apply map_eq. intros k. unfold stored. rewrite iso_dates_lookup.
  unfold stored_items. dicts. cbn [fmap list_fmap list_to_map foldr fst snd].
  rewrite !(lookup_insert _ _ k), !lookup_empty.
  repeat (case_decide; [subst k; reflexivity|]). done.
Qed.

(** The constructor accepts the fields of [bson_datetime]: they are those
    of [t], with the microseconds cut to the millisecond. *)
Lemma bson_datetime_fields (t : datetime) :
  dt_date (bson_datetime t) = dt_date t /\
  hour (bson_datetime t) = hour t /\
  minute (bson_datetime t) = minute t /\
  second (bson_datetime t) = second t /\
  microsecond (bson_datetime t) = microsecond t / 1000 * 1000 /\
  tzinfo (bson_datetime t) = tzinfo t.
Proof.
  destruct t as [d h mi s us tz ok]. unfold bson_datetime, new_datetime.
  cbn [dt_date hour minute second microsecond tzinfo].
  destruct (decide _) as [H|H]; [done|]. exfalso. apply H.
  apply Is_true_true in ok. apply Is_true_true.
  unfold check_time_fields in *.
  repeat (apply andb_true_iff in ok as [ok ?]).
  repeat (apply andb_true_iff; split); try done;
    repeat match goal with
           | E : (_ <=? _) = true |- _ => apply Z.leb_le in E
           | E : (_ <? _) = true |- _ => apply Z.ltb_lt in E
           end;
    first [apply Z.leb_le | apply Z.ltb_lt];
    pose proof (Z.mul_div_le us 1000 eq_refl);
    pose proof (Z.div_pos us 1000); lia.
Qed.

(** A date-time of whole milliseconds is kept as it is. *)
Lemma bson_datetime_whole (t : datetime) :
  microsecond t mod 1000 = 0 -> bson_datetime t = t.
Proof.
  intros H. destruct (bson_datetime_fields t) as (? & ? & ? & ? & E & ?).
  apply datetime_eq; try done. rewrite E, Z.mul_comm. symmetry.
  by apply Z.div_exact.
Qed.

Lemma bson_datetime_idemp (t : datetime) :
  bson_datetime (bson_datetime t) = bson_datetime t.
Proof.
  apply bson_datetime_whole.
  destruct (bson_datetime_fields t) as (_ & _ & _ & _ & -> & _).
  by apply Z.mod_mul.
Qed.

(** Of the document [create_tender] passes to [insert_one], the collection
    keeps the document of the record with its timestamps cut. *)
Lemma bson_stored (x : Tender.t) : bson (stored x) = stored (kept x).
Proof.
  rewrite !stored_is_map. unfold bson. rewrite <- list_to_map_fmap.
  reflexivity.
Qed.

Lemma stored_no_date (x : Tender.t) (k : string) (a : date) :
  stored x !! k <> Some (VDate a).
Proof.
  rewrite stored_is_map. unfold stored_items, Tender.items.
  cbn [fmap list_fmap list_to_map foldr fst snd existsb date_fields String.eqb
       Ascii.eqb Bool.eqb iso_of].
  rewrite !(lookup_insert _ _ k), !lookup_empty.
  repeat (case_decide; [done|]). done.
Qed.

Lemma Tender_new_create (td : TenderCreate.t) (w : World) :
  wire (TenderCreate.due_date td) ->
  Tender_new lib (iso_dates (TenderCreate.dict td)) w =
  (Returned (Tender_of td (uuid_source w (uuids_drawn w))
               (utc_clock w (clock_reads w)) (utc_clock w (S (clock_reads w)))),
   mkWorld (tenders w) (utc_clock w) (S (S (clock_reads w)))
     (uuid_source w) (S (uuids_drawn w)) (store_calls w)).
Proof.
  intros Hwire.
  unfold Tender_new, with_factory, Tender_fields, required.
  rewrite !iso_dates_lookup. dicts. lk.
  cbn -[TenderStatus_of PriorityLevel_of date_isoformat datetime_isoformat
        validate_date validate_datetime].
  rewrite !validate_date_isoformat, validate_datetime_isoformat by done.
  rewrite TenderStatus_of_value, PriorityLevel_of_value.
  reflexivity.
Qed.

Lemma create_tender_run (td : TenderCreate.t) (w : World) :
  wire (TenderCreate.due_date td) ->
  let x := Tender_of td (uuid_source w (uuids_drawn w))
             (utc_clock w (clock_reads w)) (utc_clock w (S (clock_reads w))) in
  create_tender lib td w =
  (Returned x,
   mkWorld (tenders w ++ [stored (kept x)]) (utc_clock w)
     (S (S (clock_reads w))) (uuid_source w) (S (uuids_drawn w))
     (store_calls w ++ [call_insert_one (stored x)])).
Proof.
  intros Hwire x. unfold create_tender.
  erewrite bind_returned
    by (eapply dict_isoformat_alter; [dicts; lk; reflexivity | done]).
  erewrite bind_returned
    by (eapply dict_isoformat_alter;
        [rewrite lookup_alter_ne by done; dicts; lk; reflexivity | done]).
  erewrite bind_returned
    by (eapply dict_isoformat_alter;
        [rewrite !lookup_alter_ne by done; dicts; lk; reflexivity | done]).
  fold (iso_dates (TenderCreate.dict td)).
  erewrite bind_returned by (by apply Tender_new_create).
  fold x.
  erewrite bind_returned
    by (eapply dict_isoformat_alter; [dicts; lk; reflexivity | done]).
  erewrite bind_returned
    by (eapply dict_isoformat_alter;
        [rewrite lookup_alter_ne by done; dicts; lk; reflexivity | done]).
  erewrite bind_returned
    by (eapply dict_isoformat_alter;
        [rewrite !lookup_alter_ne by done; dicts; lk; reflexivity | done]).
  fold (iso_dates (Tender.dict x)). fold (stored x).
  rewrite bind_run. unfold insert_one. rewrite bson_stored. reflexivity.
Qed.

(** ** [get_tender] *)

Lemma find_first (x : string) (l1 l2 : list Doc) (d : Doc) :
  absent x l1 -> d !! "id" = Some (VStr x) ->
  List.find (matches {["id" := x]}) (l1 ++ d :: l2) = Some d.
Proof.
  intros H E. induction l1 as [|d1 l1 IH]; simpl.
  - rewrite matches_id. by apply field_is_true in E as ->.
  - apply absent_cons in H as [E1 H]. rewrite matches_id, E1. by apply IH.
Qed.

Lemma stores_id (d : Doc) (x : Tender.t) :
  stores d x -> d !! "id" = Some (VStr (Tender.id x)).
Proof. intros H. by fields H. Qed.

Lemma get_tender_found (l1 l2 : list Doc) (d : Doc) (x : Tender.t) (w : World) :
  tenders w = (l1 ++ d :: l2) -> absent (Tender.id x) l1 -> stores d x ->
  get_tender lib (Tender.id x) w =
  (Returned x,
   with_store (tenders w) (call_find_one {["id" := Tender.id x]}) w).
Proof.
  intros Hw Habs Hd. unfold get_tender. rewrite bind_run. unfold find_one.
  rewrite Hw, (find_first _ _ _ _ Habs (stores_id _ _ Hd)), <- Hw.
  unfold falsy.
  replace (size d =? 0)%nat with false.
  2:{ symmetry. apply Nat.eqb_neq. eapply map_size_ne_0_lookup_2.
      rewrite (stores_id _ _ Hd). done. }
  destruct (parse_dates_stores d x
              (with_store (tenders w) (call_find_one {["id" := Tender.id x]}) w) Hd)
    as (d' & E & Hd').
  erewrite bind_returned by exact E.
  by apply Tender_new_holds.
Qed.

(** Claim C1.  Creating a tender and then fetching it by the identifier of
    the returned record yields a record whose [start_date], [expiry_date]
    (of type [date]) and [due_date] (of type [datetime]) are those of the
    payload: the dates survive being written as ISO-8601 strings and parsed
    on the way back.  The identifier drawn by [uuid4] is taken not to be in
    use, and the due date to be one JSON can carry. *)
Theorem create_then_get_dates (td : TenderCreate.t) (w : World) :
  wire (TenderCreate.due_date td) ->
  absent (uuid_source w (uuids_drawn w)) (tenders w) ->
  exists x w1 y w2,
    create_tender lib td w = (Returned x, w1) /\
    get_tender lib (Tender.id x) w1 = (Returned y, w2) /\
    Tender.start_date y = TenderCreate.start_date td /\
    Tender.expiry_date y = TenderCreate.expiry_date td /\
    Tender.due_date y = TenderCreate.due_date td.
Proof.
  intros Hwire Hfresh.
  set (x := Tender_of td (uuid_source w (uuids_drawn w))
              (utc_clock w (clock_reads w)) (utc_clock w (S (clock_reads w)))).
  eexists x, _, (kept x), _. split; [by apply create_tender_run|].
  split; [|done].
  apply (get_tender_found (tenders w) [] (stored (kept x)) (kept x));
    [done|exact Hfresh|].
  apply stores_stored.
Qed.

(** ** [update_tender] *)

Lemma update_set_lookup upd now k :
  update_set upd now !! k =
  if decide (k = "updated_at") then Some (VDateTime now)
  else (if existsb (String.eqb k) date_fields then iso_of else id) <$>
       non_null upd !! k.
Proof.
  unfold update_set. case_decide as E.
  - subst. by rewrite lookup_insert_eq.
  - rewrite lookup_insert_ne by done. apply iso_dates_lookup.
Qed.

(** Of the document [update_tender] passes as ["$set"], the collection
    keeps the reading of the clock cut to the millisecond; the other values
    are strings and numbers, kept as they are. *)
Lemma bson_update_set upd now :
  bson (update_set upd now) = update_set upd (bson_datetime now).
Proof.
  apply map_eq. intros k. unfold bson.
  rewrite lookup_fmap, !update_set_lookup. case_decide; [done|].
  rewrite non_null_lookup. unfold date_fields. cbn [existsb]. dicts.
  rewrite !(lookup_insert _ _ k), !lookup_empty.
  repeat (case_decide; [subst k; cbn;
    first [ by destruct (TenderUpdate.item upd)
          | by destruct (TenderUpdate.customer upd)
          | by destruct (TenderUpdate.tender_name upd)
          | by destruct (TenderUpdate.status upd)
          | by destruct (TenderUpdate.start_date upd)
          | by destruct (TenderUpdate.expiry_date upd)
          | by destruct (TenderUpdate.due_date upd)
          | by destruct (TenderUpdate.deal_value upd)
          | by destruct (TenderUpdate.priority upd)
          | by destruct (TenderUpdate.assigned_sales_rep upd) ]|]).
  done.
Qed.

Lemma update_set_no_date upd now (k : string) (a : date) :
  update_set upd now !! k <> Some (VDate a).
Proof.
  rewrite update_set_lookup. case_decide; [done|].
  rewrite non_null_lookup. unfold date_fields. cbn [existsb]. dicts.
  rewrite !(lookup_insert _ _ k), !lookup_empty.
  repeat (case_decide; [subst k; cbn;
    first [ by destruct (TenderUpdate.item upd)
          | by destruct (TenderUpdate.customer upd)
          | by destruct (TenderUpdate.tender_name upd)
          | by destruct (TenderUpdate.status upd)
          | by destruct (TenderUpdate.start_date upd)
          | by destruct (TenderUpdate.expiry_date upd)
          | by destruct (TenderUpdate.due_date upd)
          | by destruct (TenderUpdate.deal_value upd)
          | by destruct (TenderUpdate.priority upd)
          | by destruct (TenderUpdate.assigned_sales_rep upd) ]|]).
  done.
Qed.

Lemma update_set_stores upd now d x :
  stores d x -> stores (update_set upd now ∪ d) (apply_update upd now x).
Proof.
  intros H. fields H. unfold stores, stored_items, Tender.items, apply_update.
  cbn [fmap list_fmap Tender.id Tender.item Tender.customer Tender.tender_name
       Tender.status Tender.start_date Tender.expiry_date Tender.due_date
       Tender.deal_value Tender.priority Tender.assigned_sales_rep
       Tender.created_at Tender.updated_at].
  repeat (apply Forall_cons; split;
    [cbn -[date_isoformat datetime_isoformat];
     rewrite lookup_union, update_set_lookup, non_null_lookup;
     cbn -[date_isoformat datetime_isoformat]; dicts; lk;
     repeat match goal with F : d !! _ = _ |- _ => rewrite F; clear F end;
     try (by destruct (TenderUpdate.item upd));
     try (by destruct (TenderUpdate.customer upd));
     try (by destruct (TenderUpdate.tender_name upd));
     try (by destruct (TenderUpdate.status upd));
     try (by destruct (TenderUpdate.start_date upd));
     try (by destruct (TenderUpdate.expiry_date upd));
     try (by destruct (TenderUpdate.due_date upd));
     try (by destruct (TenderUpdate.deal_value upd));
     try (by destruct (TenderUpdate.priority upd));
     try (by destruct (TenderUpdate.assigned_sales_rep upd)); done|]).
  constructor.
Qed.

Lemma update_first_found (x : string) (f : Doc -> Doc) (l1 l2 : list Doc) (d : Doc) :
  absent x l1 -> d !! "id" = Some (VStr x) ->
  update_first (matches {["id" := x]}) f (l1 ++ d :: l2) = Some (l1 ++ f d :: l2).
Proof.
  intros H E. induction l1 as [|d1 l1 IH]; simpl.
  - rewrite matches_id. by apply field_is_true in E as ->.
  - apply absent_cons in H as [E1 H]. rewrite matches_id, E1, IH; done.
Qed.

Lemma update_set_frame upd now d k :
  non_null upd !! k = None -> k <> "updated_at" ->
  (update_set upd now ∪ d) !! k = d !! k.
Proof.
  intros E N. apply lookup_union_r. rewrite update_set_lookup.
  rewrite decide_False by done. by rewrite E.
Qed.

Lemma update_tender_found tender_id upd w l1 d l2 x :
  tenders w = (l1 ++ d :: l2) -> absent tender_id l1 -> stores d x ->
  Tender.id x = tender_id ->
  let now := utc_clock w (clock_reads w) in
  let d' := update_set upd (bson_datetime now) ∪ d in
  exists w',
    update_tender lib tender_id upd w =
      (Returned (apply_update upd (bson_datetime now) x), w') /\
    tenders w' = (l1 ++ d' :: l2) /\
    store_calls w' =
      store_calls w ++
        [call_update_one {["id" := tender_id]} (update_set upd now);
         call_find_one {["id" := tender_id]}].
Proof.
  intros Hw Habs Hd Hid now d'. rewrite update_tender_run. fold now.
  pose proof (update_set_stores upd (bson_datetime now) d x Hd) as Hd'.
  fold d' in Hd'.
  assert (Eid : d !! "id" = Some (VStr tender_id))
    by (rewrite <- Hid; by apply stores_id).
  assert (Eid' : d' !! "id" = Some (VStr tender_id))
    by (rewrite <- Hid; apply (stores_id _ _ Hd')).
  unfold update_tail. rewrite bind_run. unfold update_one.
  cbn [snd utcnow tenders]. rewrite Hw, bson_update_set.
  rewrite (update_first_found _ _ _ _ _ Habs Eid). fold d'.
  cbn [Z.eqb]. rewrite bind_run. unfold find_one.
  cbn [tenders with_store]. rewrite (find_first _ _ _ _ Habs Eid').
  match goal with |- exists _, (_ ≫= _) ?w1 = _ /\ _ =>
    destruct (parse_dates_stores d' _ w1 Hd') as (d2 & E & Hd2) end.
  erewrite bind_returned by exact E.
  eexists. split; [by apply Tender_new_holds|]. split; [reflexivity|].
  simpl. by rewrite <- app_assoc.
Qed.

(** Claim C2.  Updating an existing tender (the first document with the
    identifier, storing the record [x]) passes the update to the collection
    with [updated_at] set to the reading of the clock, [now], and returns
    the record read back: the fields present in the payload are replaced,
    [updated_at] is [now] as the collection keeps it (to the millisecond),
    [id], [created_at] and the other fields are those of [x].  In the
    collection that document alone is replaced, by one that stores the
    returned record, and every key the update does not set keeps its value.
    The due dates are taken to be such as JSON can carry, and the clock to
    be naive. *)
Theorem update_changes_present_fields tender_id upd w l1 d l2 x :
  tenders w = (l1 ++ d :: l2) -> absent tender_id l1 -> stores d x ->
  Tender.id x = tender_id ->
  wire (Tender.due_date x) ->
  (forall t, TenderUpdate.due_date upd = Some t -> wire t) ->
  naive_clock w ->
  let now := utc_clock w (clock_reads w) in
  let y := apply_update upd (bson_datetime now) x in
  exists d' w',
    update_tender lib tender_id upd w = (Returned y, w') /\
    tenders w' = (l1 ++ d' :: l2) /\
    stores d' y /\
    (forall k, non_null upd !! k = None -> k <> "updated_at" ->
               d' !! k = d !! k) /\
    store_calls w' =
      store_calls w ++
        [call_update_one {["id" := tender_id]} (update_set upd now);
         call_find_one {["id" := tender_id]}] /\
    update_set upd now !! "updated_at" = Some (VDateTime now).
Proof.
  intros Hw Habs Hd Hid _ _ _ now y.
  destruct (update_tender_found tender_id upd w l1 d l2 x Hw Habs Hd Hid)
    as (w' & E & Hw' & Hc).
  exists (update_set upd (bson_datetime now) ∪ d), w'.
  split; [done|]. split; [done|].
  split; [by apply update_set_stores|].
  split; [intros k; apply update_set_frame|].
  split; [done|]. by rewrite update_set_lookup, decide_True.
Qed.

(** ** Handlers that leave the collection alone *)

Lemma keeps_ret {A} (a : A) : keeps_store (ret a).
Proof. done. Qed.

Lemma keeps_raise {A} (e : Exception) : keeps_store (@raise A e).
Proof. done. Qed.

Lemma keeps_bind {A B} (m : Handler A) (k : A -> Handler B) :
  keeps_store m -> (forall a, keeps_store (k a)) -> keeps_store (m ≫= k).
Proof.
  intros Hm Hk w. rewrite bind_run. destruct (Hm w) as [Ht Hc].
  destruct (m w) as [[a|e] w1]; simpl in *; [|done].
  destruct (Hk a w1) as [Ht' Hc']. split; [congruence|by etrans].
Qed.

Lemma keeps_utcnow : keeps_store utcnow.
Proof. done. Qed.

Lemma keeps_uuid4 : keeps_store uuid4.
Proof. done. Qed.

Lemma keeps_find q n : keeps_store (find q n).
Proof. intros w. split; [done|]. by apply prefix_app_r. Qed.

Lemma keeps_find_one q : keeps_store (find_one q).
Proof. intros w. split; [done|]. by apply prefix_app_r. Qed.

Lemma keeps_mapM {A B} (f : A -> Handler B) (l : list A) :
  (forall a, keeps_store (f a)) -> keeps_store (mapM f l).
Proof.
  intros Hf. induction l as [|a l IH]; [done|]. simpl.
  apply keeps_bind; [done|]. intros b.
  apply keeps_bind; [done|]. intros bs. apply keeps_ret.
Qed.

Lemma keeps_with_factory {A} (v : Value -> option A) (f : Handler A) kw k :
  keeps_store f -> keeps_store (with_factory v f kw k).
Proof.
  intros Hf. unfold with_factory. destruct (kw !! k); [apply keeps_ret|].
  apply keeps_bind; [done|]. intros a. apply keeps_ret.
Qed.

Lemma keeps_Tender_new kw : keeps_store (Tender_new lib kw).
Proof.
  unfold Tender_new.
  apply keeps_bind; [apply keeps_with_factory, keeps_uuid4|]. intros i.
  apply keeps_bind; [apply keeps_with_factory, keeps_utcnow|]. intros c.
  apply keeps_bind; [apply keeps_with_factory, keeps_utcnow|]. intros u.
  destruct (Tender_fields lib kw i c u); [apply keeps_ret|apply keeps_raise].
Qed.

Lemma keeps_dict_fromisoformat b k d : keeps_store (dict_fromisoformat lib b k d).
Proof.
  unfold dict_fromisoformat.
  destruct (d !! k) as [[]|]; try apply keeps_ret.
  destruct (fromisoformat lib s); [apply keeps_ret|apply keeps_raise].
Qed.

Lemma keeps_parse_dates d : keeps_store (parse_dates lib d).
Proof.
  unfold parse_dates.
  apply keeps_bind; [apply keeps_dict_fromisoformat|]. intros d1.
  apply keeps_bind; [apply keeps_dict_fromisoformat|]. intros d2.
  apply keeps_dict_fromisoformat.
Qed.

Lemma keeps_read_back (o : option Doc) :
  keeps_store
    match o with
    | Some u => parse_dates lib u ≫= λ u', Tender_new lib u'
    | None => raise AttributeError
    end.
Proof.
  destruct o as [u|]; [|apply keeps_raise].
  apply keeps_bind; [apply keeps_parse_dates|]. intros u'.
  apply keeps_Tender_new.
Qed.

Lemma keeps_get_tender tender_id : keeps_store (get_tender lib tender_id).
Proof.
  unfold get_tender. apply keeps_bind; [apply keeps_find_one|]. intros o.
  destruct (falsy o); [apply keeps_raise|].
  destruct o; [|apply keeps_raise].
  apply keeps_bind; [apply keeps_parse_dates|]. intros d'. apply keeps_Tender_new.
Qed.

Lemma keeps_get_tenders s p c : keeps_store (get_tenders lib s p c).
Proof.
  unfold get_tenders. apply keeps_bind; [apply keeps_find|]. intros l.
  apply keeps_bind; [apply keeps_mapM, keeps_parse_dates|]. intros l'.
  apply keeps_mapM, keeps_Tender_new.
Qed.

(** What [update_tender] does to the collection and the call it makes. *)
Lemma update_tender_store tender_id upd w :
  let now := utc_clock w (clock_reads w) in
  let r := update_tender lib tender_id upd w in
  tenders (snd r) =
    default (tenders w)
      (update_first (matches {["id" := tender_id]})
         (fun d => update_set upd (bson_datetime now) ∪ d) (tenders w)) /\
  (store_calls w ++
     [call_update_one {["id" := tender_id]} (update_set upd now)])
  `prefix_of` store_calls (snd r).
Proof.
  intros now r. subst r. rewrite update_tender_run. fold now.
  unfold update_tail. rewrite bind_run. unfold update_one.
  cbn [snd utcnow tenders]. rewrite bson_update_set.
  destruct (update_first _ _ (tenders w)) as [l|] eqn:E; cbn [Z.eqb default];
    [|done].
  set (w1 := with_store l _ _).
  destruct (keeps_bind _ _ (keeps_find_one {["id" := tender_id]})
              keeps_read_back w1) as [Kt Kc].
  split; [by rewrite Kt|]. exact Kc.
Qed.

Lemma Tender_fields_Some kw i c u x :
  Tender_fields lib kw i c u = Some x ->
  i = Some (Tender.id x) /\
  required (validate_str lib) kw "customer" = Some (Tender.customer x) /\
  required validate_status kw "status" = Some (Tender.status x) /\
  required validate_priority kw "priority" = Some (Tender.priority x).
Proof.
  unfold Tender_fields. intros H.
  destruct i as [i|]; [|done]. cbn [mbind option_bind] in H.
  repeat match type of H with
         | (match ?o with Some _ => _ | None => _ end) = Some _ =>
             let E := fresh "E" in destruct o eqn:E; [|done]
         | (?o ≫= _) = Some _ =>
             let E := fresh "E" in destruct o eqn:E; [|done];
             cbn [mbind option_bind] in H
         end.
  injection H as <-. done.
Qed.

Lemma Tender_new_Returned kw w x w' :
  Tender_new lib kw w = (Returned x, w') ->
  exists i c u, Tender_fields lib kw i c u = Some x /\
    (kw !! "id" = None -> i = Some (uuid_source w (uuids_drawn w))).
Proof.
  unfold Tender_new. rewrite bind_run.
  destruct (with_factory (validate_str lib) uuid4 kw "id" w) as [[i|e] w1] eqn:E1;
    [|done].
  rewrite bind_run.
  destruct (with_factory (validate_datetime lib) utcnow kw "created_at" w1)
    as [[c|e] w2] eqn:E2; [|done].
  rewrite bind_run.
  destruct (with_factory (validate_datetime lib) utcnow kw "updated_at" w2)
    as [[u|e] w3] eqn:E3; [|done].
  destruct (Tender_fields lib kw i c u) as [y|] eqn:F; [|done].
  intros [= -> ->]. exists i, c, u. split; [done|].
  intros N. unfold with_factory in E1. rewrite N in E1.
  by injection E1 as <- _.
Qed.

End ServerFacts.

(* ===================================================================== *)
(** * The claims about listing, validation and identifiers *)
(* ===================================================================== *)

Section Claims.
Context (lib : Leniency).

(** ** Listing *)

Lemma add_filter_lookup k param q j :
  add_filter k param q !! j =
  match param with
  | Some s => if String.eqb s "" then q !! j
              else if decide (k = j) then Some s else q !! j
  | None => q !! j
  end.
Proof.
  unfold add_filter. destruct param as [s|]; [|done].
  destruct (String.eqb s ""); [done|]. apply lookup_insert.
Qed.

Lemma given_eqb param s : given param s -> param = Some s /\ String.eqb s "" = false.
Proof. intros [-> N]. split; [done|]. by apply String.eqb_neq. Qed.

Lemma list_query_given status priority customer :
  (forall s, given status s -> list_query status priority customer !! "status" = Some s) /\
  (forall s, given priority s -> list_query status priority customer !! "priority" = Some s) /\
  (forall s, given customer s -> list_query status priority customer !! "customer" = Some s).
Proof.
  unfold list_query. repeat split; intros s [-> E]%given_eqb;
    rewrite !add_filter_lookup, ?E;
    repeat (case_decide; try done);
    repeat case_match; try done.
Qed.

Lemma mapM_Returned {A B} (f : A -> Handler B) (P : A -> B -> Prop) :
  (forall a w b w', f a w = (Returned b, w') -> P a b) ->
  forall l w l' w', mapM f l w = (Returned l', w') -> Forall2 P l l'.
Proof.
  intros Hf. induction l as [|a l IH]; intros w l' w'; simpl.
  - intros [= <- _]. constructor.
  - rewrite bind_run. destruct (f a w) as [[b|e] w1] eqn:E; [|done].
    rewrite bind_run. destruct (mapM f l w1) as [[bs|e] w2] eqn:E'; [|done].
    intros [= <- _]. constructor; eauto.
Qed.

Lemma mapM_total {A B} (f : A -> Handler B) (R : A -> B -> Prop) :
  (forall a b w, R a b -> f a w = (Returned b, w)) ->
  forall l l' w, Forall2 R l l' -> mapM f l w = (Returned l', w).
Proof.
  intros Hf l l' w H. induction H as [|a b l l' Hab H IH]; [done|].
  simpl. erewrite bind_returned by eauto. erewrite bind_returned by eauto. done.
Qed.

Lemma dict_fromisoformat_other b k d w d' w' j :
  dict_fromisoformat lib b k d w = (Returned d', w') -> k <> j ->
  d' !! j = d !! j.
Proof.
  unfold dict_fromisoformat. intros H N.
  destruct (d !! k) as [[]|]; try (by injection H as <- _).
  destruct (fromisoformat lib s); [|done].
  injection H as <- _. by rewrite lookup_insert_ne.
Qed.

Lemma parse_dates_other d w d' w' j :
  parse_dates lib d w = (Returned d', w') ->
  j <> "start_date" -> j <> "expiry_date" -> j <> "due_date" ->
  d' !! j = d !! j.
Proof.
  unfold parse_dates. intros H N1 N2 N3.
  rewrite bind_run in H.
  destruct (dict_fromisoformat lib true "start_date" d w) as [[d1|e] w1] eqn:E1; [|done].
  rewrite bind_run in H.
  destruct (dict_fromisoformat lib true "expiry_date" d1 w1) as [[d2|e] w2] eqn:E2; [|done].
  erewrite (dict_fromisoformat_other _ _ _ _ _ _ _ H) by done.
  erewrite (dict_fromisoformat_other _ _ _ _ _ _ _ E2) by done.
  by erewrite (dict_fromisoformat_other _ _ _ _ _ _ _ E1) by done.
Qed.

(** What a record read from a document says about the document. *)
Lemma Tender_new_filters kw w x w' :
  Tender_new lib kw w = (Returned x, w') ->
  (forall s, kw !! "status" = Some (VStr s) -> TenderStatus_value (Tender.status x) = s) /\
  (forall s, kw !! "priority" = Some (VStr s) -> PriorityLevel_value (Tender.priority x) = s) /\
  (forall s, kw !! "customer" = Some (VStr s) -> Tender.customer x = s).
Proof.
  intros H. apply Tender_new_Returned in H as (i & c & u & F & _).
  apply Tender_fields_Some in F as (_ & Fc & Fs & Fp).
  unfold required in *. repeat split; intros s E.
  - rewrite E in Fs. by apply TenderStatus_of_Some.
  - rewrite E in Fp. by apply PriorityLevel_of_Some.
  - rewrite E in Fc. by injection Fc.
Qed.



Lemma get_tenders_run status priority customer w :
  get_tenders lib status priority customer w =
  (docs ← find (list_query status priority customer) 1000;
   docs ← mapM (parse_dates lib) docs;
   mapM (Tender_new lib) docs) w.
Proof. reflexivity. Qed.

(** Claim C6, as amended.  Every filter that is given and is not the
    empty string is applied as an exact equality, all of them together:
    each record returned carries exactly the given status, priority and
    customer.  At most 1000 records are returned.  When the documents
    selected store the records [xs], the answer is [xs]; when none is
    selected it is the empty list, not an error. *)
Theorem list_applies_given_filters (status priority customer : option string)
    (w : World) :
  let q := list_query status priority customer in
  let docs := take 1000 (List.filter (matches q) (tenders w)) in
  (forall l w', get_tenders lib status priority customer w = (Returned l, w') ->
     (length l <= 1000)%nat /\
     forall x, x ∈ l ->
       (forall s, given status s -> TenderStatus_value (Tender.status x) = s) /\
       (forall s, given priority s -> PriorityLevel_value (Tender.priority x) = s) /\
       (forall s, given customer s -> Tender.customer x = s)) /\
  (forall xs, Forall2 stores docs xs ->
     fst (get_tenders lib status priority customer w) = Returned xs) /\
  (docs = [] -> fst (get_tenders lib status priority customer w) = Returned []).
Proof.
  intros q docs.
  assert (Total : forall xs, Forall2 stores docs xs ->
            fst (get_tenders lib status priority customer w) = Returned xs).
  { intros xs H. rewrite get_tenders_run, bind_run. unfold find.
    fold q. fold docs.
    set (w1 := with_store _ _ _).
    assert (E : exists docs', mapM (parse_dates lib) docs w1 = (Returned docs', w1)
                              /\ Forall2 holds docs' xs).
    { clear -H. induction H as [|d x l xs Hd H (l' & E & IH)]; [by exists []|].
      destruct (parse_dates_stores lib d x w1 Hd) as (d' & E' & Hd').
      exists (d' :: l'). split; [|by constructor].
      simpl. erewrite bind_returned by exact E'.
      by erewrite bind_returned by exact E. }
    destruct E as (docs' & E & H').
    erewrite bind_returned by exact E.
    erewrite (mapM_total _ holds); [done| |exact H'].
    intros. by apply Tender_new_holds. }
  split; [|split; [exact Total|]].
  - intros l w' H. rewrite get_tenders_run, bind_run in H. unfold find in H.
    fold q in H. fold docs in H. rewrite bind_run in H.
    destruct (mapM (parse_dates lib) docs _) as [[docs'|e] w2] eqn:E; [|done].
    pose proof (mapM_Returned _
      (fun d d' => forall j, j <> "start_date" -> j <> "expiry_date" ->
                             j <> "due_date" -> d' !! j = d !! j)
      (fun a w b w' H j => parse_dates_other a w b w' j H) _ _ _ _ E) as H1.
    pose proof (mapM_Returned _
      (fun kw x =>
         (forall s, kw !! "status" = Some (VStr s) ->
                    TenderStatus_value (Tender.status x) = s) /\
         (forall s, kw !! "priority" = Some (VStr s) ->
                    PriorityLevel_value (Tender.priority x) = s) /\
         (forall s, kw !! "customer" = Some (VStr s) -> Tender.customer x = s))
      Tender_new_filters _ _ _ _ H) as H2.
    split.
    { pose proof (Forall2_length _ _ _ H2) as L2.
      pose proof (Forall2_length _ _ _ H1) as L1.
      unfold docs in L1. rewrite length_take in L1. lia. }
    intros x Hx.
    apply list_elem_of_lookup in Hx as [i Hx].
    destruct (Forall2_lookup_r _ _ _ _ _ H2 Hx) as (d' & Hd' & P2 & P3 & P4).
    destruct (Forall2_lookup_r _ _ _ _ _ H1 Hd') as (d & Hd & P1).
    assert (M : matches q d = true).
    { apply list_elem_of_lookup_2 in Hd. unfold docs in Hd.
      apply subseteq_take, list_elem_of_In, filter_In in Hd. tauto. }
    rewrite matches_spec in M.
    destruct (list_query_given status priority customer) as (Qs & Qp & Qc).
    fold q in Qs, Qp, Qc.
    repeat split; intros s G.
    + apply P2. rewrite P1 by done. by apply M, Qs.
    + apply P3. rewrite P1 by done. by apply M, Qp.
    + apply P4. rewrite P1 by done. by apply M, Qc.
  - intros E. apply Total. rewrite E. constructor.
Qed.

(** ** Null fields of an update *)

Lemma optional_null {A} (validate : Value -> option A) (body : Doc) (k j : string) :
  optional validate (<[k := VNone]> body) j = optional validate (delete k body) j.
Proof.
  unfold optional. destruct (decide (k = j)) as [<-|N].
  - by rewrite lookup_insert_eq, lookup_delete_eq.
  - by rewrite lookup_insert_ne, lookup_delete_ne.
Qed.

Lemma TenderUpdate_new_null (body : Doc) (k : string) :
  TenderUpdate_new lib (<[k := VNone]> body) = TenderUpdate_new lib (delete k body).
Proof. unfold TenderUpdate_new. by rewrite !optional_null. Qed.

Lemma iso_of_None v : iso_of v = VNone -> v = VNone.
Proof. by destruct v. Qed.

Lemma update_set_no_null upd now k : update_set upd now !! k <> Some VNone.
Proof.
  rewrite update_set_lookup. case_decide as N; [done|].
  rewrite non_null_lookup.
  destruct (TenderUpdate.dict upd !! k) as [v|]; [|done].
  destruct (is_None v) eqn:E; [done|]. cbn [fmap option_fmap option_map].
  intros [= C].
  match type of C with (if ?b then _ else _) _ = _ => destruct b end;
    [apply iso_of_None in C|]; simpl in C; subst; done.
Qed.

Lemma update_set_null upd now k :
  TenderUpdate.dict upd !! k = Some VNone -> update_set upd now !! k = None.
Proof.
  intros E. rewrite update_set_lookup. case_decide as N.
  - subst. revert E. dicts. lk. done.
  - by rewrite non_null_lookup, E.
Qed.

Lemma update_first_Forall2 (p : Doc -> bool) (f : Doc -> Doc) (l l' : list Doc) :
  update_first p f l = Some l' -> Forall2 (fun d d' => d' = d \/ d' = f d) l l'.
Proof.
  revert l'. induction l as [|d l IH]; intros l'; simpl; [done|].
  destruct (p d).
  - intros [= <-]. constructor; [by right|]. apply Forall2_same_length_lookup.
    split; [done|]. intros i x y Hx Hy. left. congruence.
  - destruct (update_first p f l) as [l1|]; [|done]. simpl.
    intros [= <-]. constructor; [by left|]. by apply IH.
Qed.

(** Claim C10.  A field that is null in the body of an update validates
    as if it were absent, and it does not reach the collection: the
    document passed to [update_one] as ["$set"] holds no null and has no
    entry for an attribute that is [None], so every stored document keeps
    the value it had under that key. *)
Theorem null_update_fields_are_discarded (tender_id : string)
    (upd : TenderUpdate.t) (body : Doc) (k : string) (w : World) :
  let r := update_tender lib tender_id upd w in
  TenderUpdate_new lib (<[k := VNone]> body) =
    TenderUpdate_new lib (delete k body) /\
  exists set,
    (store_calls w ++ [call_update_one {["id" := tender_id]} set])
      `prefix_of` store_calls (snd r) /\
    (forall j, set !! j <> Some VNone) /\
    (TenderUpdate.dict upd !! k = Some VNone ->
       set !! k = None /\
       Forall2 (fun d d' : Doc => d' !! k = d !! k) (tenders w) (tenders (snd r))).
Proof.
  intros r. split; [apply TenderUpdate_new_null|].
  destruct (update_tender_store lib tender_id upd w) as [Ht Hc]. fold r in Ht, Hc.
  exists (update_set upd (utc_clock w (clock_reads w))).
  split; [exact Hc|]. split; [apply update_set_no_null|].
  intros E. split; [by apply update_set_null|].
  rewrite Ht.
  destruct (update_first _ _ (tenders w)) as [l|] eqn:U; simpl.
  - apply update_first_Forall2 in U.
    eapply Forall2_impl; [exact U|]. intros d d' [->| ->]; [done|].
    apply lookup_union_r. by apply update_set_null.
  - apply Forall2_same_length_lookup. split; [done|]. intros; congruence.
Qed.

(** ** Identifiers *)

Lemma update_set_id upd now : update_set upd now !! "id" = None.
Proof.
  rewrite update_set_lookup, decide_False by done.
  rewrite non_null_lookup. dicts. lk. done.
Qed.

Lemma update_first_ids (p : Doc -> bool) (f : Doc -> Doc) (l l' : list Doc) :
  (forall d, f d !! "id" = d !! "id") ->
  update_first p f l = Some l' -> ids l' = ids l.
Proof.
  intros Hf H. apply update_first_Forall2 in H. unfold ids.
  induction H as [|d d' l l' [->| ->] H IH]; simpl; [done| |];
    rewrite ?Hf; by f_equal.
Qed.

Lemma delete_first_sublist (p : Doc -> bool) (l l' : list Doc) :
  delete_first p l = Some l' -> l' `sublist_of` l.
Proof.
  revert l'. induction l as [|d l IH]; intros l'; simpl; [done|].
  destruct (p d).
  - intros [= <-]. by apply sublist_cons.
  - destruct (delete_first p l) as [l1|]; [|done]. simpl.
    intros [= <-]. apply sublist_skip. by apply IH.
Qed.

Lemma update_tender_ids tender_id upd w :
  ids (tenders (snd (update_tender lib tender_id upd w))) = ids (tenders w).
Proof.
  destruct (update_tender_store lib tender_id upd w) as [-> _].
  destruct (update_first _ _ (tenders w)) as [l|] eqn:U; simpl; [|done].
  refine (update_first_ids _ _ _ _ _ U).
  intros d. apply lookup_union_r, update_set_id.
Qed.

Lemma delete_tender_store tender_id w :
  tenders (snd (delete_tender tender_id w)) `sublist_of` tenders w.
Proof.
  unfold delete_tender. rewrite bind_run. unfold delete_one.
  destruct (delete_first _ (tenders w)) as [l|] eqn:D; simpl; [|done].
  by apply (delete_first_sublist _ _ _ D).
Qed.

Lemma create_tender_store td w :
  let r := create_tender lib td w in
  tenders (snd r) = tenders w \/
  exists d, d !! "id" = Some (VStr (uuid_source w (uuids_drawn w))) /\
            tenders (snd r) = tenders w ++ [d].
Proof.
  intros r. subst r. unfold create_tender.
  erewrite bind_returned
    by (eapply dict_isoformat_alter; [dicts; lk; reflexivity | done]).
  erewrite bind_returned
    by (eapply dict_isoformat_alter;
        [rewrite lookup_alter_ne by done; dicts; lk; reflexivity | done]).
  erewrite bind_returned
    by (eapply dict_isoformat_alter;
        [rewrite !lookup_alter_ne by done; dicts; lk; reflexivity | done]).
  fold (iso_dates (TenderCreate.dict td)).
  rewrite bind_run.
  destruct (keeps_Tender_new lib (iso_dates (TenderCreate.dict td)) w) as [K _].
  destruct (Tender_new lib (iso_dates (TenderCreate.dict td)) w)
    as [[x|e] w1] eqn:E; [|by left].
  apply Tender_new_Returned in E as (i & c & u & F & Hi).
  apply Tender_fields_Some in F as (Ei & _).
  rewrite Hi in Ei by (rewrite iso_dates_lookup; dicts; lk; done).
  injection Ei as Ei.
  erewrite bind_returned
    by (eapply dict_isoformat_alter; [dicts; lk; reflexivity | done]).
  erewrite bind_returned
    by (eapply dict_isoformat_alter;
        [rewrite lookup_alter_ne by done; dicts; lk; reflexivity | done]).
  erewrite bind_returned
    by (eapply dict_isoformat_alter;
        [rewrite !lookup_alter_ne by done; dicts; lk; reflexivity | done]).
  fold (iso_dates (Tender.dict x)). fold (stored x).
  rewrite bind_run. unfold insert_one. rewrite bson_stored.
  right. exists (stored (kept x)). split.
  - rewrite Ei. apply (stores_id _ (kept x)), stores_stored.
  - cbn [snd fst tenders with_store] in *. by rewrite K.
Qed.

Lemma absent_ids x l : absent x l <-> Some (VStr x) ∉ ids l.
Proof.
  unfold absent, ids. rewrite list_elem_of_fmap. split.
  - intros H (d & E & Hd). by apply (H d).
  - intros H d Hd E. apply H. by exists d.
Qed.

Lemma TenderUpdate_new_id (body : Doc) (v : Value) :
  TenderUpdate_new lib (<["id" := v]> body) = TenderUpdate_new lib body.
Proof.
  unfold TenderUpdate_new, optional. by rewrite !lookup_insert_ne by done.
Qed.

(** *** The identifiers the generator gives out *)

Lemma keeps_uuids_ret {A} (a : A) : keeps_uuids (ret a).
Proof. done. Qed.

Lemma keeps_uuids_raise {A} (e : Exception) : keeps_uuids (@raise A e).
Proof. done. Qed.

Lemma keeps_uuids_bind {A B} (m : Handler A) (k : A -> Handler B) :
  keeps_uuids m -> (forall a, keeps_uuids (k a)) -> keeps_uuids (m ≫= k).
Proof.
  intros Hm Hk w. rewrite bind_run. destruct (Hm w) as [Hs Hn].
  destruct (m w) as [[a|e] w1]; simpl in *; [|done].
  destruct (Hk a w1) as [Hs' Hn']. split; [congruence|lia].
Qed.

Lemma keeps_uuids_mapM {A B} (f : A -> Handler B) (l : list A) :
  (forall a, keeps_uuids (f a)) -> keeps_uuids (mapM f l).
Proof.
  intros Hf. induction l as [|a l IH]; [done|]. simpl.
  apply keeps_uuids_bind; [done|]. intros b.
  apply keeps_uuids_bind; [done|]. intros bs. apply keeps_uuids_ret.
Qed.

Lemma keeps_uuids_uuid4 : keeps_uuids uuid4.
Proof. intros w. simpl. split; [done|lia]. Qed.

Lemma keeps_uuids_utcnow : keeps_uuids utcnow.
Proof. done. Qed.

Lemma keeps_uuids_with_factory {A} (v : Value -> option A) (f : Handler A) kw k :
  keeps_uuids f -> keeps_uuids (with_factory v f kw k).
Proof.
  intros Hf. unfold with_factory. destruct (kw !! k); [apply keeps_uuids_ret|].
  apply keeps_uuids_bind; [done|]. intros a. apply keeps_uuids_ret.
Qed.

Lemma keeps_uuids_Tender_new kw : keeps_uuids (Tender_new lib kw).
Proof.
  unfold Tender_new.
  apply keeps_uuids_bind;
    [apply keeps_uuids_with_factory, keeps_uuids_uuid4|]. intros i.
  apply keeps_uuids_bind;
    [apply keeps_uuids_with_factory, keeps_uuids_utcnow|]. intros c.
  apply keeps_uuids_bind;
    [apply keeps_uuids_with_factory, keeps_uuids_utcnow|]. intros u.
  destruct (Tender_fields lib kw i c u);
    [apply keeps_uuids_ret|apply keeps_uuids_raise].
Qed.

Lemma keeps_uuids_dict_fromisoformat b k d :
  keeps_uuids (dict_fromisoformat lib b k d).
Proof.
  unfold dict_fromisoformat.
  destruct (d !! k) as [[]|]; try apply keeps_uuids_ret.
  destruct (fromisoformat lib s); [apply keeps_uuids_ret|apply keeps_uuids_raise].
Qed.

Lemma keeps_uuids_parse_dates d : keeps_uuids (parse_dates lib d).
Proof.
  unfold parse_dates.
  apply keeps_uuids_bind; [apply keeps_uuids_dict_fromisoformat|]. intros d1.
  apply keeps_uuids_bind; [apply keeps_uuids_dict_fromisoformat|]. intros d2.
  apply keeps_uuids_dict_fromisoformat.
Qed.

Lemma keeps_uuids_read_back (o : option Doc) :
  keeps_uuids
    match o with
    | Some u => parse_dates lib u ≫= λ u', Tender_new lib u'
    | None => raise AttributeError
    end.
Proof.
  destruct o as [u|]; [|apply keeps_uuids_raise].
  apply keeps_uuids_bind; [apply keeps_uuids_parse_dates|]. intros u'.
  apply keeps_uuids_Tender_new.
Qed.

Lemma keeps_uuids_get_tender tender_id : keeps_uuids (get_tender lib tender_id).
Proof.
  unfold get_tender. apply keeps_uuids_bind; [done|]. intros o.
  destruct (falsy o); [apply keeps_uuids_raise|].
  destruct o; [|apply keeps_uuids_raise].
  apply keeps_uuids_bind; [apply keeps_uuids_parse_dates|]. intros d'.
  apply keeps_uuids_Tender_new.
Qed.

Lemma keeps_uuids_get_tenders s p c : keeps_uuids (get_tenders lib s p c).
Proof.
  unfold get_tenders. apply keeps_uuids_bind; [done|]. intros l.
  apply keeps_uuids_bind; [apply keeps_uuids_mapM, keeps_uuids_parse_dates|].
  intros l'. apply keeps_uuids_mapM, keeps_uuids_Tender_new.
Qed.

Lemma keeps_uuids_update_one q set : keeps_uuids (update_one q set).
Proof. intros w. unfold update_one. by destruct (update_first _ _ _). Qed.

Lemma keeps_uuids_delete_tender tender_id : keeps_uuids (delete_tender tender_id).
Proof.
  intros w. unfold delete_tender. rewrite bind_run. unfold delete_one.
  by destruct (delete_first _ _).
Qed.

Lemma keeps_uuids_update_tender tender_id upd :
  keeps_uuids (update_tender lib tender_id upd).
Proof.
  intros w. rewrite update_tender_run.
  assert (K : keeps_uuids
                (update_tail lib tender_id
                   (update_set upd (utc_clock w (clock_reads w))))).
  { unfold update_tail.
    apply keeps_uuids_bind; [apply keeps_uuids_update_one|]. intros n.
    destruct (n =? 0); [apply keeps_uuids_raise|].
    apply keeps_uuids_bind; [done|]. apply keeps_uuids_read_back. }
  exact (K _).
Qed.

(** [Tender( **kw)] draws one identifier when [kw] has none, whatever
    becomes of the record. *)
Lemma Tender_new_draws kw w :
  kw !! "id" = None ->
  uuids_drawn (snd (Tender_new lib kw w)) = S (uuids_drawn w).
Proof.
  intros E. unfold Tender_new, with_factory. rewrite E.
  destruct (kw !! "created_at"), (kw !! "updated_at");
    unfold mbind, Handler_bind, bind, uuid4, utcnow, ret; cbn beta iota;
    by destruct (Tender_fields _ _ _ _ _).
Qed.

(** So does [create_tender], of which the payload has no identifier. *)
Lemma create_tender_draws td w :
  uuid_source (snd (create_tender lib td w)) = uuid_source w /\
  uuids_drawn (snd (create_tender lib td w)) = S (uuids_drawn w).
Proof.
  unfold create_tender.
  erewrite bind_returned
    by (eapply dict_isoformat_alter; [dicts; lk; reflexivity | done]).
  erewrite bind_returned
    by (eapply dict_isoformat_alter;
        [rewrite lookup_alter_ne by done; dicts; lk; reflexivity | done]).
  erewrite bind_returned
    by (eapply dict_isoformat_alter;
        [rewrite !lookup_alter_ne by done; dicts; lk; reflexivity | done]).
  fold (iso_dates (TenderCreate.dict td)).
  rewrite bind_run.
  assert (E : iso_dates (TenderCreate.dict td) !! "id" = None)
    by (rewrite iso_dates_lookup; dicts; lk; done).
  pose proof (Tender_new_draws _ w E) as D.
  destruct (keeps_uuids_Tender_new (iso_dates (TenderCreate.dict td)) w)
    as [S _].
  destruct (Tender_new lib _ w) as [[x|e] w1]; cbn [snd] in *; [|done].
  erewrite bind_returned
    by (eapply dict_isoformat_alter; [dicts; lk; reflexivity | done]).
  erewrite bind_returned
    by (eapply dict_isoformat_alter;
        [rewrite lookup_alter_ne by done; dicts; lk; reflexivity | done]).
  erewrite bind_returned
    by (eapply dict_isoformat_alter;
        [rewrite !lookup_alter_ne by done; dicts; lk; reflexivity | done]).
  done.
Qed.

Lemma drawn_mono (w w' : World) :
  uuid_source w' = uuid_source w -> (uuids_drawn w <= uuids_drawn w')%nat ->
  ids (tenders w') `sublist_of` ids (tenders w) ->
  drawn w -> drawn w'.
Proof.
  unfold drawn. rewrite !Forall_forall. intros Es Hn Hs H o Ho.
  destruct (H o) as (i & Hi & ->); [by eapply elem_of_sublist|].
  exists i. split; [lia|by rewrite Es].
Qed.

(** A request keeps the identifiers distinct, when they are those the
    generator has given out and the generator never repeats itself. *)
Lemma unique_serve r w :
  never_repeats (uuid_source w) -> NoDup (ids (tenders w)) -> drawn w ->
  uuid_source (serve lib r w).2 = uuid_source w /\
  NoDup (ids (tenders (serve lib r w).2)) /\ drawn (serve lib r w).2.
Proof.
  intros Inj U D.
  assert (Frame : forall {A} (m : Handler A),
            keeps_uuids m ->
            ids (tenders (m w).2) `sublist_of` ids (tenders w) ->
            uuid_source (m w).2 = uuid_source w /\
            NoDup (ids (tenders (m w).2)) /\ drawn (m w).2).
  { intros A m K S. destruct (K w) as [Ks Kn].
    split; [done|]. split; [by apply (sublist_NoDup _ _ U)|].
    by apply (drawn_mono w). }
  destruct r; cbn [serve answer snd].
  - by apply Frame.
  - unfold post_tenders. destruct (TenderCreate_new lib body) as [td|];
      [|by apply Frame].
    destruct (create_tender_draws td w) as [Cs Cn].
    split; [done|].
    destruct (create_tender_store td w) as [E|(d & Hd & E)].
    + rewrite <- E in U. split; [done|].
      apply (drawn_mono w); [done|lia|by rewrite E|done].
    + unfold drawn. rewrite E. unfold ids. rewrite fmap_app.
      cbn [fmap list_fmap]. rewrite Hd, Cs, Cn. split.
      * apply NoDup_app. split; [exact U|]. split; [|apply NoDup_singleton].
        intros o Ho. rewrite list_elem_of_singleton. intros ->.
        unfold drawn in D. rewrite Forall_forall in D.
        destruct (D _ Ho) as (i & Hi & [= Ei]). apply Inj in Ei. lia.
      * apply Forall_app. split.
        -- eapply Forall_impl; [exact D|]. intros o (i & Hi & ->).
           exists i. split; [lia|done].
        -- apply Forall_singleton. exists (uuids_drawn w). split; [lia|done].
  - apply Frame; [apply keeps_uuids_get_tenders|].
    by rewrite (proj1 (keeps_get_tenders lib _ _ _ w)).
  - apply Frame; [apply keeps_uuids_get_tender|].
    by rewrite (proj1 (keeps_get_tender lib _ w)).
  - unfold put_tender. destruct (TenderUpdate_new lib body) as [upd|];
      [|by apply Frame].
    apply Frame; [apply keeps_uuids_update_tender|].
    by rewrite update_tender_ids.
  - apply Frame; [apply keeps_uuids_delete_tender|].
    apply fmap_sublist, delete_tender_store.
  - by apply Frame.
  - by apply Frame.
Qed.

Lemma unique_serve_all rs w :
  never_repeats (uuid_source w) -> NoDup (ids (tenders w)) -> drawn w ->
  NoDup (ids (tenders (serve_all lib rs w))) /\ drawn (serve_all lib rs w).
Proof.
  revert w. induction rs as [|r rs IH]; intros w Inj U D; [done|].
  destruct (unique_serve r w Inj U D) as (Es & U' & D').
  cbn [serve_all]. apply IH; [by rewrite Es|done|done].
Qed.

(** Claim C8.  The identifier of a stored record never changes and
    identifiers stay distinct.  [TenderUpdate] ignores an ["id"] in the
    body; an update leaves the identifiers of the collection as they are,
    position by position; reads leave the collection alone; a delete leaves
    a sublist and a create an extension of it.  If the identifiers are
    pairwise distinct they remain so after an update, after a delete, and
    after a create whose drawn identifier is not in use.  That identifier
    is never in use when the generator behind [uuid4] does not repeat
    itself: from a collection whose identifiers are distinct and have all
    been given out by the generator (the empty collection is one), every
    sequence of requests leads to such a collection again. *)
Theorem ids_are_immutable_and_unique (w : World) (rs : list Request) :
  (forall body v,
     TenderUpdate_new lib (<["id" := v]> body) = TenderUpdate_new lib body) /\
  (forall tender_id upd,
     ids (tenders (snd (update_tender lib tender_id upd w))) = ids (tenders w)) /\
  (forall tender_id, tenders (snd (get_tender lib tender_id w)) = tenders w) /\
  (forall s p c, tenders (snd (get_tenders lib s p c w)) = tenders w) /\
  (forall tender_id,
     tenders (snd (delete_tender tender_id w)) `sublist_of` tenders w) /\
  (forall td, tenders w `prefix_of` tenders (snd (create_tender lib td w))) /\
  (NoDup (ids (tenders w)) ->
     (forall tender_id upd,
        NoDup (ids (tenders (snd (update_tender lib tender_id upd w))))) /\
     (forall tender_id,
        NoDup (ids (tenders (snd (delete_tender tender_id w))))) /\
     (forall td, absent (uuid_source w (uuids_drawn w)) (tenders w) ->
        NoDup (ids (tenders (snd (create_tender lib td w)))))) /\
  (never_repeats (uuid_source w) -> NoDup (ids (tenders w)) -> drawn w ->
     absent (uuid_source w (uuids_drawn w)) (tenders w) /\
     NoDup (ids (tenders (serve_all lib rs w))) /\
     drawn (serve_all lib rs w)).
Proof.
  split; [apply TenderUpdate_new_id|].
  split; [intros; apply update_tender_ids|].
  split; [intros; apply keeps_get_tender|].
  split; [intros; apply keeps_get_tenders|].
  split; [intros; apply delete_tender_store|].
  split.
  { intros td. destruct (create_tender_store td w) as [->|(d & _ & ->)];
      [done|by apply prefix_app_r]. }
  split.
  - intros U. split; [|split].
    + intros. by rewrite update_tender_ids.
    + intros tender_id.
      apply (sublist_NoDup _ _ U).
      apply fmap_sublist, delete_tender_store.
    + intros td Hfresh.
      destruct (create_tender_store td w) as [->|(d & E & ->)]; [done|].
      unfold ids. rewrite fmap_app. apply NoDup_app. split; [exact U|].
      split; [|apply NoDup_singleton].
      intros o Ho. simpl. rewrite list_elem_of_singleton, E. intros ->.
      by apply absent_ids in Hfresh.
  - intros Inj U D. split; [|by apply unique_serve_all].
    apply absent_ids. intros Hin.
    unfold drawn in D. rewrite Forall_forall in D.
    destruct (D _ Hin) as (i & Hi & [= Ei]). apply Inj in Ei. lia.
Qed.

(** ** Validation of the bodies *)

Lemma validate_status_off v :
  (forall m, v <> VStr (TenderStatus_value m)) -> validate_status v = None.
Proof.
  intros H. destruct v; try done. simpl.
  destruct (TenderStatus_of s) as [m|] eqn:E; [|done].
  apply TenderStatus_of_Some in E. destruct (H m). by rewrite E.
Qed.

Lemma validate_priority_off v :
  (forall m, v <> VStr (PriorityLevel_value m)) -> validate_priority v = None.
Proof.
  intros H. destruct v; try done. simpl.
  destruct (PriorityLevel_of s) as [m|] eqn:E; [|done].
  apply PriorityLevel_of_Some in E. destruct (H m). by rewrite E.
Qed.

Lemma TenderCreate_new_Some body td :
  TenderCreate_new lib body = Some td ->
  defaulted validate_status OFFER body "status" = Some (TenderCreate.status td) /\
  required validate_priority body "priority" = Some (TenderCreate.priority td).
Proof.
  unfold TenderCreate_new. intros H. binds H. by injection H as <-.
Qed.

Lemma TenderUpdate_new_Some body upd :
  TenderUpdate_new lib body = Some upd ->
  optional validate_status body "status" = Some (TenderUpdate.status upd) /\
  optional validate_priority body "priority" = Some (TenderUpdate.priority upd).
Proof.
  unfold TenderUpdate_new. intros H. binds H. by injection H as <-.
Qed.

Lemma TenderCreate_new_off body : off_enum body -> TenderCreate_new lib body = None.
Proof.
  intros H. destruct (TenderCreate_new lib body) as [td|] eqn:E; [|done].
  apply TenderCreate_new_Some in E as [Es Ep]. exfalso.
  destruct H as [(v & Hv & N)|(v & Hv & N)].
  - unfold defaulted in Es. rewrite Hv, validate_status_off in Es; done.
  - unfold required in Ep. rewrite Hv in Ep. simpl in Ep.
    rewrite validate_priority_off in Ep; done.
Qed.

Lemma TenderUpdate_new_off body :
  off_enum_non_null body -> TenderUpdate_new lib body = None.
Proof.
  intros H. destruct (TenderUpdate_new lib body) as [upd|] eqn:E; [|done].
  apply TenderUpdate_new_Some in E as [Es Ep]. exfalso.
  destruct H as [(v & Hv & Nn & N)|(v & Hv & Nn & N)].
  - unfold optional in Es. rewrite Hv, validate_status_off in Es by done.
    by destruct v.
  - unfold optional in Ep. rewrite Hv, validate_priority_off in Ep by done.
    by destruct v.
Qed.

(** Claim C3, as amended.  A create body whose [status] or [priority] is
    anything but the value of a member of the enumeration (null included),
    and an update body whose [status] or [priority] is a non-null such
    thing, is refused with [RequestValidationError] (HTTP 422): the handler
    does not run, and the world, with the collection and the record of the
    calls made on it, is untouched. *)
Theorem out_of_enum_is_rejected (tender_id : string) (body : Doc) (w : World) :
  (off_enum body ->
     post_tenders lib body w = (Raised RequestValidationError, w)) /\
  (off_enum_non_null body ->
     put_tender lib tender_id body w = (Raised RequestValidationError, w)) /\
  http_status (@Raised Tender.t RequestValidationError) = 422.
Proof.
  split; [|split; [|done]].
  - intros H. unfold post_tenders. by rewrite TenderCreate_new_off.
  - intros H. unfold put_tender. by rewrite TenderUpdate_new_off.
Qed.

(** Claim C7.  A create body without [status], whose other fields are
    present and valid, is accepted as the payload with status [OFFER], and
    the tender is created: the record returned is that payload with the
    identifier drawn and the two readings of the clock, its status is
    [OFFER]; one call is made on the collection, [insert_one] of the
    document of that record, whose status is ["Offer"]; and the collection
    has one more document, which holds the fields of the record (the
    timestamps as the collection keeps them), with the status ["Offer"]. *)
Theorem status_defaults_to_offer (body : Doc) (w : World) :
  body !! "status" = None -> other_fields_valid lib body ->
  exists td x w1 d,
    TenderCreate_new lib body = Some td /\
    TenderCreate.status td = OFFER /\
    post_tenders lib body w = (Returned x, w1) /\
    x = Tender_of td (uuid_source w (uuids_drawn w))
          (utc_clock w (clock_reads w)) (utc_clock w (S (clock_reads w))) /\
    Tender.status x = OFFER /\
    store_calls w1 = store_calls w ++ [call_insert_one (stored x)] /\
    stored x !! "status" = Some (VStr "Offer") /\
    tenders w1 = tenders w ++ [d] /\
    (exists y, stores d y /\ same_but_timestamps x y) /\
    d !! "status" = Some (VStr "Offer").
Proof.
  intros Hs ([a Ha] & [b Hb] & [c Hc] & [d Hd] & [e He] & (t & Ht & Hw) &
             [f Hf] & [g Hg] & [h Hh]).
  set (td := TenderCreate.mk a b c OFFER d e t f g h).
  assert (E : TenderCreate_new lib body = Some td).
  { unfold TenderCreate_new, defaulted.
    by rewrite Ha, Hb, Hc, Hs, Hd, He, Ht, Hf, Hg, Hh. }
  set (x := Tender_of td (uuid_source w (uuids_drawn w))
              (utc_clock w (clock_reads w)) (utc_clock w (S (clock_reads w)))).
  pose proof (stores_stored x) as Sx. pose proof (stores_stored (kept x)) as Sk.
  exists td, x. eexists _, (stored (kept x)).
  split; [exact E|]. split; [done|].
  split; [unfold post_tenders; rewrite E; by apply create_tender_run|].
  cbn [tenders store_calls].
  split; [done|]. split; [done|]. split; [done|].
  split; [by fields Sx|]. split; [done|].
  split; [by exists (kept x)|]. by fields Sk.
Qed.


End Claims.


(* ===================================================================== *)
(** * Further properties of the handlers *)
(* ===================================================================== *)

(** ** Tactics *)

(** Membership in, and inclusion between, lists written out. *)
Ltac elems :=
  first [ by repeat constructor
        | let e := fresh in let H := fresh in
          intros e H; repeat (apply elem_of_cons in H as [->|H]);
          [by repeat constructor ..|by apply elem_of_nil in H] ].

(** ** The exceptions a handler can end in *)

Section Outcomes.
Context (lib : Leniency).

Lemma may_raise_ret {A} L (a : A) : may_raise L (ret a).
Proof. done. Qed.

Lemma may_raise_raise {A} L e : e ∈ L -> may_raise L (@raise A e).
Proof. intros H w. exact H. Qed.

Lemma may_raise_bind {A B} L (m : Handler A) (k : A -> Handler B) :
  may_raise L m -> (forall a, may_raise L (k a)) -> may_raise L (m ≫= k).
Proof.
  intros Hm Hk w. rewrite bind_run. specialize (Hm w).
  destruct (m w) as [[a|e] w1]; simpl in *; [apply Hk|done].
Qed.

Lemma may_raise_weaken {A} L L' (m : Handler A) :
  L ⊆ L' -> may_raise L m -> may_raise L' m.
Proof.
  intros HL Hm w. specialize (Hm w). destruct (fst (m w)); [done|].
  by apply HL.
Qed.

Lemma may_raise_mapM {A B} L (f : A -> Handler B) (l : list A) :
  (forall a, may_raise L (f a)) -> may_raise L (mapM f l).
Proof.
  intros Hf. induction l as [|a l IH]; [done|]. simpl.
  apply may_raise_bind; [done|]. intros b.
  apply may_raise_bind; [done|]. intros bs. apply may_raise_ret.
Qed.

Lemma may_raise_dict_fromisoformat b k d :
  may_raise [ValueError] (dict_fromisoformat lib b k d).
Proof.
  unfold dict_fromisoformat.
  destruct (d !! k) as [[]|]; try apply may_raise_ret.
  destruct (fromisoformat lib s); [apply may_raise_ret|].
  apply may_raise_raise. elems.
Qed.

Lemma may_raise_parse_dates d : may_raise [ValueError] (parse_dates lib d).
Proof.
  unfold parse_dates.
  apply may_raise_bind; [apply may_raise_dict_fromisoformat|]. intros d1.
  apply may_raise_bind; [apply may_raise_dict_fromisoformat|]. intros d2.
  apply may_raise_dict_fromisoformat.
Qed.

Lemma may_raise_with_factory {A} L (v : Value -> option A) (f : Handler A) kw k :
  may_raise L f -> may_raise L (with_factory v f kw k).
Proof.
  intros Hf. unfold with_factory. destruct (kw !! k); [apply may_raise_ret|].
  apply may_raise_bind; [done|]. intros a. apply may_raise_ret.
Qed.

Lemma may_raise_Tender_new kw : may_raise [ValidationError] (Tender_new lib kw).
Proof.
  unfold Tender_new.
  apply may_raise_bind; [by apply may_raise_with_factory|]. intros i.
  apply may_raise_bind; [by apply may_raise_with_factory|]. intros c.
  apply may_raise_bind; [by apply may_raise_with_factory|]. intros u.
  destruct (Tender_fields lib kw i c u); [apply may_raise_ret|].
  apply may_raise_raise. elems.
Qed.

Lemma may_raise_read_back L d :
  ValueError ∈ L -> ValidationError ∈ L ->
  may_raise L (parse_dates lib d ≫= λ d', Tender_new lib d').
Proof.
  intros H1 H2. apply may_raise_bind.
  - eapply may_raise_weaken; [|apply may_raise_parse_dates]. elems.
  - intros d'. eapply may_raise_weaken; [|apply may_raise_Tender_new]. elems.
Qed.

Lemma may_raise_get_tender tender_id :
  may_raise [HTTP_404; ValueError; ValidationError] (get_tender lib tender_id).
Proof.
  unfold get_tender. apply may_raise_bind; [done|]. intros o.
  destruct (falsy o); [apply may_raise_raise; elems|].
  destruct o; [|apply may_raise_raise; elems].
  apply may_raise_read_back; elems.
Qed.

Lemma may_raise_get_tenders s p c :
  may_raise [ValueError; ValidationError] (get_tenders lib s p c).
Proof.
  unfold get_tenders. apply may_raise_bind; [done|]. intros l.
  apply may_raise_bind.
  - apply may_raise_mapM. intros d.
    eapply may_raise_weaken; [|apply may_raise_parse_dates]. elems.
  - intros l'. apply may_raise_mapM. intros d.
    eapply may_raise_weaken; [|apply may_raise_Tender_new]. elems.
Qed.

Lemma may_raise_delete_tender tender_id :
  may_raise [HTTP_404] (delete_tender tender_id).
Proof.
  unfold delete_tender. intros w. rewrite bind_run. unfold delete_one.
  destruct (delete_first _ _); simpl; [done|]. elems.
Qed.

(** A matched update leaves a document the same filter finds. *)
Lemma update_first_find (p : Doc -> bool) (f : Doc -> Doc) (l l' : list Doc) :
  (forall d, p d = true -> p (f d) = true) ->
  update_first p f l = Some l' -> is_Some (List.find p l').
Proof.
  intros Hf. revert l'. induction l as [|d l IH]; intros l'; simpl; [done|].
  destruct (p d) eqn:E.
  - intros [= <-]. simpl. rewrite (Hf d E). by eexists.
  - destruct (update_first p f l) as [l1|]; [|done]. simpl.
    intros [= <-]. simpl. rewrite E. by apply IH.
Qed.

Lemma update_set_keeps_match tender_id upd now (d : Doc) :
  matches {["id" := tender_id]} d = true ->
  matches {["id" := tender_id]} (update_set upd now ∪ d) = true.
Proof.
  rewrite !matches_id, !field_is_true. intros E.
  rewrite lookup_union_r; [done|]. apply update_set_id.
Qed.

Lemma may_raise_update_tender tender_id upd :
  may_raise [HTTP_404; ValueError; ValidationError]
    (update_tender lib tender_id upd).
Proof.
  intros w. rewrite update_tender_run. unfold update_tail.
  rewrite bind_run. unfold update_one. cbn [snd utcnow tenders].
  rewrite bson_update_set.
  destruct (update_first _ _ (tenders w)) as [l|] eqn:U; cbn [Z.eqb];
    [|simpl; elems].
  rewrite bind_run. unfold find_one. cbn [tenders with_store].
  destruct (update_first_find (matches {["id" := tender_id]})
              (fun d => update_set upd
                          (bson_datetime (utc_clock w (clock_reads w))) ∪ d)
              (tenders w) l
              (update_set_keeps_match tender_id upd
                 (bson_datetime (utc_clock w (clock_reads w)))) U) as [d' E].
  rewrite E.
  apply may_raise_read_back; elems.
Qed.

Lemma may_raise_create_tender td :
  may_raise [ValidationError] (create_tender lib td).
Proof.
  intros w. unfold create_tender.
  erewrite bind_returned
    by (eapply dict_isoformat_alter; [dicts; lk; reflexivity | done]).
  erewrite bind_returned
    by (eapply dict_isoformat_alter;
        [rewrite lookup_alter_ne by done; dicts; lk; reflexivity | done]).
  erewrite bind_returned
    by (eapply dict_isoformat_alter;
        [rewrite !lookup_alter_ne by done; dicts; lk; reflexivity | done]).
  rewrite bind_run.
  pose proof (may_raise_Tender_new
    (alter iso_of "due_date" (alter iso_of "expiry_date"
       (alter iso_of "start_date" (TenderCreate.dict td)))) w) as H.
  destruct (Tender_new _ _ _) as [[x|e] w1]; [|exact H].
  erewrite bind_returned
    by (eapply dict_isoformat_alter; [dicts; lk; reflexivity | done]).
  erewrite bind_returned
    by (eapply dict_isoformat_alter;
        [rewrite lookup_alter_ne by done; dicts; lk; reflexivity | done]).
  erewrite bind_returned
    by (eapply dict_isoformat_alter;
        [rewrite !lookup_alter_ne by done; dicts; lk; reflexivity | done]).
  done.
Qed.

End Outcomes.

(** ** Lookups by identifier, and documents that cannot be read *)

Section Lookups.
Context (lib : Leniency).

(** *** Converse of the lookups by identifier *)

Lemma find_none_absent x l :
  List.find (matches {["id" := x]}) l = None -> absent x l.
Proof.
  induction l as [|d l IH]; simpl.
  - intros _ d Hd. by apply elem_of_nil in Hd.
  - rewrite matches_id. destruct (field_is d "id" x) eqn:E; [done|].
    intros H. apply absent_cons. split; [done|by apply IH].
Qed.

Lemma update_first_none_absent x f l :
  update_first (matches {["id" := x]}) f l = None -> absent x l.
Proof.
  induction l as [|d l IH]; simpl.
  - intros _ d Hd. by apply elem_of_nil in Hd.
  - rewrite matches_id. destruct (field_is d "id" x) eqn:E; [done|].
    destruct (update_first _ f l); [done|].
    intros _. apply absent_cons. split; [done|by apply IH].
Qed.

Lemma delete_first_none_absent x l :
  delete_first (matches {["id" := x]}) l = None -> absent x l.
Proof.
  induction l as [|d l IH]; simpl.
  - intros _ d Hd. by apply elem_of_nil in Hd.
  - rewrite matches_id. destruct (field_is d "id" x) eqn:E; [done|].
    destruct (delete_first _ l); [done|].
    intros _. apply absent_cons. split; [done|by apply IH].
Qed.

Lemma find_matches (q : Query) (l : list Doc) (d : Doc) :
  List.find (matches q) l = Some d -> matches q d = true /\ d ∈ l.
Proof.
  intros H. apply find_some in H as [H1 H2]. split; [done|].
  by apply list_elem_of_In.
Qed.

Lemma found_not_falsy x (l : list Doc) (d : Doc) :
  List.find (matches {["id" := x]}) l = Some d -> falsy (Some d) = false.
Proof.
  intros H. apply find_matches in H as [H _].
  rewrite matches_id, field_is_true in H. unfold falsy.
  apply Nat.eqb_neq. eapply map_size_ne_0_lookup_2. by rewrite H.
Qed.

Lemma raises_only_status {A} (L : list Exception) (o : Outcome A) (c : Z) :
  raises_only L o -> c <> 200 ->
  (forall e, e ∈ L -> http_status (@Raised A e) <> c) -> http_status o <> c.
Proof.
  intros H N HL. destruct o as [a|e]; simpl in H; [simpl; congruence|].
  by apply HL.
Qed.

Lemma read_back_not_404 d w :
  http_status (fst ((parse_dates lib d ≫= λ d', Tender_new lib d') w)) <> 404.
Proof.
  eapply raises_only_status; [|done|].
  - apply (may_raise_read_back lib [ValueError; ValidationError]); elems.
  - intros e H. repeat (apply elem_of_cons in H as [->|H]); try done.
    by apply elem_of_nil in H.
Qed.

Lemma get_tender_404 tender_id w :
  http_status (fst (get_tender lib tender_id w)) = 404 <->
  absent tender_id (tenders w).
Proof.
  unfold get_tender. rewrite bind_run. unfold find_one.
  destruct (List.find _ (tenders w)) as [d|] eqn:F.
  - rewrite (found_not_falsy _ _ _ F). split.
    + intros H. by apply read_back_not_404 in H.
    + intros H. by rewrite (find_absent _ _ H) in F.
  - split; [|done]. intros _. by apply find_none_absent.
Qed.

Lemma update_tender_404 tender_id upd w :
  http_status (fst (update_tender lib tender_id upd w)) = 404 <->
  absent tender_id (tenders w).
Proof.
  rewrite update_tender_run. unfold update_tail.
  rewrite bind_run. unfold update_one. cbn [snd utcnow tenders].
  rewrite bson_update_set.
  destruct (update_first _ _ (tenders w)) as [l|] eqn:U; cbn [Z.eqb].
  - rewrite bind_run. unfold find_one. cbn [tenders with_store].
    destruct (update_first_find (matches {["id" := tender_id]})
                (fun d => update_set upd
                            (bson_datetime (utc_clock w (clock_reads w))) ∪ d)
                (tenders w) l
                (update_set_keeps_match tender_id upd
                   (bson_datetime (utc_clock w (clock_reads w)))) U)
      as [d' E].
    rewrite E. split.
    + intros H. by apply read_back_not_404 in H.
    + intros H. by rewrite (update_first_absent _ _ _ H) in U.
  - split; [|done]. intros _. by apply update_first_none_absent in U.
Qed.

Lemma delete_tender_404 tender_id w :
  http_status (fst (delete_tender tender_id w)) = 404 <->
  absent tender_id (tenders w).
Proof.
  unfold delete_tender. rewrite bind_run. unfold delete_one.
  destruct (delete_first _ (tenders w)) as [l|] eqn:D; cbn [Z.eqb].
  - split; [done|]. intros H. by rewrite (delete_first_absent _ _ H) in D.
  - split; [|done]. intros _. by apply delete_first_none_absent in D.
Qed.

(** *** Documents that cannot be read *)

Lemma required_non_null {A} (validate : Value -> option A) (kw : Doc) k a :
  validate VNone = None -> required validate kw k = Some a ->
  exists v, kw !! k = Some v /\ v <> VNone.
Proof.
  unfold required. intros Hn H. destruct (kw !! k) as [v|]; [|done].
  exists v. split; [done|]. intros ->. simpl in H. congruence.
Qed.

Lemma Tender_fields_required kw i c u x k :
  Tender_fields lib kw i c u = Some x -> k ∈ Tender_required ->
  exists v, kw !! k = Some v /\ v <> VNone.
Proof.
  unfold Tender_fields. intros H Hk.
  destruct i as [i|]; [|done]. cbn [mbind option_bind] in H.
  binds H.
  unfold Tender_required in Hk.
  repeat (apply elem_of_cons in Hk as [->|Hk]);
    try (eapply required_non_null; [|eassumption]; done).
  by apply elem_of_nil in Hk.
Qed.

Lemma Tender_new_incomplete kw w :
  incomplete kw -> fst (Tender_new lib kw w) = Raised ValidationError.
Proof.
  intros (k & Hk & Hv).
  pose proof (may_raise_Tender_new lib kw w) as R.
  destruct (Tender_new lib kw w) as [[x|e] w'] eqn:E; simpl in *.
  - apply Tender_new_Returned in E as (i & c & u & F & _).
    destruct (Tender_fields_required _ _ _ _ _ k F Hk) as (v & Ev & Nv).
    destruct Hv as [Hv|Hv]; congruence.
  - apply list_elem_of_singleton in R. by subst.
Qed.

Lemma dict_fromisoformat_null b k d w d' w' j :
  dict_fromisoformat lib b k d w = (Returned d', w') ->
  d !! j = None \/ d !! j = Some VNone ->
  d' !! j = None \/ d' !! j = Some VNone.
Proof.
  intros H Hj. destruct (decide (k = j)) as [<-|N].
  - unfold dict_fromisoformat in H.
    destruct Hj as [Hj|Hj]; rewrite Hj in H; injection H as <- _; auto.
  - by rewrite (dict_fromisoformat_other _ _ _ _ _ _ _ _ H N).
Qed.

Lemma parse_dates_incomplete d w d' w' :
  parse_dates lib d w = (Returned d', w') -> incomplete d -> incomplete d'.
Proof.
  unfold parse_dates. intros H (k & Hk & Hv). exists k. split; [done|].
  rewrite bind_run in H.
  destruct (dict_fromisoformat lib true "start_date" d w) as [[d1|e] w1] eqn:E1;
    [|done].
  rewrite bind_run in H.
  destruct (dict_fromisoformat lib true "expiry_date" d1 w1) as [[d2|e] w2] eqn:E2;
    [|done].
  eapply dict_fromisoformat_null; [exact H|].
  eapply dict_fromisoformat_null; [exact E2|].
  eapply dict_fromisoformat_null; [exact E1|]. done.
Qed.

Lemma dict_fromisoformat_reads b k d w d' w' s :
  dict_fromisoformat lib b k d w = (Returned d', w') ->
  d !! k = Some (VStr s) -> fromisoformat lib s <> None.
Proof.
  unfold dict_fromisoformat. intros H E. rewrite E in H.
  by destruct (fromisoformat lib s).
Qed.

Lemma parse_dates_reads d w d' w' :
  parse_dates lib d w = (Returned d', w') -> ~ bad_date lib d.
Proof.
  unfold parse_dates. intros H (k & s & Hk & E & B).
  rewrite bind_run in H.
  destruct (dict_fromisoformat lib true "start_date" d w) as [[d1|e] w1] eqn:E1;
    [|done].
  rewrite bind_run in H.
  destruct (dict_fromisoformat lib true "expiry_date" d1 w1) as [[d2|e] w2] eqn:E2;
    [|done].
  unfold date_fields in Hk.
  repeat (apply elem_of_cons in Hk as [->|Hk]).
  - by apply (dict_fromisoformat_reads _ _ _ _ _ _ _ E1 E).
  - apply (dict_fromisoformat_reads _ _ _ _ _ _ s E2); [|done].
    by rewrite (dict_fromisoformat_other _ _ _ _ _ _ _ _ E1).
  - apply (dict_fromisoformat_reads _ _ _ _ _ _ s H); [|done].
    rewrite (dict_fromisoformat_other _ _ _ _ _ _ _ _ E2) by done.
    by rewrite (dict_fromisoformat_other _ _ _ _ _ _ _ _ E1).
  - by apply elem_of_nil in Hk.
Qed.

Lemma parse_dates_bad_date d w :
  bad_date lib d -> fst (parse_dates lib d w) = Raised ValueError.
Proof.
  intros B. pose proof (may_raise_parse_dates lib d w) as R.
  destruct (parse_dates lib d w) as [[d'|e] w'] eqn:E; simpl in *.
  - by apply parse_dates_reads in E.
  - apply list_elem_of_singleton in R. by subst.
Qed.

(** Reading back a document that is incomplete or has a bad date fails:
    [ValueError] from the dates, or [ValidationError] from the model. *)
Lemma read_back_unreadable d w :
  incomplete d \/ bad_date lib d ->
  exists e, fst ((parse_dates lib d ≫= λ d', Tender_new lib d') w) = Raised e /\
            (e = ValueError \/ e = ValidationError) /\
            (bad_date lib d -> e = ValueError).
Proof.
  intros H. rewrite bind_run.
  destruct (parse_dates lib d w) as [[d'|e] w'] eqn:E.
  - pose proof (parse_dates_reads _ _ _ _ E) as NB.
    destruct H as [H|H]; [|done].
    exists ValidationError. split; [|split; [by right|done]].
    apply Tender_new_incomplete. by eapply parse_dates_incomplete.
  - pose proof (may_raise_parse_dates lib d w) as R. rewrite E in R.
    simpl in R. apply list_elem_of_singleton in R. subst.
    exists ValueError. split; [done|]. split; [by left|done].
Qed.

End Lookups.

(** ** Collections whose documents store records *)

Section Invariant.
Context (lib : Leniency).

Lemma find_split x (l : list Doc) (d : Doc) :
  List.find (matches {["id" := x]}) l = Some d ->
  exists l1 l2, l = l1 ++ d :: l2 /\ absent x l1 /\ d !! "id" = Some (VStr x).
Proof.
  induction l as [|d1 l IH]; simpl; [done|].
  rewrite matches_id. destruct (field_is d1 "id" x) eqn:E.
  - intros [= ->]. exists [], l. split; [done|]. split.
    + intros d' Hd'. by apply elem_of_nil in Hd'.
    + by apply field_is_true.
  - intros H. destruct (IH H) as (l1 & l2 & -> & Ha & Hd).
    exists (d1 :: l1), l2. split; [done|]. split; [|done].
    by apply absent_cons.
Qed.

Lemma present_split x (l : list Doc) :
  ~ absent x l ->
  exists l1 d l2, l = l1 ++ d :: l2 /\ absent x l1 /\ d !! "id" = Some (VStr x).
Proof.
  intros H. destruct (List.find (matches {["id" := x]}) l) as [d|] eqn:F.
  - destruct (find_split _ _ _ F) as (l1 & l2 & ?). by exists l1, d, l2.
  - by apply find_none_absent in F.
Qed.

Lemma delete_first_found (x : string) (l1 l2 : list Doc) (d : Doc) :
  absent x l1 -> d !! "id" = Some (VStr x) ->
  delete_first (matches {["id" := x]}) (l1 ++ d :: l2) = Some (l1 ++ l2).
Proof.
  intros H E. induction l1 as [|d1 l1 IH]; simpl.
  - rewrite matches_id. by apply field_is_true in E as ->.
  - apply absent_cons in H as [E1 H]. rewrite matches_id, E1, IH; done.
Qed.

(** What [create_tender] does to the collection, whatever the payload. *)
Lemma create_tender_cases td w :
  (exists x w1, create_tender lib td w = (Returned x, w1) /\
     tenders w1 = tenders w ++ [stored (kept x)]) \/
  (exists w1, create_tender lib td w = (Raised ValidationError, w1) /\
     tenders w1 = tenders w).
Proof.
  unfold create_tender.
  erewrite bind_returned
    by (eapply dict_isoformat_alter; [dicts; lk; reflexivity | done]).
  erewrite bind_returned
    by (eapply dict_isoformat_alter;
        [rewrite lookup_alter_ne by done; dicts; lk; reflexivity | done]).
  erewrite bind_returned
    by (eapply dict_isoformat_alter;
        [rewrite !lookup_alter_ne by done; dicts; lk; reflexivity | done]).
  fold (iso_dates (TenderCreate.dict td)).
  rewrite bind_run.
  destruct (keeps_Tender_new lib (iso_dates (TenderCreate.dict td)) w) as [K _].
  pose proof (may_raise_Tender_new lib (iso_dates (TenderCreate.dict td)) w) as R.
  destruct (Tender_new lib (iso_dates (TenderCreate.dict td)) w)
    as [[x|e] w1] eqn:E; simpl in K, R.
  - left.
    erewrite bind_returned
      by (eapply dict_isoformat_alter; [dicts; lk; reflexivity | done]).
    erewrite bind_returned
      by (eapply dict_isoformat_alter;
          [rewrite lookup_alter_ne by done; dicts; lk; reflexivity | done]).
    erewrite bind_returned
      by (eapply dict_isoformat_alter;
          [rewrite !lookup_alter_ne by done; dicts; lk; reflexivity | done]).
    fold (iso_dates (Tender.dict x)). fold (stored x).
    rewrite bind_run. unfold insert_one. rewrite bson_stored.
    eexists _, _. split; [reflexivity|].
    cbn [tenders with_store]. by rewrite K.
  - right. apply list_elem_of_singleton in R. subst e. by eexists.
Qed.






(** *** Reading such a collection *)

Lemma get_tenders_stores status priority customer w xs :
  Forall2 stores (selected status priority customer w) xs ->
  fst (get_tenders lib status priority customer w) = Returned xs.
Proof.
  unfold selected. intros H. rewrite get_tenders_run, bind_run. unfold find.
  set (w1 := with_store _ _ _).
  assert (E : exists docs',
             mapM (parse_dates lib)
               (take 1000 (List.filter
                  (matches (list_query status priority customer)) (tenders w)))
               w1 = (Returned docs', w1) /\ Forall2 holds docs' xs).
  { clear -H. induction H as [|d x l xs Hd H (l' & E & IH)]; [by exists []|].
    destruct (parse_dates_stores lib d x w1 Hd) as (d' & E' & Hd').
    exists (d' :: l'). split; [|by constructor].
    simpl. erewrite bind_returned by exact E'.
    by erewrite bind_returned by exact E. }
  destruct E as (docs' & E & H').
  erewrite bind_returned by exact E.
  erewrite (mapM_total _ holds); [done| |exact H'].
  intros. by apply Tender_new_holds.
Qed.

Lemma matches_empty (d : Doc) : matches ∅ d = true.
Proof. unfold matches. by rewrite map_to_list_empty. Qed.

(** Without a filter the listing reads the first 1000 documents. *)
Lemma selected_all (w : World) :
  selected None None None w = take 1000 (tenders w).
Proof.
  unfold selected. f_equal. change (list_query None None None) with (∅ : Query).
  induction (tenders w) as [|d l IH]; [done|].
  simpl. by rewrite matches_empty, IH.
Qed.

Lemma well_formed_records (l : list Doc) :
  well_formed l -> exists xs, Forall2 stores l xs.
Proof.
  induction 1 as [|d l [x Hx] _ [xs IH]]; [by exists []|].
  exists (x :: xs). by constructor.
Qed.

Lemma well_formed_selected status priority customer w :
  well_formed (tenders w) ->
  well_formed (selected status priority customer w).
Proof.
  unfold well_formed, selected. rewrite !Forall_forall. intros H d Hd.
  apply H. apply subseteq_take, list_elem_of_In, filter_In in Hd.
  apply list_elem_of_In. tauto.
Qed.




End Invariant.

(** ** How requests are answered *)

Section Answers.
Context (lib : Leniency).

(** Property X1.  The exceptions a handler can end in.  [create_tender]
    returns or raises [ValidationError] (its six calls of [isoformat] never
    fail); [get_tenders] returns or raises [ValueError] or
    [ValidationError], never an [HTTPException]; [get_tender] returns or
    raises the 404, [ValueError] or [ValidationError]; [update_tender]
    returns or raises one of these three, or the [AttributeError] of
    [updated_tender.get] when the document it has updated is not found
    again; [delete_tender] returns or raises the 404. *)
Theorem handlers_raise_only (td : TenderCreate.t) (tender_id : string)
    (upd : TenderUpdate.t) (status priority customer : option string)
    (w : World) :
  raises_only [ValidationError] (fst (create_tender lib td w)) /\
  raises_only [ValueError; ValidationError]
    (fst (get_tenders lib status priority customer w)) /\
  raises_only [HTTP_404; ValueError; ValidationError]
    (fst (get_tender lib tender_id w)) /\
  raises_only [HTTP_404; ValueError; ValidationError; AttributeError]
    (fst (update_tender lib tender_id upd w)) /\
  raises_only [HTTP_404] (fst (delete_tender tender_id w)).
Proof.
  split; [apply may_raise_create_tender|].
  split; [apply may_raise_get_tenders|].
  split; [apply may_raise_get_tender|].
  split; [|apply may_raise_delete_tender].
  eapply may_raise_weaken; [|apply may_raise_update_tender]. elems.
Qed.

(** Property X2.  Fetching, updating and deleting by an identifier are
    answered with status 404 exactly when no document of the collection
    carries the identifier: a document that is found is never taken for a
    missing one, whatever else goes wrong with it. *)
Theorem not_found_exactly_when_absent (tender_id : string)
    (upd : TenderUpdate.t) (w : World) :
  (http_status (fst (get_tender lib tender_id w)) = 404 <->
     absent tender_id (tenders w)) /\
  (http_status (fst (update_tender lib tender_id upd w)) = 404 <->
     absent tender_id (tenders w)) /\
  (http_status (fst (delete_tender tender_id w)) = 404 <->
     absent tender_id (tenders w)).
Proof.
  split; [apply get_tender_404|]. split; [apply update_tender_404|].
  apply delete_tender_404.
Qed.

(** Property X3.  When the first document with the identifier lacks one
    of the ten required fields (or holds null there), or holds as one of
    its three dates a string [fromisoformat] does not read, [get_tender]
    ends in an exception that is answered with status 500, not 404: a
    [ValueError] in the case of the date.  The collection stays as it
    was. *)
Theorem get_tender_unreadable_document (tender_id : string)
    (l1 l2 : list Doc) (d : Doc) (w : World) :
  tenders w = l1 ++ d :: l2 -> absent tender_id l1 ->
  d !! "id" = Some (VStr tender_id) ->
  incomplete d \/ bad_date lib d ->
  http_status (fst (get_tender lib tender_id w)) = 500 /\
  (bad_date lib d -> fst (get_tender lib tender_id w) = Raised ValueError) /\
  tenders (snd (get_tender lib tender_id w)) = tenders w.
Proof.
  intros Hw Ha Hid Hd.
  split; [|split; [|apply keeps_get_tender]].
  all: unfold get_tender; rewrite bind_run; unfold find_one;
    rewrite Hw, (find_first _ _ _ _ Ha Hid), <- Hw;
    rewrite (found_not_falsy tender_id (l1 ++ d :: l2) d
               (find_first _ _ _ _ Ha Hid));
    match goal with |- context [(_ ≫= _) ?w1] =>
      destruct (read_back_unreadable lib d w1 Hd) as (e & -> & He & Hb) end.
  - by destruct He as [-> | ->].
  - intros B. by rewrite (Hb B).
Qed.

Lemma mapM_Returned_in {A B} (f : A -> Handler B) (l : list A) w l' w' a :
  mapM f l w = (Returned l', w') -> a ∈ l ->
  exists w1 b w2, f a w1 = (Returned b, w2) /\ b ∈ l'.
Proof.
  revert w l'. induction l as [|a1 l IH]; intros w l'; simpl.
  - intros _ H. by apply elem_of_nil in H.
  - rewrite bind_run. destruct (f a1 w) as [[b1|e] w1] eqn:E; [|done].
    rewrite bind_run. destruct (mapM f l w1) as [[bs|e] w2] eqn:E'; [|done].
    intros [= <- <-] [->|H]%elem_of_cons.
    + exists w, b1, w1. split; [done|]. by left.
    + destruct (IH _ _ E' H) as (w3 & b & w4 & Hb & Hin).
      exists w3, b, w4. split; [done|]. by right.
Qed.

(** Property X4.  One document that cannot be read fails the whole
    listing: when a document among those the listing reads lacks a required
    field (or holds null there) or holds a date string [fromisoformat] does
    not read, [get_tenders] returns no record at all and is answered with
    status 500.  The collection stays as it was. *)
Theorem get_tenders_unreadable_document
    (status priority customer : option string) (d : Doc) (w : World) :
  d ∈ selected status priority customer w ->
  incomplete d \/ bad_date lib d ->
  http_status (fst (get_tenders lib status priority customer w)) = 500 /\
  tenders (snd (get_tenders lib status priority customer w)) = tenders w.
Proof.
  unfold selected. intros Hd Hbad. split; [|apply keeps_get_tenders].
  pose proof (may_raise_get_tenders lib status priority customer w) as R.
  destruct (get_tenders lib status priority customer w) as [[l|e] w'] eqn:E;
    simpl in *.
  - exfalso. rewrite get_tenders_run, bind_run in E. unfold find in E.
    rewrite bind_run in E.
    match type of E with context [mapM (parse_dates lib) ?docs ?w1] =>
      destruct (mapM (parse_dates lib) docs w1) as [[docs'|e] w2] eqn:E1;
        [|done] end.
    destruct (mapM_Returned_in _ _ _ _ _ _ E1 Hd) as (w3 & d' & w4 & P & Hd').
    destruct (mapM_Returned_in _ _ _ _ _ _ E Hd') as (w5 & x & w6 & T & _).
    pose proof (parse_dates_reads _ _ _ _ _ P) as NB.
    destruct Hbad as [Hi|Hb]; [|done].
    pose proof (Tender_new_incomplete lib d' w5
                  (parse_dates_incomplete _ _ _ _ _ P Hi)) as C.
    by rewrite T in C.
  - repeat (apply elem_of_cons in R as [->|R]); try done.
    by apply elem_of_nil in R.
Qed.


Lemma filter_none {A} (f : A -> bool) (l : list A) :
  (forall a, a ∈ l -> f a = false) -> List.filter f l = [].
Proof.
  induction l as [|a l IH]; intros H; [done|]. simpl.
  rewrite (H a) by (by left). apply IH. intros b Hb. apply H. by right.
Qed.

(** Property X6.  A [status] or [priority] filter is a plain string and
    is not validated against the enumeration: when its value is not the
    value of any member, the request is not refused; on a collection whose
    documents store records it returns the empty list. *)
Theorem unknown_filter_value_selects_nothing
    (status priority customer : option string) (w : World) :
  well_formed (tenders w) -> unknown_filter status priority ->
  fst (get_tenders lib status priority customer w) = Returned [].
Proof.
  intros H U. apply get_tenders_stores. unfold selected.
  rewrite filter_none; [constructor|].
  intros d Hd. unfold well_formed in H. rewrite Forall_forall in H.
  destruct (H d Hd) as [x Hx].
  destruct (matches (list_query status priority customer) d) eqn:M; [|done].
  exfalso. rewrite matches_spec in M.
  destruct (list_query_given status priority customer) as (Qs & Qp & _).
  fields Hx.
  destruct U as [(s & G & N)|(s & G & N)].
  - apply Qs, M in G. rewrite F3 in G. injection G as G. by apply N in G.
  - apply Qp, M in G. rewrite F8 in G. injection G as G. by apply N in G.
Qed.

End Answers.

(** ** Deleting and updating *)

Section Writes.
Context (lib : Leniency).

(** *** Deleting *)

Lemma delete_tender_found tender_id l1 d l2 w :
  tenders w = l1 ++ d :: l2 -> absent tender_id l1 ->
  d !! "id" = Some (VStr tender_id) ->
  delete_tender tender_id w =
  (Returned deleted_message,
   with_store (l1 ++ l2) (call_delete_one {["id" := tender_id]}) w).
Proof.
  intros Hw Ha Hid. unfold delete_tender. rewrite bind_run. unfold delete_one.
  by rewrite Hw, (delete_first_found _ _ _ _ Ha Hid).
Qed.

(** Property X7.  Deleting by an identifier some document carries removes
    the first such document and no other, and returns the message.  When no
    other document carries the identifier, fetching, updating and deleting
    by it are answered with 404 from then on. *)
Theorem delete_removes_first_match (tender_id : string) (l1 l2 : list Doc)
    (d : Doc) (upd : TenderUpdate.t) (w : World) :
  tenders w = l1 ++ d :: l2 -> absent tender_id l1 ->
  d !! "id" = Some (VStr tender_id) ->
  exists w',
    delete_tender tender_id w = (Returned deleted_message, w') /\
    tenders w' = l1 ++ l2 /\
    (absent tender_id l2 ->
       http_status (fst (get_tender lib tender_id w')) = 404 /\
       http_status (fst (update_tender lib tender_id upd w')) = 404 /\
       http_status (fst (delete_tender tender_id w')) = 404).
Proof.
  intros Hw Ha Hid. eexists.
  split; [by apply (delete_tender_found _ l1 d l2)|].
  split; [done|]. intros Ha2.
  assert (A : absent tender_id (l1 ++ l2)).
  { intros d' [H|H]%elem_of_app; [by apply Ha|by apply Ha2]. }
  split; [by apply get_tender_404|].
  split; [by apply update_tender_404|by apply delete_tender_404].
Qed.

(** Property X8.  Creating a tender and then deleting it by the
    identifier returned leaves the collection as it was before the two
    requests.  The identifier drawn is taken not to be in use, and the due
    date to be one JSON can carry. *)
Theorem create_then_delete_restores (td : TenderCreate.t) (w : World) :
  wire (TenderCreate.due_date td) ->
  absent (uuid_source w (uuids_drawn w)) (tenders w) ->
  exists x w1 w2,
    create_tender lib td w = (Returned x, w1) /\
    delete_tender (Tender.id x) w1 = (Returned deleted_message, w2) /\
    tenders w2 = tenders w.
Proof.
  intros Hwire Hfresh.
  pose proof (create_tender_run lib td w Hwire) as C. cbv zeta in C.
  set (x := Tender_of td (uuid_source w (uuids_drawn w))
              (utc_clock w (clock_reads w)) (utc_clock w (S (clock_reads w))))
    in *.
  eexists x, _, _. split; [exact C|]. split.
  - apply (delete_tender_found (Tender.id x) (tenders w) (stored (kept x)) []);
      [reflexivity|exact Hfresh|].
    apply (stores_id _ (kept x)), stores_stored.
  - simpl. apply app_nil_r.
Qed.

(** *** Updating *)

Lemma update_tender_found_doc tender_id upd w l1 d l2 :
  tenders w = l1 ++ d :: l2 -> absent tender_id l1 ->
  d !! "id" = Some (VStr tender_id) ->
  tenders (snd (update_tender lib tender_id upd w)) =
  l1 ++ (update_set upd (bson_datetime (utc_clock w (clock_reads w))) ∪ d)
     :: l2.
Proof.
  intros Hw Ha Hid.
  destruct (update_tender_store lib tender_id upd w) as [-> _].
  by rewrite Hw, (update_first_found _ _ _ _ _ Ha Hid).
Qed.

Lemma update_set_empty now :
  update_set empty_update now = {["updated_at" := VDateTime now]}.
Proof.
  apply map_eq. intros k. rewrite update_set_lookup.
  destruct (decide (k = "updated_at")) as [->|N].
  - by rewrite lookup_singleton_eq.
  - rewrite lookup_singleton_ne by done. rewrite non_null_lookup.
    unfold empty_update. dicts.
    repeat (rewrite lookup_insert; case_decide; [done|]).
    by rewrite lookup_empty.
Qed.

(** Property X9.  An update without a field is not without effect.  The
    body [{}] validates, as the update that has no field; applied to an
    identifier some document carries, it passes [updated_at], set to the
    reading of the clock, and nothing else to the collection, which sets
    [updated_at] in the first such document to that reading, kept to the
    millisecond, and changes nothing else in it, nor in any other document.
    The clock is taken to be naive. *)
Theorem empty_update_touches_updated_at (tender_id : string)
    (l1 l2 : list Doc) (d : Doc) (w : World) :
  tenders w = l1 ++ d :: l2 -> absent tender_id l1 ->
  d !! "id" = Some (VStr tender_id) ->
  naive_clock w ->
  let now := utc_clock w (clock_reads w) in
  TenderUpdate_new lib ∅ = Some empty_update /\
  update_set empty_update now = {["updated_at" := VDateTime now]} /\
  tenders (snd (put_tender lib tender_id ∅ w)) =
    l1 ++ <["updated_at" := VDateTime (bson_datetime now)]> d :: l2.
Proof.
  intros Hw Ha Hid _ now. split; [done|]. split; [apply update_set_empty|].
  unfold put_tender.
  replace (TenderUpdate_new lib ∅) with (Some empty_update) by done.
  rewrite (update_tender_found_doc _ _ _ _ _ _ Hw Ha Hid).
  by rewrite update_set_empty, <- insert_union_singleton_l.
Qed.

Lemma update_set_twice upd now1 now2 (d : Doc) :
  update_set upd now2 ∪ (update_set upd now1 ∪ d) =
  <["updated_at" := VDateTime now2]> (update_set upd now1 ∪ d).
Proof.
  apply map_eq. intros k.
  destruct (decide (k = "updated_at")) as [->|N].
  - rewrite lookup_insert_eq. apply lookup_union_Some_l.
    by rewrite update_set_lookup, decide_True.
  - rewrite lookup_insert_ne by done. rewrite !lookup_union, !update_set_lookup.
    rewrite !decide_False by done.
    destruct (non_null upd !! k); by destruct (d !! k).
Qed.

(** Property X10.  Applying the same update a second time changes nothing
    but [updated_at]: the document the first application leaves is, after
    the second, the same document with [updated_at] set to the new reading
    of the clock, kept to the millisecond.  The clock is taken to be
    naive. *)
Theorem repeated_update_moves_updated_at (tender_id : string)
    (upd : TenderUpdate.t) (l1 l2 : list Doc) (d : Doc) (w : World) :
  tenders w = l1 ++ d :: l2 -> absent tender_id l1 ->
  d !! "id" = Some (VStr tender_id) ->
  naive_clock w ->
  exists d1 w1,
    w1 = snd (update_tender lib tender_id upd w) /\
    tenders w1 = l1 ++ d1 :: l2 /\
    tenders (snd (update_tender lib tender_id upd w1)) =
      l1 ++ <["updated_at" :=
                VDateTime (bson_datetime (utc_clock w1 (clock_reads w1)))]> d1
         :: l2.
Proof.
  intros Hw Ha Hid _.
  pose proof (update_tender_found_doc _ upd _ _ _ _ Hw Ha Hid) as H1.
  eexists _, _. split; [reflexivity|]. split; [exact H1|].
  erewrite update_tender_found_doc; [|exact H1|exact Ha|].
  - by rewrite update_set_twice.
  - rewrite lookup_union_r; [done|]. apply update_set_id.
Qed.

(** *** Keys beyond the fields of a body *)

Lemma TenderCreate_new_unknown (body : Doc) (k : string) (v : Value) :
  k ∉ TenderCreate_fields ->
  TenderCreate_new lib (<[k := v]> body) = TenderCreate_new lib body.
Proof.
  intros H. unfold TenderCreate_new, required, defaulted.
  unfold TenderCreate_fields in H.
  rewrite !lookup_insert_ne; [done|..]; intros ->; apply H; elems.
Qed.

Lemma TenderUpdate_new_unknown (body : Doc) (k : string) (v : Value) :
  k ∉ TenderCreate_fields ->
  TenderUpdate_new lib (<[k := v]> body) = TenderUpdate_new lib body.
Proof.
  intros H. unfold TenderUpdate_new, optional.
  unfold TenderCreate_fields in H.
  rewrite !lookup_insert_ne; [done|..]; intros ->; apply H; elems.
Qed.

End Writes.

(** ** Creating, reading and listing *)

Section Reads.
Context (lib : Leniency).

(** *** The document [create_tender] inserts *)

(** Property X11.  [create_tender] returns the payload, completed: the
    ten fields of the record are those of the payload.  It makes one call
    on the collection, [insert_one] of the document that has the thirteen
    fields of the record and nothing else, with [start_date], [expiry_date]
    and [due_date] as ISO-8601 strings and [created_at] and [updated_at] as
    date-times.  The collection gains exactly one document, which holds the
    thirteen fields with the two timestamps kept to the millisecond.  One
    identifier is drawn and the clock is read twice.  The due date is taken
    to be one JSON can carry, and the clock to be naive. *)
Theorem create_returns_payload_and_stores_it (td : TenderCreate.t) (w : World) :
  wire (TenderCreate.due_date td) ->
  naive_clock w ->
  exists x w1 d,
    create_tender lib td w = (Returned x, w1) /\
    x = Tender_of td (Tender.id x) (Tender.created_at x) (Tender.updated_at x) /\
    store_calls w1 =
      store_calls w ++ [call_insert_one (list_to_map (stored_items x))] /\
    tenders w1 = tenders w ++ [d] /\
    stores d (kept x) /\
    clock_reads w1 = S (S (clock_reads w)) /\
    uuids_drawn w1 = S (uuids_drawn w).
Proof.
  intros Hwire _. eexists _, _, _. split; [by apply create_tender_run|].
  cbn [tenders store_calls clock_reads uuids_drawn].
  split; [done|]. split; [by rewrite stored_is_map|]. split; [done|].
  split; [apply stores_stored|done].
Qed.

(** *** Documents without timestamps *)







(** *** Bodies *)

(** Property X13.  A key of a body that is not one of the ten fields of
    [TenderCreate] and [TenderUpdate] is ignored, on create and on update:
    the request is the same computation with and without it.  So a client
    cannot choose the [id], the [created_at] or the [updated_at] of a
    tender. *)
Theorem unknown_body_fields_are_ignored (body : Doc) (k : string) (v : Value)
    (tender_id : string) (w : World) :
  k ∉ TenderCreate_fields ->
  post_tenders lib (<[k := v]> body) w = post_tenders lib body w /\
  put_tender lib tender_id (<[k := v]> body) w = put_tender lib tender_id body w.
Proof.
  intros H. unfold post_tenders, put_tender.
  by rewrite TenderCreate_new_unknown, TenderUpdate_new_unknown.
Qed.

Lemma required_missing {A} (validate : Value -> option A) (body : Doc) k :
  validate VNone = None ->
  body !! k = None \/ body !! k = Some VNone ->
  required validate body k = None.
Proof. unfold required. by intros Hn [-> | ->]. Qed.

Lemma TenderCreate_new_missing (body : Doc) (k : string) :
  k ∈ TenderCreate_required ->
  body !! k = None \/ body !! k = Some VNone ->
  TenderCreate_new lib body = None.
Proof.
  intros Hk Hv. unfold TenderCreate_required in Hk.
  destruct (TenderCreate_new lib body) as [td|] eqn:E; [exfalso|done].
  unfold TenderCreate_new in E. binds E.
  repeat (apply elem_of_cons in Hk as [->|Hk]);
    try (match goal with
         | F : required ?v body ?k = Some _,
           Hv : body !! ?k = None \/ _ |- _ =>
             rewrite (required_missing v body k eq_refl Hv) in F; discriminate F
         end).
  by apply elem_of_nil in Hk.
Qed.

(** Property X14.  A create body that lacks one of the nine fields
    without a default, or holds null there, is refused with
    [RequestValidationError] (HTTP 422) before the handler runs: the world,
    with the collection, is untouched. *)
Theorem create_body_needs_every_field (body : Doc) (k : string) (w : World) :
  k ∈ TenderCreate_required ->
  body !! k = None \/ body !! k = Some VNone ->
  post_tenders lib body w = (Raised RequestValidationError, w).
Proof.
  intros Hk Hv. unfold post_tenders.
  by rewrite (TenderCreate_new_missing body k Hk Hv).
Qed.

(** *** Creating, then listing *)

Lemma list_query_lookup status priority customer k s :
  list_query status priority customer !! k = Some s ->
  (k = "status" /\ given status s) \/ (k = "priority" /\ given priority s) \/
  (k = "customer" /\ given customer s).
Proof.
  unfold list_query, given. rewrite !add_filter_lookup, lookup_empty.
  destruct customer as [c|], priority as [p|], status as [st|];
    repeat (match goal with
            | |- context [String.eqb ?a ""] =>
                destruct (String.eqb_spec a "")
            | |- context [decide (?a = k)] => destruct (decide (a = k))
            end; try done);
    intros [= <-]; subst; auto.
Qed.

Lemma stored_passes status priority customer td i c u :
  passes status priority customer td ->
  matches (list_query status priority customer)
    (stored (Tender_of td i c u)) = true.
Proof.
  intros (Ps & Pp & Pc). apply matches_spec. intros k s Hk.
  pose proof (stores_stored (Tender_of td i c u)) as H. fields H.
  apply list_query_lookup in Hk as [[-> G]|[[-> G]|[-> G]]].
  - by rewrite F3, <- (Ps s G).
  - by rewrite F8, <- (Pp s G).
  - by rewrite F1, <- (Pc s G).
Qed.

Lemma stored_selected status priority customer td i c u (l : list Doc) :
  passes status priority customer td ->
  List.filter (matches (list_query status priority customer))
    (l ++ [stored (Tender_of td i c u)]) =
  List.filter (matches (list_query status priority customer)) l ++
    [stored (Tender_of td i c u)].
Proof.
  intros P. rewrite List.filter_app. simpl. by rewrite stored_passes.
Qed.

(** Property X15.  A created tender is listed.  When the payload passes
    the filters that are given, and the documents the filters select,
    fewer than 1000, store the records [xs], the listing returns [xs]
    before the tender is created and, after, [xs] followed by the created
    record (its timestamps apart). *)
Theorem created_tender_is_listed (td : TenderCreate.t)
    (status priority customer : option string) (xs : list Tender.t)
    (w : World) :
  wire (TenderCreate.due_date td) ->
  passes status priority customer td ->
  Forall2 stores
    (List.filter (matches (list_query status priority customer)) (tenders w))
    xs ->
  (length xs < 1000)%nat ->
  exists x w1 y,
    create_tender lib td w = (Returned x, w1) /\
    fst (get_tenders lib status priority customer w) = Returned xs /\
    fst (get_tenders lib status priority customer w1) = Returned (xs ++ [y]) /\
    same_but_timestamps x y.
Proof.
  intros Hwire P H L. pose proof (Forall2_length _ _ _ H) as Len.
  eexists _, _, _. split; [by apply create_tender_run|]. split; [|split].
  - apply get_tenders_stores. unfold selected. by rewrite take_ge by lia.
  - apply get_tenders_stores. unfold selected. cbn [tenders].
    change (kept (Tender_of td ?i ?c ?u))
      with (Tender_of td i (bson_datetime c) (bson_datetime u)).
    rewrite stored_selected by done.
    rewrite take_ge by (rewrite List.length_app; simpl; lia).
    apply Forall2_app; [done|]. constructor; [|constructor].
    apply stores_stored.
  - reflexivity.
Qed.

(** Property X16.  The listing is capped.  When 1000 documents or more
    pass the filters, the listing reads the first 1000 of them, in the
    order of insertion, and a tender created then is not among the
    documents it reads: the listing returns the same records before and
    after the creation. *)
Theorem listing_is_capped (td : TenderCreate.t)
    (status priority customer : option string) (w : World) :
  (1000 <= length (List.filter (matches (list_query status priority customer))
                     (tenders w)))%nat ->
  length (selected status priority customer w) = 1000%nat /\
  selected status priority customer (snd (create_tender lib td w)) =
    selected status priority customer w /\
  (forall xs, Forall2 stores (selected status priority customer w) xs ->
     fst (get_tenders lib status priority customer w) = Returned xs /\
     fst (get_tenders lib status priority customer
            (snd (create_tender lib td w))) = Returned xs).
Proof.
  intros L.
  assert (S : selected status priority customer (snd (create_tender lib td w)) =
              selected status priority customer w).
  { unfold selected.
    destruct (create_tender_cases lib td w) as [(x & w1 & -> & E)|(w1 & -> & E)];
      simpl; rewrite E; [|done].
    rewrite List.filter_app. by apply take_app_le. }
  split; [unfold selected; rewrite length_take; lia|].
  split; [exact S|]. intros xs H. split.
  - by apply get_tenders_stores.
  - apply get_tenders_stores. by rewrite S.
Qed.

End Reads.

(** ** The values to filter by *)

Section FilterValues.
Context (lib : Leniency).

Lemma distinct_run k w :
  exists vs, distinct k w = (Returned vs, w) /\ NoDup vs /\
             forall v, v ∈ vs <-> held k (tenders w) v.
Proof.
  eexists. split; [reflexivity|]. split; [apply NoDup_remove_dups|].
  intros v. rewrite elem_of_remove_dups, list_elem_of_omap. done.
Qed.

Lemma filter_values_run (w : World) :
  exists customers sales_reps,
    get_customers w = (Returned {["customers" := customers]}, w) /\
    get_sales_reps w = (Returned {["sales_reps" := sales_reps]}, w) /\
    NoDup customers /\ NoDup sales_reps /\
    (forall v, v ∈ customers <-> held "customer" (tenders w) v) /\
    (forall v, v ∈ sales_reps <-> held "assigned_sales_rep" (tenders w) v).
Proof.
  destruct (distinct_run "customer" w) as (cs & Ec & Nc & Hc).
  destruct (distinct_run "assigned_sales_rep" w) as (rs & Er & Nr & Hr).
  exists cs, rs.
  split; [unfold get_customers; by erewrite bind_returned by exact Ec|].
  split; [unfold get_sales_reps; by erewrite bind_returned by exact Er|].
  done.
Qed.

(** Property X17.  The two routes that list the values to filter by answer
    with the values the documents of the collection hold as [customer],
    and as [assigned_sales_rep]: every value that is held and no other,
    each once.  On an empty collection both lists are empty.  The world is
    left as it was. *)
Theorem filter_values_are_the_stored_ones (w : World) :
  exists customers sales_reps,
    get_customers w = (Returned {["customers" := customers]}, w) /\
    get_sales_reps w = (Returned {["sales_reps" := sales_reps]}, w) /\
    NoDup customers /\ NoDup sales_reps /\
    (forall v, v ∈ customers <-> held "customer" (tenders w) v) /\
    (forall v, v ∈ sales_reps <-> held "assigned_sales_rep" (tenders w) v) /\
    (tenders w = [] -> customers = [] /\ sales_reps = []).
Proof.
  destruct (filter_values_run w) as (cs & rs & Ec & Er & Nc & Nr & Hc & Hr).
  exists cs, rs.
  split; [done|]. split; [done|].
  split; [done|]. split; [done|]. split; [done|]. split; [done|].
  intros E. split.
  - destruct cs as [|v cs']; [done|].
    destruct (proj1 (Hc v)) as (d & Hd & _); [by left|].
    rewrite E in Hd. by apply elem_of_nil in Hd.
  - destruct rs as [|v rs']; [done|].
    destruct (proj1 (Hr v)) as (d & Hd & _); [by left|].
    rewrite E in Hd. by apply elem_of_nil in Hd.
Qed.

(** Property X18.  After a tender is created, its customer and its sales
    rep are among the values the two routes list, together with every value
    that was held before. *)
Theorem created_tender_feeds_the_filters (td : TenderCreate.t) (w : World) :
  wire (TenderCreate.due_date td) ->
  exists x w1 customers sales_reps,
    create_tender lib td w = (Returned x, w1) /\
    get_customers w1 = (Returned {["customers" := customers]}, w1) /\
    get_sales_reps w1 = (Returned {["sales_reps" := sales_reps]}, w1) /\
    VStr (TenderCreate.customer td) ∈ customers /\
    VStr (TenderCreate.assigned_sales_rep td) ∈ sales_reps /\
    (forall v, held "customer" (tenders w) v -> v ∈ customers) /\
    (forall v, held "assigned_sales_rep" (tenders w) v -> v ∈ sales_reps).
Proof.
  intros Hwire.
  pose proof (create_tender_run lib td w Hwire) as C. cbv zeta in C.
  set (x := Tender_of td (uuid_source w (uuids_drawn w))
              (utc_clock w (clock_reads w)) (utc_clock w (S (clock_reads w))))
    in *.
  match type of C with _ = (_, ?w') => set (w1 := w') in * end.
  destruct (filter_values_run w1) as (cs & rs & Ec & Er & _ & _ & Hc & Hr).
  exists x, w1, cs, rs. split; [exact C|]. split; [exact Ec|]. split; [exact Er|].
  pose proof (stores_stored (kept x)) as S. fields S.
  assert (In1 : stored (kept x) ∈ tenders w1).
  { simpl. apply elem_of_app. right. by left. }
  split; [apply Hc; exists (stored (kept x)); split; [exact In1|exact F1]|].
  split; [apply Hr; exists (stored (kept x)); split; [exact In1|exact F9]|].
  split; intros v (d & Hd & E); [apply Hc|apply Hr]; exists d;
    (split; [|done]); simpl; apply elem_of_app; by left.
Qed.

End FilterValues.

(** ** The conversions of the dates *)

Section Blocks.
Context (lib : Leniency).

Lemma bind_assoc {A B C} (m : Handler A) (k1 : A -> Handler B)
    (k2 : B -> Handler C) (w : World) :
  ((m ≫= k1) ≫= k2) w = (m ≫= λ a, k1 a ≫= k2) w.
Proof. rewrite !bind_run. by destruct (m w) as [[a|e] w1]. Qed.

Lemma bind_ext {A B} (m : Handler A) (k k' : A -> Handler B) (w : World) :
  (forall a w', k a w' = k' a w') -> (m ≫= k) w = (m ≫= k') w.
Proof. intros H. rewrite !bind_run. by destruct (m w) as [[a|e] w1]. Qed.

Lemma isoformat_dates_bind {B} (d : Doc) (k : Doc -> Handler B) (w : World) :
  (isoformat_dates d ≫= k) w =
  (d ← dict_isoformat "start_date" d;
   d ← dict_isoformat "expiry_date" d;
   d ← dict_isoformat "due_date" d;
   k d) w.
Proof.
  unfold isoformat_dates. rewrite bind_assoc. apply bind_ext. intros d1 w1.
  by rewrite bind_assoc.
Qed.

(** [create_tender] runs the block twice: on the payload, and on the record
    it builds. *)
Lemma create_tender_blocks (td : TenderCreate.t) (w : World) :
  create_tender lib td w =
  (tender_dict ← isoformat_dates (TenderCreate.dict td);
   tender_obj ← Tender_new lib tender_dict;
   tender_dict ← isoformat_dates (Tender.dict tender_obj);
   _ ← insert_one tender_dict;
   ret tender_obj) w.
Proof.
  rewrite isoformat_dates_bind. unfold create_tender.
  do 3 (apply bind_ext; intros ? ?). apply bind_ext. intros x w1.
  by rewrite isoformat_dates_bind.
Qed.

Lemma isoformat_dates_run (d : Doc) (a b : date) (t : datetime) (w : World) :
  d !! "start_date" = Some (VDate a) ->
  d !! "expiry_date" = Some (VDate b) ->
  d !! "due_date" = Some (VDateTime t) ->
  isoformat_dates d w = (Returned (iso_dates d), w).
Proof.
  intros Ea Eb Et. unfold isoformat_dates.
  erewrite bind_returned by (eapply dict_isoformat_alter; [exact Ea|done]).
  erewrite bind_returned
    by (eapply dict_isoformat_alter;
        [rewrite lookup_alter_ne by done; exact Eb|done]).
  eapply dict_isoformat_alter; [rewrite !lookup_alter_ne by done; exact Et|done].
Qed.

(** Property X19.  The block that follows every read undoes the block
    that precedes every insertion.  On a dictionary that holds two dates
    and a date-time under [start_date], [expiry_date] and [due_date], the
    three calls of [isoformat] succeed and leave the ISO-8601 strings of the
    three values, and the three calls of [datetime.fromisoformat] (with
    [.date()] for the two dates) then give back the very dictionary: for
    every date, and every date-time that is naive or at a whole number of
    minutes from UTC. *)
Theorem parse_dates_undoes_isoformat (d : Doc) (a b : date) (t : datetime)
    (w : World) :
  d !! "start_date" = Some (VDate a) ->
  d !! "expiry_date" = Some (VDate b) ->
  d !! "due_date" = Some (VDateTime t) ->
  wire t ->
  exists d1,
    isoformat_dates d w = (Returned d1, w) /\
    d1 !! "start_date" = Some (VStr (date_isoformat a)) /\
    d1 !! "expiry_date" = Some (VStr (date_isoformat b)) /\
    d1 !! "due_date" = Some (VStr (datetime_isoformat t)) /\
    parse_dates lib d1 w = (Returned d, w).
Proof.
  intros Ea Eb Et _. exists (iso_dates d).
  split; [by apply (isoformat_dates_run d a b t)|].
  assert (L1 : iso_dates d !! "start_date" = Some (VStr (date_isoformat a)))
    by (by rewrite iso_dates_lookup, Ea).
  assert (L2 : iso_dates d !! "expiry_date" = Some (VStr (date_isoformat b)))
    by (by rewrite iso_dates_lookup, Eb).
  assert (L3 : iso_dates d !! "due_date" = Some (VStr (datetime_isoformat t)))
    by (by rewrite iso_dates_lookup, Et).
  split; [done|]. split; [done|]. split; [done|].
  destruct (fromisoformat_date lib a) as (t1 & E1 & D1).
  destruct (fromisoformat_date lib b) as (t2 & E2 & D2).
  pose proof (fromisoformat_datetime lib t) as E3.
  unfold parse_dates, dict_fromisoformat.
  rewrite L1, E1, ret_bind. rewrite lookup_insert_ne by done.
  rewrite L2, E2, ret_bind. rewrite !lookup_insert_ne by done.
  rewrite L3, E3. unfold ret. f_equal. f_equal.
  rewrite D1, D2. apply map_eq. intros k.
  destruct (decide (k = "due_date")) as [->|N3];
    [by rewrite lookup_insert_eq|rewrite lookup_insert_ne by done].
  destruct (decide (k = "expiry_date")) as [->|N2];
    [by rewrite lookup_insert_eq|rewrite lookup_insert_ne by done].
  destruct (decide (k = "start_date")) as [->|N1];
    [by rewrite lookup_insert_eq|rewrite lookup_insert_ne by done].
  rewrite iso_dates_lookup. unfold date_fields. cbn [existsb].
  rewrite (proj2 (String.eqb_neq _ _) N1), (proj2 (String.eqb_neq _ _) N2),
    (proj2 (String.eqb_neq _ _) N3).
  by destruct (d !! k).
Qed.

End Blocks.

(** ** The calls made on the collection *)

Section Calls.
Context (lib : Leniency).

Lemma silent_ret {A} (a : A) : silent (ret a).
Proof. done. Qed.

Lemma silent_raise {A} (e : Exception) : silent (@raise A e).
Proof. done. Qed.

Lemma silent_bind {A B} (m : Handler A) (k : A -> Handler B) :
  silent m -> (forall a, silent (k a)) -> silent (m ≫= k).
Proof.
  intros Hm Hk w. rewrite bind_run. destruct (Hm w) as [Ht Hc].
  destruct (m w) as [[a|e] w1]; simpl in *; [|done].
  destruct (Hk a w1) as [Ht' Hc']. split; congruence.
Qed.

Lemma silent_mapM {A B} (f : A -> Handler B) (l : list A) :
  (forall a, silent (f a)) -> silent (mapM f l).
Proof.
  intros Hf. induction l as [|a l IH]; [done|]. simpl.
  apply silent_bind; [done|]. intros b.
  apply silent_bind; [done|]. intros bs. apply silent_ret.
Qed.

Lemma silent_with_factory {A} (v : Value -> option A) (f : Handler A) kw k :
  silent f -> silent (with_factory v f kw k).
Proof.
  intros Hf. unfold with_factory. destruct (kw !! k); [apply silent_ret|].
  apply silent_bind; [done|]. intros a. apply silent_ret.
Qed.

Lemma silent_Tender_new kw : silent (Tender_new lib kw).
Proof.
  unfold Tender_new.
  apply silent_bind; [by apply silent_with_factory|]. intros i.
  apply silent_bind; [by apply silent_with_factory|]. intros c.
  apply silent_bind; [by apply silent_with_factory|]. intros u.
  destruct (Tender_fields lib kw i c u); [apply silent_ret|apply silent_raise].
Qed.

Lemma silent_dict_fromisoformat b k d : silent (dict_fromisoformat lib b k d).
Proof.
  unfold dict_fromisoformat.
  destruct (d !! k) as [[]|]; try apply silent_ret.
  destruct (fromisoformat lib s); [apply silent_ret|apply silent_raise].
Qed.

Lemma silent_parse_dates d : silent (parse_dates lib d).
Proof.
  unfold parse_dates.
  apply silent_bind; [apply silent_dict_fromisoformat|]. intros d1.
  apply silent_bind; [apply silent_dict_fromisoformat|]. intros d2.
  apply silent_dict_fromisoformat.
Qed.

Lemma silent_read_back d :
  silent (parse_dates lib d ≫= λ d', Tender_new lib d').
Proof.
  apply silent_bind; [apply silent_parse_dates|]. intros d'.
  apply silent_Tender_new.
Qed.

Lemma get_tender_calls tender_id w :
  store_calls (snd (get_tender lib tender_id w)) =
  store_calls w ++ [call_find_one {["id" := tender_id]}].
Proof.
  unfold get_tender. rewrite bind_run. unfold find_one.
  destruct (falsy _); [done|].
  destruct (List.find _ _) as [d|]; [|done].
  by rewrite (proj2 (silent_read_back d _)).
Qed.

Lemma get_tenders_calls status priority customer w :
  store_calls (snd (get_tenders lib status priority customer w)) =
  store_calls w ++ [call_find (list_query status priority customer) 1000].
Proof.
  rewrite get_tenders_run, bind_run. unfold find.
  match goal with |- store_calls (snd ((?m ≫= ?k) ?w1)) = _ =>
    assert (S : silent (m ≫= k)) end.
  { apply silent_bind; [apply silent_mapM, silent_parse_dates|]. intros l.
    apply silent_mapM, silent_Tender_new. }
  by rewrite (proj2 (S _)).
Qed.

Lemma delete_tender_calls tender_id w :
  store_calls (snd (delete_tender tender_id w)) =
  store_calls w ++ [call_delete_one {["id" := tender_id]}].
Proof.
  unfold delete_tender. rewrite bind_run. unfold delete_one.
  by destruct (delete_first _ _).
Qed.

Lemma update_first_Some_find (p : Doc -> bool) (f : Doc -> Doc) (l : list Doc) :
  is_Some (update_first p f l) <-> is_Some (List.find p l).
Proof.
  induction l as [|d l IH]; simpl.
  - split; intros [? ?]; done.
  - destruct (p d); [split; by eexists|].
    rewrite <- IH. destruct (update_first p f l); simpl; split;
      intros [? ?]; try done; by eexists.
Qed.

Lemma update_tender_calls tender_id upd w :
  store_calls (snd (update_tender lib tender_id upd w)) =
  store_calls w ++
    update_calls tender_id (update_set upd (utc_clock w (clock_reads w)))
      (tenders w).
Proof.
  rewrite update_tender_run. unfold update_tail, update_calls.
  rewrite bind_run. unfold update_one. cbn [snd utcnow tenders].
  rewrite bson_update_set.
  pose proof (update_first_Some_find (matches {["id" := tender_id]})
    (fun d => update_set upd (bson_datetime (utc_clock w (clock_reads w))) ∪ d)
    (tenders w)) as HS.
  destruct (update_first _ _ (tenders w)) as [l|] eqn:U; cbn [Z.eqb].
  - destruct (proj1 HS) as [d0 ->]; [by eexists|].
    rewrite bind_run. unfold find_one. cbn [tenders with_store].
    destruct (update_first_find (matches {["id" := tender_id]})
                (fun d => update_set upd
                            (bson_datetime (utc_clock w (clock_reads w))) ∪ d)
                (tenders w) l
                (update_set_keeps_match tender_id upd
                   (bson_datetime (utc_clock w (clock_reads w)))) U)
      as [d' E].
    rewrite E, (proj2 (silent_read_back d' _)). simpl.
    by rewrite <- app_assoc.
  - destruct (List.find _ (tenders w)) as [d0|] eqn:F; [|done].
    destruct (proj2 HS) as [? ?]; [by eexists|done].
Qed.

Lemma create_tender_calls td w :
  (exists x w1, create_tender lib td w = (Returned x, w1) /\
     store_calls w1 = store_calls w ++ [call_insert_one (stored x)]) \/
  (exists w1, create_tender lib td w = (Raised ValidationError, w1) /\
     store_calls w1 = store_calls w).
Proof.
  rewrite create_tender_blocks.
  assert (I : forall d w', (exists a b t, d !! "start_date" = Some (VDate a) /\
              d !! "expiry_date" = Some (VDate b) /\
              d !! "due_date" = Some (VDateTime t)) ->
            isoformat_dates d w' = (Returned (iso_dates d), w')).
  { intros d w' (a & b & t & Ea & Eb & Et). by apply (isoformat_dates_run d a b t). }
  erewrite bind_returned
    by (apply I; eexists _, _, _; repeat split; dicts; lk; reflexivity).
  rewrite bind_run.
  destruct (silent_Tender_new (iso_dates (TenderCreate.dict td)) w) as [_ K].
  pose proof (may_raise_Tender_new lib (iso_dates (TenderCreate.dict td)) w) as R.
  destruct (Tender_new lib (iso_dates (TenderCreate.dict td)) w)
    as [[x|e] w1] eqn:E; simpl in K, R.
  - left.
    erewrite bind_returned
      by (apply I; eexists _, _, _; repeat split; dicts; lk; reflexivity).
    eexists _, _. split; [reflexivity|]. simpl. by rewrite K.
  - right. apply list_elem_of_singleton in R. subst e. by eexists.
Qed.

(** Property X20.  The calls each handler makes on the collection.  A
    listing makes one [find], with the filter built from the parameters and
    the limit 1000; a fetch one [find_one]; a delete one [delete_one]; an
    update one [update_one] and, when a document was matched, one
    [find_one] after it; a create one [insert_one], of the document that
    stores the record returned, or none when it fails.  No handler makes any
    other call. *)
Theorem handlers_calls (td : TenderCreate.t) (tender_id : string)
    (upd : TenderUpdate.t) (status priority customer : option string)
    (w : World) :
  store_calls (snd (get_tenders lib status priority customer w)) =
    store_calls w ++ [call_find (list_query status priority customer) 1000] /\
  store_calls (snd (get_tender lib tender_id w)) =
    store_calls w ++ [call_find_one {["id" := tender_id]}] /\
  store_calls (snd (delete_tender tender_id w)) =
    store_calls w ++ [call_delete_one {["id" := tender_id]}] /\
  store_calls (snd (update_tender lib tender_id upd w)) =
    store_calls w ++
      update_calls tender_id (update_set upd (utc_clock w (clock_reads w)))
        (tenders w) /\
  ((exists x w1, create_tender lib td w = (Returned x, w1) /\
      store_calls w1 = store_calls w ++ [call_insert_one (stored x)]) \/
   (exists w1, create_tender lib td w = (Raised ValidationError, w1) /\
      store_calls w1 = store_calls w)).
Proof.
  split; [apply get_tenders_calls|]. split; [apply get_tender_calls|].
  split; [apply delete_tender_calls|]. split; [apply update_tender_calls|].
  apply create_tender_calls.
Qed.

(** *** Reading what was written *)

(** Property X21.  A fetch returns what the last write returned.  After a
    tender is created, fetching it by the identifier returned gives the
    record [create_tender] returned; after it is then updated, fetching it
    gives the record [update_tender] returned (in both cases the
    timestamps apart, which the database keeps to the millisecond).  The
    identifier drawn is taken not to be in use, and the due date to be one
    JSON can carry. *)
Theorem read_your_writes (td : TenderCreate.t) (upd : TenderUpdate.t)
    (w : World) :
  wire (TenderCreate.due_date td) ->
  absent (uuid_source w (uuids_drawn w)) (tenders w) ->
  exists x w1 x' w2 y w3 y' w4,
    create_tender lib td w = (Returned x, w1) /\
    get_tender lib (Tender.id x) w1 = (Returned x', w2) /\
    same_but_timestamps x x' /\
    update_tender lib (Tender.id x) upd w2 = (Returned y, w3) /\
    get_tender lib (Tender.id x) w3 = (Returned y', w4) /\
    same_but_timestamps y y'.
Proof.
  intros Hwire Hfresh.
  pose proof (create_tender_run lib td w Hwire) as C. cbv zeta in C.
  set (x := Tender_of td (uuid_source w (uuids_drawn w))
              (utc_clock w (clock_reads w)) (utc_clock w (S (clock_reads w))))
    in *.
  match type of C with _ = (_, ?w') => set (w1 := w') in * end.
  assert (G1 := get_tender_found lib (tenders w) [] (stored (kept x)) (kept x)
                  w1 eq_refl Hfresh (stores_stored (kept x))).
  match type of G1 with _ = (_, ?w') => set (w2 := w') in * end.
  destruct (update_tender_found lib (Tender.id x) upd w2 (tenders w)
              (stored (kept x)) [] (kept x) eq_refl Hfresh
              (stores_stored (kept x)) eq_refl)
    as (w3 & U & Hw3 & _).
  set (now := bson_datetime (utc_clock w2 (clock_reads w2))) in *.
  set (y := apply_update upd now (kept x)) in *.
  assert (G2 := get_tender_found lib (tenders w) []
                  (update_set upd now ∪ stored (kept x))
                  y w3 Hw3 Hfresh
                  (update_set_stores _ _ _ _ (stores_stored (kept x)))).
  exists x, w1, (kept x), w2, y, w3, y. eexists.
  split; [exact C|]. split; [exact G1|]. split; [reflexivity|].
  split; [exact U|]. split; [exact G2|]. reflexivity.
Qed.

(** *** Listing, then fetching *)

Lemma first_with_id (l : list Doc) (d : Doc) (x : string) :
  NoDup (ids l) -> d ∈ l -> d !! "id" = Some (VStr x) ->
  exists l1 l2, l = l1 ++ d :: l2 /\ absent x l1.
Proof.
  intros U Hd Hid. apply list_elem_of_split in Hd as (l1 & l2 & ->).
  exists l1, l2. split; [done|]. apply absent_ids.
  unfold ids in U. rewrite fmap_app, fmap_cons in U.
  apply NoDup_app in U as (_ & U & _). intros Hin.
  apply (U _ Hin). rewrite Hid. by left.
Qed.

(** Property X22.  A tender that is listed can be fetched.  On a
    collection whose documents store records with pairwise distinct
    identifiers, every record a listing returns is returned again by
    [get_tender] for its identifier. *)
Theorem listed_tender_can_be_fetched (status priority customer : option string)
    (l : list Tender.t) (x : Tender.t) (w w1 : World) :
  well_formed (tenders w) -> NoDup (ids (tenders w)) ->
  get_tenders lib status priority customer w = (Returned l, w1) ->
  x ∈ l ->
  fst (get_tender lib (Tender.id x) w1) = Returned x.
Proof.
  intros H U E Hx.
  pose proof (proj1 (keeps_get_tenders lib status priority customer w)) as K.
  rewrite E in K. simpl in K.
  destruct (well_formed_records _
    (well_formed_selected status priority customer w H)) as [xs Hxs].
  pose proof (get_tenders_stores lib _ _ _ _ _ Hxs) as E'.
  rewrite E in E'. injection E' as ->.
  apply list_elem_of_lookup in Hx as [i Hx].
  destruct (Forall2_lookup_r _ _ _ _ _ Hxs Hx) as (d & Hd & Sd).
  apply list_elem_of_lookup_2, subseteq_take, list_elem_of_In, filter_In in Hd.
  destruct Hd as [Hd _]. apply list_elem_of_In in Hd.
  destruct (first_with_id _ _ _ U Hd (stores_id _ _ Sd)) as (l1 & l2 & Hl & Ha).
  rewrite <- K in Hl.
  by rewrite (get_tender_found lib l1 l2 d x w1 Hl Ha Sd).
Qed.

End Calls.

(** ** Updates that fail, and models built from their own dictionary *)

Section Failures.
Context (lib : Leniency).

Lemma update_tender_read_back tender_id upd w l1 d l2 :
  tenders w = l1 ++ d :: l2 -> absent tender_id l1 ->
  d !! "id" = Some (VStr tender_id) ->
  exists w1,
    update_tender lib tender_id upd w =
    (parse_dates lib
       (update_set upd (bson_datetime (utc_clock w (clock_reads w))) ∪ d) ≫=
       λ u, Tender_new lib u) w1.
Proof.
  intros Hw Ha Hid. rewrite update_tender_run.
  assert (Hid' : (update_set upd (bson_datetime (utc_clock w (clock_reads w)))
                    ∪ d) !! "id" = Some (VStr tender_id)).
  { rewrite lookup_union_r; [done|]. apply update_set_id. }
  unfold update_tail. rewrite bind_run. unfold update_one.
  cbn [snd utcnow tenders]. rewrite Hw, bson_update_set.
  rewrite (update_first_found _ _ _ _ _ Ha Hid).
  cbn [Z.eqb]. rewrite bind_run. unfold find_one.
  cbn [tenders with_store]. rewrite (find_first _ _ _ _ Ha Hid').
  by eexists.
Qed.

(** Property X23.  An update that fails may still have been written.
    When the first document with the identifier lacks a required field (or
    holds null there) and the update does not provide it, [update_tender]
    is answered with status 500, yet [update_one] has been applied: in the
    collection the document has the new [updated_at], the reading of the
    clock kept to the millisecond, and every key the update does not set
    keeps its value.  The clock is taken to be naive. *)
Theorem failed_update_is_still_written (tender_id : string)
    (upd : TenderUpdate.t) (l1 l2 : list Doc) (d : Doc) (k : string)
    (w : World) :
  tenders w = l1 ++ d :: l2 -> absent tender_id l1 ->
  d !! "id" = Some (VStr tender_id) ->
  k ∈ Tender_required -> d !! k = None \/ d !! k = Some VNone ->
  non_null upd !! k = None ->
  naive_clock w ->
  exists d',
    http_status (fst (update_tender lib tender_id upd w)) = 500 /\
    tenders (snd (update_tender lib tender_id upd w)) = l1 ++ d' :: l2 /\
    d' !! "updated_at" =
      Some (VDateTime (bson_datetime (utc_clock w (clock_reads w)))) /\
    (forall j, non_null upd !! j = None -> j <> "updated_at" ->
               d' !! j = d !! j).
Proof.
  intros Hw Ha Hid Hk Hv Hn _.
  set (now := bson_datetime (utc_clock w (clock_reads w))).
  exists (update_set upd now ∪ d).
  assert (N : k <> "updated_at").
  { intros ->. unfold Tender_required in Hk.
    repeat (apply elem_of_cons in Hk as [Hk|Hk]; [discriminate Hk|]).
    by apply elem_of_nil in Hk. }
  split; [|split; [by apply update_tender_found_doc|split]].
  - destruct (update_tender_read_back tender_id upd w l1 d l2 Hw Ha Hid)
      as [w1 ->]. fold now.
    destruct (read_back_unreadable lib (update_set upd now ∪ d) w1)
      as (e & -> & [-> | ->] & _); [|done|done].
    left. exists k. split; [done|].
    by rewrite (update_set_frame upd _ d k Hn N).
  - apply lookup_union_Some_l. by rewrite update_set_lookup, decide_True.
  - intros j. apply update_set_frame.
Qed.

Lemma optional_dict {A} (validate : Value -> option A) (f : A -> Value)
    (kw : Doc) (k : string) (o : option A) :
  (forall a, validate (f a) = Some a) -> (forall a, f a <> VNone) ->
  kw !! k = Some (TenderUpdate.opt f o) -> optional validate kw k = Some o.
Proof.
  intros Hv Hn E. unfold optional. rewrite E.
  destruct o as [a|]; simpl; [|done]. specialize (Hn a).
  destruct (f a) eqn:Ef; try done; by rewrite <- Ef, Hv.
Qed.

Lemma validate_status_value (m : TenderStatus) :
  validate_status (VStr (TenderStatus_value m)) = Some m.
Proof. apply TenderStatus_of_value. Qed.

Lemma validate_priority_value (m : PriorityLevel) :
  validate_priority (VStr (PriorityLevel_value m)) = Some m.
Proof. apply PriorityLevel_of_value. Qed.

(** Property X24.  A model built from the dictionary of a model is that
    model: [TenderCreate( **td.dict())] is [td], [TenderUpdate( **upd.dict())]
    is [upd], and [Tender( **x.dict())] is [x], without a call of a factory
    (no identifier is drawn, the clock is not read). *)
Theorem models_rebuild_from_their_dict (td : TenderCreate.t)
    (upd : TenderUpdate.t) (x : Tender.t) (w : World) :
  TenderCreate_new lib (TenderCreate.dict td) = Some td /\
  TenderUpdate_new lib (TenderUpdate.dict upd) = Some upd /\
  Tender_new lib (Tender.dict x) w = (Returned x, w).
Proof.
  split; [|split].
  - unfold TenderCreate_new, required, defaulted. dicts. lk.
    cbn -[TenderStatus_of PriorityLevel_of].
    rewrite TenderStatus_of_value, PriorityLevel_of_value. by destruct td.
  - unfold TenderUpdate_new.
    rewrite (optional_dict (validate_str lib) VStr _ "item"
               (TenderUpdate.item upd)) by done.
    rewrite (optional_dict (validate_str lib) VStr _ "customer"
               (TenderUpdate.customer upd)) by done.
    rewrite (optional_dict (validate_str lib) VStr _ "tender_name"
               (TenderUpdate.tender_name upd)) by done.
    rewrite (optional_dict validate_status
               (fun m => VStr (TenderStatus_value m)) _ "status"
               (TenderUpdate.status upd))
      by first [apply validate_status_value | done].
    rewrite (optional_dict (validate_date lib) VDate _ "start_date"
               (TenderUpdate.start_date upd)) by done.
    rewrite (optional_dict (validate_date lib) VDate _ "expiry_date"
               (TenderUpdate.expiry_date upd)) by done.
    rewrite (optional_dict (validate_datetime lib) VDateTime _ "due_date"
               (TenderUpdate.due_date upd)) by done.
    rewrite (optional_dict (validate_float lib) VFloat _ "deal_value"
               (TenderUpdate.deal_value upd)) by done.
    rewrite (optional_dict validate_priority
               (fun m => VStr (PriorityLevel_value m)) _ "priority"
               (TenderUpdate.priority upd))
      by first [apply validate_priority_value | done].
    rewrite (optional_dict (validate_str lib) VStr _ "assigned_sales_rep"
               (TenderUpdate.assigned_sales_rep upd)) by done.
    by destruct upd.
  - apply Tender_new_holds. unfold holds, Tender.dict, Tender.items.
    repeat (apply Forall_cons; split; [cbn [fst snd]; lk; done|]).
    constructor.
Qed.

End Failures.

(* ===================================================================== *)
(** * The sample data: counterexamples and instances *)
(* ===================================================================== *)



(** Claim C6 as stated fails: the request [?customer=] provides the
    customer filter that is the empty string, and a record is returned
    whose customer is not the empty string. *)
Lemma empty_customer_filter_is_not_applied :
  exists l w1 x,
    get_tenders strict None None (Some "") acme_world = (Returned l, w1) /\
    x ∈ l /\ Tender.customer x <> "".
Proof.
  exists [acme_tender],
    (with_store (tenders acme_world) (call_find ∅ 1000) acme_world),
    acme_tender.
  split; [|split; [by left|done]].
  vm_compute. reflexivity.
Qed.

(** Claim C3 as stated fails: the update body [{"status": null}] has a
    status that is none of the enumerated values, yet the update is
    answered with 200 and the collection is written to. *)
Lemma null_status_update_is_accepted :
  off_enum null_status_body /\
  http_status
    (fst (put_tender strict (Tender.id acme_tender) null_status_body
            acme_world)) = 200 /\
  tenders
    (snd (put_tender strict (Tender.id acme_tender) null_status_body
            acme_world)) <> tenders acme_world.
Proof.
  split; [|split].
  - left. exists VNone. split; [done|]. intros m. discriminate.
  - vm_compute. reflexivity.
  - intros H.
    apply (f_equal (fmap (fun d : Doc => d !! "updated_at"))) in H.
    vm_compute in H. discriminate H.
Qed.

(** ** The theorems at the sample data *)

Lemma create_then_get_dates_witness :
  wire (TenderCreate.due_date acme_payload) /\
  absent (sample_uuids 0) (tenders empty_world) /\
  exists x w1 y w2,
    create_tender strict acme_payload empty_world = (Returned x, w1) /\
    get_tender strict (Tender.id x) w1 = (Returned y, w2) /\
    Tender.start_date y = mkdate 2024 1 1 I /\
    Tender.expiry_date y = mkdate 2024 2 29 I /\
    Tender.due_date y = mkdatetime (mkdate 2024 1 15 I) 10 0 0 0 None I.
Proof.
  assert (Hw : wire (TenderCreate.due_date acme_payload)) by reflexivity.
  assert (Ha : absent (sample_uuids 0) (tenders empty_world))
    by (intros d Hd; inversion Hd).
  split; [exact Hw|]. split; [exact Ha|].
  exact (create_then_get_dates strict acme_payload empty_world Hw Ha).
Defined.

Lemma update_changes_present_fields_witness :
  wire (Tender.due_date acme_tender) /\ naive_clock fine_world /\
  microsecond (fine_clock 0) = 123456 /\
  microsecond (bson_datetime (fine_clock 0)) = 123000 /\
  exists d' w',
    update_tender strict (Tender.id acme_tender) priority_high fine_world =
      (Returned (apply_update priority_high (bson_datetime (fine_clock 0))
                   acme_tender), w') /\
    tenders w' = [d'] /\
    stores d' (apply_update priority_high (bson_datetime (fine_clock 0))
                 acme_tender) /\
    (forall k, non_null priority_high !! k = None -> k <> "updated_at" ->
               d' !! k = stored acme_tender !! k) /\
    store_calls w' =
      store_calls fine_world ++
        [call_update_one {["id" := Tender.id acme_tender]}
           (update_set priority_high (fine_clock 0));
         call_find_one {["id" := Tender.id acme_tender]}] /\
    update_set priority_high (fine_clock 0) !! "updated_at" =
      Some (VDateTime (fine_clock 0)).
Proof.
  assert (Hw : wire (Tender.due_date acme_tender)) by reflexivity.
  assert (Hn : naive_clock fine_world) by (intros [|n]; reflexivity).
  split; [exact Hw|]. split; [exact Hn|].
  split; [reflexivity|]. split; [vm_compute; reflexivity|].
  apply (update_changes_present_fields strict (Tender.id acme_tender)
           priority_high fine_world [] (stored acme_tender) [] acme_tender).
  - reflexivity.
  - intros d Hd. inversion Hd.
  - unfold stores, stored_items. simpl. repeat constructor.
  - reflexivity.
  - exact Hw.
  - intros t E. discriminate E.
  - exact Hn.
Defined.

Lemma not_found_leaves_store_witness :
  absent "no-such-id" (tenders acme_world) /\
  answers_404 (get_tender strict "no-such-id" acme_world) acme_world /\
  answers_404 (update_tender strict "no-such-id" priority_high acme_world) acme_world /\
  answers_404 (delete_tender "no-such-id" acme_world) acme_world.
Proof.
  assert (Ha : absent "no-such-id" (tenders acme_world)).
  { intros d Hd. inversion Hd as [|? ? ? Hd']; subst; [|inversion Hd'].
    vm_compute. discriminate. }
  split; [exact Ha|].
  exact (not_found_leaves_store strict "no-such-id" priority_high acme_world Ha).
Defined.


Lemma list_applies_given_filters_witness :
  given (Some "Acme") "Acme" /\
  fst (get_tenders strict None None (Some "Acme") acme_world) =
    Returned [acme_tender] /\
  (forall l w', get_tenders strict None None (Some "Acme") acme_world =
                  (Returned l, w') ->
     forall x, x ∈ l -> Tender.customer x = "Acme").
Proof.
  assert (G : given (Some "Acme") "Acme") by (split; [reflexivity|discriminate]).
  destruct (list_applies_given_filters strict None None (Some "Acme") acme_world)
    as (Sound & _ & _).
  split; [exact G|]. split.
  - vm_compute. reflexivity.
  - intros l w' E x Hx. destruct (Sound l w' E) as [_ S].
    destruct (S x Hx) as (_ & _ & C). exact (C "Acme" G).
Defined.

Lemma status_defaults_to_offer_witness :
  acme_body !! "status" = None /\ other_fields_valid strict acme_body /\
  exists td x w1 d,
    TenderCreate_new strict acme_body = Some td /\
    TenderCreate.status td = OFFER /\
    post_tenders strict acme_body empty_world = (Returned x, w1) /\
    x = Tender_of td (sample_uuids 0) (sample_clock 0) (sample_clock 1) /\
    Tender.status x = OFFER /\
    store_calls w1 = [call_insert_one (stored x)] /\
    stored x !! "status" = Some (VStr "Offer") /\
    tenders w1 = [d] /\
    (exists y, stores d y /\ same_but_timestamps x y) /\
    d !! "status" = Some (VStr "Offer").
Proof.
  assert (Hs : acme_body !! "status" = None) by (vm_compute; reflexivity).
  assert (Hv : other_fields_valid strict acme_body).
  { unfold other_fields_valid.
    repeat match goal with
           | |- _ /\ _ => split
           | |- is_Some _ => eexists; vm_compute; reflexivity
           end.
    eexists. split; [vm_compute; reflexivity|reflexivity]. }
  split; [exact Hs|]. split; [exact Hv|].
  exact (status_defaults_to_offer strict acme_body empty_world Hs Hv).
Defined.

Lemma ids_are_immutable_and_unique_witness :
  NoDup (ids (tenders acme_world)) /\
  absent (sample_uuids 1) (tenders acme_world) /\
  NoDup (ids (tenders (snd (create_tender strict acme_payload acme_world)))) /\
  ids (tenders (snd (update_tender strict (Tender.id acme_tender) priority_high
                       acme_world))) = ids (tenders acme_world) /\
  never_repeats (uuid_source numbered_world) /\
  NoDup (ids (tenders numbered_world)) /\ drawn numbered_world /\
  ids (tenders (serve_all strict numbered_requests numbered_world)) =
    [Some (VStr "tender-1"); Some (VStr "tender-2")] /\
  NoDup (ids (tenders (serve_all strict numbered_requests numbered_world))).
Proof.
  assert (U : NoDup (ids (tenders acme_world)))
    by (vm_compute; apply NoDup_singleton).
  assert (Ha : absent (sample_uuids 1) (tenders acme_world)).
  { intros d Hd. inversion Hd as [|? ? ? Hd']; subst; [|inversion Hd'].
    vm_compute. discriminate. }
  assert (Inj : never_repeats (uuid_source numbered_world)).
  { intros i j H. apply (inj pretty). simpl in H. unfold numbered_uuids in H.
    cbv [String.append] in H. by injection H. }
  assert (U0 : NoDup (ids (tenders numbered_world))) by constructor.
  assert (D0 : drawn numbered_world) by constructor.
  destruct (ids_are_immutable_and_unique strict acme_world [])
    as (_ & Upd & _ & _ & _ & _ & Uniq & _).
  destruct (Uniq U) as (_ & _ & Cr).
  destruct (ids_are_immutable_and_unique strict numbered_world numbered_requests)
    as (_ & _ & _ & _ & _ & _ & _ & Gen).
  destruct (Gen Inj U0 D0) as (_ & Un & _).
  split; [exact U|]. split; [exact Ha|]. split; [exact (Cr acme_payload Ha)|].
  split; [apply Upd|].
  split; [exact Inj|]. split; [exact U0|]. split; [exact D0|].
  split; [vm_compute; reflexivity|exact Un].
Defined.

Lemma null_update_fields_are_discarded_witness :
  TenderUpdate.dict priority_high !! "status" = Some VNone /\
  Forall2 (fun d d' : Doc => d' !! "status" = d !! "status")
    (tenders acme_world)
    (tenders (snd (update_tender strict (Tender.id acme_tender) priority_high
                     acme_world))).
Proof.
  assert (E : TenderUpdate.dict priority_high !! "status" = Some VNone)
    by (vm_compute; reflexivity).
  split; [exact E|].
  destruct (null_update_fields_are_discarded strict (Tender.id acme_tender)
              priority_high ∅ "status" acme_world) as (_ & set & _ & _ & H).
  exact (proj2 (H E)).
Defined.

Lemma out_of_enum_is_rejected_witness :
  off_enum invalid_status_body /\
  off_enum_non_null invalid_status_body /\
  post_tenders strict invalid_status_body acme_world =
    (Raised RequestValidationError, acme_world) /\
  put_tender strict (Tender.id acme_tender) invalid_status_body acme_world =
    (Raised RequestValidationError, acme_world).
Proof.
  assert (H : off_enum invalid_status_body).
  { left. exists (VStr "InvalidStatus"). split; [vm_compute; reflexivity|].
    intros m. destruct m; discriminate. }
  assert (H' : off_enum_non_null invalid_status_body).
  { left. exists (VStr "InvalidStatus"). split; [vm_compute; reflexivity|].
    split; [discriminate|]. intros m. destruct m; discriminate. }
  destruct (out_of_enum_is_rejected strict (Tender.id acme_tender)
              invalid_status_body acme_world) as (Post & Put & _).
  split; [exact H|]. split; [exact H'|].
  split; [exact (Post H)|exact (Put H')].
Defined.

(** ** The further properties at the sample data *)

Lemma get_tender_unreadable_document_witness :
  incomplete acme_without_item /\
  http_status (fst (get_tender strict (Tender.id acme_tender) incomplete_world))
    = 500 /\
  tenders (snd (get_tender strict (Tender.id acme_tender) incomplete_world)) =
    tenders incomplete_world.
Proof.
  assert (H : incomplete acme_without_item).
  { exists "item". split; [by repeat constructor|]. left. vm_compute. reflexivity. }
  assert (Ha : absent (Tender.id acme_tender) []) by (intros d Hd; inversion Hd).
  assert (Hid : acme_without_item !! "id" = Some (VStr (Tender.id acme_tender)))
    by (vm_compute; reflexivity).
  destruct (get_tender_unreadable_document strict (Tender.id acme_tender) [] []
              acme_without_item incomplete_world eq_refl Ha Hid (or_introl H))
    as (S & _ & K).
  split; [exact H|]. split; [exact S|exact K].
Defined.

Lemma get_tenders_unreadable_document_witness :
  acme_without_item ∈ selected None None None incomplete_world /\
  incomplete acme_without_item /\
  http_status (fst (get_tenders strict None None None incomplete_world)) = 500.
Proof.
  assert (Hd : acme_without_item ∈ selected None None None incomplete_world)
    by (rewrite selected_all; left).
  assert (H : incomplete acme_without_item).
  { exists "item". split; [by repeat constructor|]. left. vm_compute. reflexivity. }
  destruct (get_tenders_unreadable_document strict None None None
              acme_without_item incomplete_world Hd (or_introl H)) as (S & _).
  split; [exact Hd|]. split; [exact H|exact S].
Defined.


Lemma unknown_filter_value_selects_nothing_witness :
  well_formed (tenders acme_world) /\
  unknown_filter (Some "Archived") None /\
  fst (get_tenders strict (Some "Archived") None None acme_world) = Returned [].
Proof.
  assert (H : well_formed (tenders acme_world)).
  { constructor; [|constructor]. exists acme_tender.
    unfold stores, stored_items. simpl. repeat constructor. }
  assert (U : unknown_filter (Some "Archived") None).
  { left. exists "Archived". split; [split; [reflexivity|discriminate]|].
    intros m. destruct m; discriminate. }
  split; [exact H|]. split; [exact U|].
  exact (unknown_filter_value_selects_nothing strict (Some "Archived") None None
           acme_world H U).
Defined.

Lemma delete_removes_first_match_witness :
  exists w',
    delete_tender (Tender.id acme_tender) acme_world =
      (Returned deleted_message, w') /\
    tenders w' = [] /\
    (absent (Tender.id acme_tender) [] ->
       http_status (fst (get_tender strict (Tender.id acme_tender) w')) = 404 /\
       http_status (fst (update_tender strict (Tender.id acme_tender)
                           priority_high w')) = 404 /\
       http_status (fst (delete_tender (Tender.id acme_tender) w')) = 404).
Proof.
  apply (delete_removes_first_match strict (Tender.id acme_tender) [] []
           (stored acme_tender) priority_high acme_world).
  - reflexivity.
  - intros d Hd. inversion Hd.
  - vm_compute. reflexivity.
Defined.

Lemma create_then_delete_restores_witness :
  exists x w1 w2,
    create_tender strict acme_payload empty_world = (Returned x, w1) /\
    delete_tender (Tender.id x) w1 = (Returned deleted_message, w2) /\
    tenders w2 = [].
Proof.
  apply (create_then_delete_restores strict acme_payload empty_world).
  - reflexivity.
  - intros d Hd. inversion Hd.
Defined.

Lemma empty_update_touches_updated_at_witness :
  naive_clock fine_world /\
  microsecond (bson_datetime (fine_clock 0)) = 123000 /\
  TenderUpdate_new strict ∅ = Some empty_update /\
  update_set empty_update (fine_clock 0) =
    {["updated_at" := VDateTime (fine_clock 0)]} /\
  tenders (snd (put_tender strict (Tender.id acme_tender) ∅ fine_world)) =
    [<["updated_at" := VDateTime (bson_datetime (fine_clock 0))]>
       (stored acme_tender)].
Proof.
  assert (Hn : naive_clock fine_world) by (intros [|n]; reflexivity).
  split; [exact Hn|]. split; [vm_compute; reflexivity|].
  apply (empty_update_touches_updated_at strict (Tender.id acme_tender) [] []
           (stored acme_tender) fine_world).
  - reflexivity.
  - intros d Hd. inversion Hd.
  - vm_compute. reflexivity.
  - exact Hn.
Defined.

Lemma repeated_update_moves_updated_at_witness :
  naive_clock fine_world /\
  exists d1 w1,
    w1 = snd (update_tender strict (Tender.id acme_tender) priority_high
                fine_world) /\
    tenders w1 = [d1] /\
    tenders (snd (update_tender strict (Tender.id acme_tender) priority_high w1))
      = [<["updated_at" :=
             VDateTime (bson_datetime (utc_clock w1 (clock_reads w1)))]> d1].
Proof.
  assert (Hn : naive_clock fine_world) by (intros [|n]; reflexivity).
  split; [exact Hn|].
  apply (repeated_update_moves_updated_at strict (Tender.id acme_tender)
           priority_high [] [] (stored acme_tender) fine_world).
  - reflexivity.
  - intros d Hd. inversion Hd.
  - vm_compute. reflexivity.
  - exact Hn.
Defined.

Lemma create_returns_payload_and_stores_it_witness :
  wire (TenderCreate.due_date acme_payload) /\ naive_clock fine_empty_world /\
  exists x w1 d,
    create_tender strict acme_payload fine_empty_world = (Returned x, w1) /\
    x = Tender_of acme_payload (Tender.id x) (Tender.created_at x)
          (Tender.updated_at x) /\
    store_calls w1 = [call_insert_one (list_to_map (stored_items x))] /\
    tenders w1 = [d] /\
    stores d (kept x) /\
    clock_reads w1 = 2%nat /\ uuids_drawn w1 = 1%nat.
Proof.
  assert (Hw : wire (TenderCreate.due_date acme_payload)) by reflexivity.
  assert (Hn : naive_clock fine_empty_world) by (intros [|n]; reflexivity).
  split; [exact Hw|]. split; [exact Hn|].
  exact (create_returns_payload_and_stores_it strict acme_payload
           fine_empty_world Hw Hn).
Defined.


Lemma unknown_body_fields_are_ignored_witness :
("id" ∉ TenderCreate_fields) /\
  post_tenders strict (<["id" := VStr "chosen"]> acme_body) empty_world =
    post_tenders strict acme_body empty_world /\
  put_tender strict (Tender.id acme_tender) (<["id" := VStr "chosen"]> ∅)
    acme_world =
    put_tender strict (Tender.id acme_tender) ∅ acme_world.
Proof.
  assert (H : "id" ∉ TenderCreate_fields).
  { intros H. unfold TenderCreate_fields in H.
    repeat (apply elem_of_cons in H as [H|H]; [discriminate H|]).
    inversion H. }
  split; [exact H|]. split.
  - exact (proj1 (unknown_body_fields_are_ignored strict acme_body "id"
                    (VStr "chosen") (Tender.id acme_tender) empty_world H)).
  - exact (proj2 (unknown_body_fields_are_ignored strict ∅ "id"
                    (VStr "chosen") (Tender.id acme_tender) acme_world H)).
Defined.

Lemma create_body_needs_every_field_witness :
  "item" ∈ TenderCreate_required /\
  post_tenders strict (delete "item" acme_body) empty_world =
    (Raised RequestValidationError, empty_world).
Proof.
  assert (H : "item" ∈ TenderCreate_required) by (by repeat constructor).
  split; [exact H|].
  apply (create_body_needs_every_field strict (delete "item" acme_body) "item"
           empty_world H).
  left. vm_compute. reflexivity.
Defined.

Lemma created_tender_is_listed_witness :
  passes None None (Some "Acme") acme_payload /\
  exists x w1 y,
    create_tender strict acme_payload empty_world = (Returned x, w1) /\
    fst (get_tenders strict None None (Some "Acme") empty_world) = Returned [] /\
    fst (get_tenders strict None None (Some "Acme") w1) = Returned ([] ++ [y]) /\
    same_but_timestamps x y.
Proof.
  assert (P : passes None None (Some "Acme") acme_payload).
  { split; [|split]; intros s [E _]; [discriminate E|discriminate E|].
    injection E as <-. reflexivity. }
  split; [exact P|].
  apply (created_tender_is_listed strict acme_payload None None (Some "Acme") []
           empty_world).
  - reflexivity.
  - exact P.
  - simpl. constructor.
  - simpl. lia.
Defined.

Lemma listing_is_capped_witness :
  length (selected None None None full_world) = 1000%nat /\
  selected None None None (snd (create_tender strict acme_payload full_world)) =
    selected None None None full_world.
Proof.
  assert (L : (1000 <= length (List.filter (matches (list_query None None None))
                                 (tenders full_world)))%nat).
  { apply Nat.leb_le. vm_compute. reflexivity. }
  destruct (listing_is_capped strict acme_payload None None None full_world L)
    as (N & S & _).
  split; [exact N|exact S].
Defined.

Lemma created_tender_feeds_the_filters_witness :
  exists x w1 customers sales_reps,
    create_tender strict acme_payload empty_world = (Returned x, w1) /\
    get_customers w1 = (Returned {["customers" := customers]}, w1) /\
    get_sales_reps w1 = (Returned {["sales_reps" := sales_reps]}, w1) /\
    VStr "Acme" ∈ customers /\ VStr "Kim" ∈ sales_reps /\
    (forall v, held "customer" [] v -> v ∈ customers) /\
    (forall v, held "assigned_sales_rep" [] v -> v ∈ sales_reps).
Proof.
  apply (created_tender_feeds_the_filters strict acme_payload empty_world).
  reflexivity.
Defined.

Lemma parse_dates_undoes_isoformat_witness :
  wire (TenderCreate.due_date acme_payload) /\
  exists d1,
    isoformat_dates (TenderCreate.dict acme_payload) empty_world =
      (Returned d1, empty_world) /\
    d1 !! "start_date" = Some (VStr (date_isoformat (mkdate 2024 1 1 I))) /\
    d1 !! "expiry_date" = Some (VStr (date_isoformat (mkdate 2024 2 29 I))) /\
    d1 !! "due_date" =
      Some (VStr (datetime_isoformat
                    (mkdatetime (mkdate 2024 1 15 I) 10 0 0 0 None I))) /\
    parse_dates strict d1 empty_world =
      (Returned (TenderCreate.dict acme_payload), empty_world).
Proof.
  assert (Hw : wire (TenderCreate.due_date acme_payload)) by reflexivity.
  split; [exact Hw|].
  apply (parse_dates_undoes_isoformat strict (TenderCreate.dict acme_payload)).
  - vm_compute. reflexivity.
  - vm_compute. reflexivity.
  - vm_compute. reflexivity.
  - exact Hw.
Defined.

Lemma read_your_writes_witness :
  exists x w1 x' w2 y w3 y' w4,
    create_tender strict acme_payload empty_world = (Returned x, w1) /\
    get_tender strict (Tender.id x) w1 = (Returned x', w2) /\
    same_but_timestamps x x' /\
    update_tender strict (Tender.id x) priority_high w2 = (Returned y, w3) /\
    get_tender strict (Tender.id x) w3 = (Returned y', w4) /\
    same_but_timestamps y y'.
Proof.
  apply (read_your_writes strict acme_payload priority_high empty_world).
  - reflexivity.
  - intros d Hd. inversion Hd.
Defined.

Lemma listed_tender_can_be_fetched_witness :
  fst (get_tender strict (Tender.id acme_tender)
         (with_store (tenders acme_world) (call_find ∅ 1000) acme_world)) =
  Returned acme_tender.
Proof.
  apply (listed_tender_can_be_fetched strict None None None [acme_tender]
           acme_tender acme_world).
  - constructor; [|constructor]. exists acme_tender.
    unfold stores, stored_items. simpl. repeat constructor.
  - vm_compute. apply NoDup_singleton.
  - vm_compute. reflexivity.
  - left.
Defined.

Lemma filter_values_are_the_stored_ones_witness :
  exists customers sales_reps,
    get_customers empty_world =
      (Returned {["customers" := customers]}, empty_world) /\
    get_sales_reps empty_world =
      (Returned {["sales_reps" := sales_reps]}, empty_world) /\
    customers = [] /\ sales_reps = [].
Proof.
  destruct (filter_values_are_the_stored_ones empty_world)
    as (cs & rs & Ec & Er & _ & _ & _ & _ & E).
  exists cs, rs. split; [exact Ec|]. split; [exact Er|]. exact (E eq_refl).
Defined.

Lemma failed_update_is_still_written_witness :
  naive_clock incomplete_world /\
  exists d',
    http_status (fst (update_tender strict (Tender.id acme_tender) priority_high
                        incomplete_world)) = 500 /\
    tenders (snd (update_tender strict (Tender.id acme_tender) priority_high
                    incomplete_world)) = [d'] /\
    d' !! "updated_at" = Some (VDateTime (bson_datetime (sample_clock 2))) /\
    (forall j, non_null priority_high !! j = None -> j <> "updated_at" ->
               d' !! j = acme_without_item !! j).
Proof.
  assert (Hn : naive_clock incomplete_world) by (intros [|[|n]]; reflexivity).
  split; [exact Hn|].
  apply (failed_update_is_still_written strict (Tender.id acme_tender)
           priority_high [] [] acme_without_item "item" incomplete_world).
  - reflexivity.
  - intros d Hd. inversion Hd.
  - vm_compute. reflexivity.
  - by repeat constructor.
  - left. vm_compute. reflexivity.
  - vm_compute. reflexivity.
  - exact Hn.
Defined.
